(** * The dtrace aggregator of nad (lib/dtrace_aggr2/index.js)

    A shallow embedding of the [Dtrace] class: the line framer and report
    decoder of the stdout handler, the 60-slot ring of windows, and
    [flush] with [aggregateSamples] and [makeHistogram].

    Conventions of the embedding.
    - A JavaScript string is a [string]: a list of code units below 256.
      The UTF-8 decoding of the chunks of the child's stdout is not part of
      the model; a chunk is the text the handler appends to its buffer.
    - A JavaScript number is a [jsnum]: [NaN] or an integer.  [parseInt]
      and [+] produce nothing else here.  Integers are exact (the rounding
      of doubles above 2^53 is not modelled).
    - Objects live in a store ([Heap]) and are named by locations, so that
      the windows of the ring, the local [metrics] of the decoder and the
      local [aggregates] of [flush] are shared or distinct exactly as the
      references of the program are.  An object is the list of its own
      properties in creation order.  The name [__proto__] is not a plain
      key in JavaScript: an assignment to it reaches the setter of
      [Object.prototype].  A count assigned to the label [__proto__] is
      dropped, as that setter drops a number ([setNumber]).  A metric
      named [__proto__] would replace the prototype of [metrics]
      instead: that is outside the model, which keeps it as an entry.
    - [Date.now()] is an input: the handler and [flush] receive the
      wall-clock second in which they run. *)

From Stdlib Require Import ZArith Ascii String List Lia DecimalString Sorted.
From stdpp Require Import base option list gmap strings.

Local Open Scope Z_scope.
Local Open Scope string_scope.

(** ** JavaScript primitives used by the module *)

Module Js.

(** Numbers as the module produces them. *)
Inductive jsnum : Type :=
| NaN
| Num (z : Z).

Definition jsnum_eqb (a b : jsnum) : bool :=
  match a, b with
  | Num x, Num y => Z.eqb x y
  | _, _ => false   (* NaN === anything is false *)
  end.

(** [a + b] on numbers. *)
Definition add (a b : jsnum) : jsnum :=
  match a, b with
  | Num x, Num y => Num (x + y)
  | _, _ => NaN
  end.

(** A property read used as an operand of [+]: [undefined] becomes NaN. *)
Definition toNumber (v : option jsnum) : jsnum :=
  match v with
  | Some n => n
  | None => NaN
  end.

(** Template-literal conversion of a number. *)
Definition numToString (n : jsnum) : string :=
  match n with
  | NaN => "NaN"
  | Num z => DecimalString.NilZero.string_of_int (Z.to_int z)
  end.

Definition isDigit (c : ascii) : bool :=
  let n := nat_of_ascii c in (48 <=? n)%nat && (n <=? 57)%nat.

Definition digitVal (c : ascii) : Z := Z.of_nat (nat_of_ascii c) - 48.

(** [\s] of a regular expression, on code units below 256:
    TAB, LF, VT, FF, CR, SP and NBSP. *)
Definition isSpace (c : ascii) : bool :=
  let n := nat_of_ascii c in
  ((9 <=? n)%nat && (n <=? 13)%nat) || (n =? 32)%nat || (n =? 160)%nat.

(** Line terminators, which [.] does not match. *)
Definition isLineTerminator (c : ascii) : bool :=
  let n := nat_of_ascii c in (n =? 10)%nat || (n =? 13)%nat.

(** [s.split(sep)] for a one-character separator: never the empty list. *)
Fixpoint split (sep : ascii) (s : string) : list string :=
  match s with
  | EmptyString => [EmptyString]
  | String c r =>
      if Ascii.eqb c sep then EmptyString :: split sep r
      else match split sep r with
           | seg :: segs => String c seg :: segs
           | [] => [String c EmptyString]
           end
  end.

(** [s.substr(0, n)]. *)
Fixpoint substr0 (n : nat) (s : string) : string :=
  match n, s with
  | S n', String c r => String c (substr0 n' r)
  | _, _ => EmptyString
  end.

(** [s.replace(/[\s@]+/g, '')]. *)
Fixpoint stripSpaceAt (s : string) : string :=
  match s with
  | EmptyString => EmptyString
  | String c r =>
      if isSpace c || Ascii.eqb c "@"%char then stripSpaceAt r
      else String c (stripSpaceAt r)
  end.

Fixpoint allChars (p : ascii -> bool) (s : string) : bool :=
  match s with
  | EmptyString => true
  | String c r => p c && allChars p r
  end.

Fixpoint anyChar (p : ascii -> bool) (s : string) : bool :=
  match s with
  | EmptyString => false
  | String c r => p c || anyChar p r
  end.

(** [line.match(/^=(.+)$/)]: the capture group, or [None] for null. *)
Definition matchMetric (line : string) : option string :=
  match line with
  | String "="%char rest =>
      match rest with
      | EmptyString => None
      | _ => if allChars (fun c => negb (isLineTerminator c)) rest
             then Some rest else None
      end
  | _ => None
  end.

(** [line.match(/\d+|\d+/) !== null]: the bar is an alternation of two
    copies of [\d+], and the expression is not anchored, so the match
    succeeds exactly when the line holds a digit. *)
Definition matchSample (line : string) : bool := anyChar isDigit line.

Fixpoint skipSpace (s : string) : string :=
  match s with
  | String c r => if isSpace c then skipSpace r else s
  | EmptyString => EmptyString
  end.

(** The longest prefix of decimal digits, as a number. *)
Fixpoint digitsPrefix (s : string) (acc : option Z) : option Z :=
  match s with
  | String c r =>
      if isDigit c
      then digitsPrefix r (Some (10 * default 0 acc + digitVal c))
      else acc
  | EmptyString => acc
  end.

(** [parseInt(x, 10)], where [None] is [undefined]. *)
Definition parseInt (x : option string) : jsnum :=
  match x with
  | None => NaN
  | Some s =>
      let s := skipSpace s in
      let '(neg, body) :=
        match s with
        | String "-"%char r => (true, r)
        | String "+"%char r => (false, r)
        | _ => (false, s)
        end in
      match digitsPrefix body None with
      | None => NaN
      | Some v => Num (if neg : bool then - v else v)
      end
  end.

(** An array index: the canonical decimal form of an integer below
    2^32 - 1.  Such keys are enumerated first, in numeric order. *)
Definition arrayIndex (k : string) : option Z :=
  match k with
  | EmptyString => None
  | String c r =>
      if allChars isDigit k
         && (negb (Ascii.eqb c "0"%char) || String.eqb r EmptyString)
      then match digitsPrefix k None with
           | Some v => if (v <? 4294967295)%Z then Some v else None
           | None => None
           end
      else None
  end.

Fixpoint insertIndex (e : Z * string) (l : list (Z * string)) : list (Z * string) :=
  match l with
  | [] => [e]
  | e' :: r => if (fst e <=? fst e')%Z then e :: l else e' :: insertIndex e r
  end.

Definition sortIndex (l : list (Z * string)) : list (Z * string) :=
  foldr insertIndex [] l.

(** An object: its own properties in creation order, one per key. *)
Abbreviation Obj V := (list (string * V)) (only parsing).

Section Props.
Context {V : Type}.

Fixpoint getProp (k : string) (o : Obj V) : option V :=
  match o with
  | [] => None
  | (k', v) :: r => if String.eqb k k' then Some v else getProp k r
  end.

(** [{}.hasOwnProperty.call(o, k)]. *)
Definition hasOwnProperty (o : Obj V) (k : string) : bool :=
  match getProp k o with Some _ => true | None => false end.

(** [o[k] = v] for a name [k] other than [__proto__]: an existing
    property keeps its place. *)
Fixpoint setProp (k : string) (v : V) (o : Obj V) : Obj V :=
  match o with
  | [] => [(k, v)]
  | (k', v') :: r =>
      if String.eqb k k' then (k, v) :: r else (k', v') :: setProp k v r
  end.

(** The keys a [for (k in o)] visits: array indices in ascending
    order, then the other keys in creation order. *)
Definition forInKeys (o : Obj V) : list string :=
  let ks := map fst o in
  map snd (sortIndex (omap (fun k => (fun n => (n, k)) <$> arrayIndex k) ks))
  ++ filter (fun k => arrayIndex k = None) ks.
End Props.

(** An object read with a function applied to each value. *)
Definition mapValues {A B : Type} (f : A -> B) (o : Obj A) : Obj B :=
  map (fun p => (fst p, f (snd p))) o.

(** [o[k] = n] for a number [n], on an object without an own property
    [__proto__]: under that name the assignment is the call of the
    setter of [Object.prototype], which ignores a value that is neither
    an object nor null, and no property is created. *)
Definition setNumber (k : string) (n : jsnum) (o : Obj jsnum) : Obj jsnum :=
  if String.eqb k "__proto__" then o else setProp k n o.

End Js.

Import Js.

Local Open Scope Z_scope.

(** ** The store *)

Abbreviation loc := nat (only parsing).

(** Two kinds of objects are created by the module: maps from a metric
    name to a samples object ([metrics], [aggregates]) and maps from a
    latency label to a count.  A location names one object of either
    kind; a location that holds no object reads as an object without
    properties. *)
Record Heap : Type := mkHeap {
  nextLoc : loc;
  metricsAt : gmap nat (Obj nat);
  samplesAt : gmap nat (Obj jsnum)
}.

Definition emptyHeap : Heap := mkHeap 0%nat ∅ ∅.

Definition readMetrics (h : Heap) (l : loc) : Obj nat :=
  default [] (metricsAt h !! l).

Definition readSamples (h : Heap) (l : loc) : Obj jsnum :=
  default [] (samplesAt h !! l).

Definition writeMetrics (h : Heap) (l : loc) (o : Obj nat) : Heap :=
  mkHeap (nextLoc h) (<[l := o]> (metricsAt h)) (samplesAt h).

Definition writeSamples (h : Heap) (l : loc) (o : Obj jsnum) : Heap :=
  mkHeap (nextLoc h) (metricsAt h) (<[l := o]> (samplesAt h)).

(** [{}] used as a map of metrics. *)
Definition newMetrics (h : Heap) : loc * Heap :=
  (nextLoc h, mkHeap (S (nextLoc h)) (<[nextLoc h := []]> (metricsAt h)) (samplesAt h)).

(** [{}] used as a map of samples. *)
Definition newSamples (h : Heap) : loc * Heap :=
  (nextLoc h, mkHeap (S (nextLoc h)) (metricsAt h) (<[nextLoc h := []]> (samplesAt h))).

(** ** The instance *)

(** An element of [windows]: [null] or a reference to a metrics object.
    A read of [windows] outside the stored indices is [undefined], the
    [None] of the lookup. *)
Inductive slot : Type :=
| SNull
| SRef (l : loc).

(** [lastTimestamp]: never assigned by the constructor, so it starts
    [undefined]. *)
Inductive tstamp : Type :=
| TUndefined
| TNull
| TNum (z : Z).

(** The fields of the instance.  The handle of the child ([dtrace]) and
    [cleaner], which no method reads, are left out. *)
Record Dtrace : Type := mkDtrace {
  dtracePath : string;
  script : string;
  inline : bool;
  buffer : option string;          (* [None] is null *)
  lines : option (list string);    (* [None] is null *)
  windows : gmap Z slot;
  lastTimestamp : tstamp
}.

Definition setBuffer (b : option string) (d : Dtrace) : Dtrace :=
  mkDtrace (dtracePath d) (script d) (inline d) b (lines d) (windows d) (lastTimestamp d).

Definition setLines (l : option (list string)) (d : Dtrace) : Dtrace :=
  mkDtrace (dtracePath d) (script d) (inline d) (buffer d) l (windows d) (lastTimestamp d).

Definition setWindows (w : gmap Z slot) (d : Dtrace) : Dtrace :=
  mkDtrace (dtracePath d) (script d) (inline d) (buffer d) (lines d) w (lastTimestamp d).

Definition setLastTimestamp (t : tstamp) (d : Dtrace) : Dtrace :=
  mkDtrace (dtracePath d) (script d) (inline d) (buffer d) (lines d) (windows d) t.

(** The argument of the constructor: undefined (also an argument left
    out), null, a string, or another value, here a number, a boolean or
    an object without a property [substr] (a plain object, an array).
    An object that brings a method [substr] of its own is not
    modelled. *)
Inductive jsarg : Type :=
| AUndefined
| ANull
| AStr (s : string)
| ANum (n : jsnum)
| ABool (b : bool)
| AObject.

(** What a call gives: a value, an [Error] thrown with its message, or
    a [TypeError] raised by the engine. *)
Inductive result (A : Type) : Type :=
| Ok (a : A)
| Throw (message : string)
| ThrowTypeError (message : string).

Arguments Ok {A} a.
Arguments Throw {A} message.
Arguments ThrowTypeError {A} message.

(** The fields the constructor assigns, for a script that is given. *)
Definition newDtrace (s : string) : Dtrace :=
  mkDtrace "/usr/sbin/dtrace" s
    (negb (String.eqb (substr0 1 s) "/"))
    None None
    (foldl (fun w i => <[i := SNull]> w) ∅ (seqZ 0 60))
    TUndefined.

(** [new Dtrace(script)].  A value that passes the test of the first
    lines and is not a string has no method [substr]: the call
    [this.script.substr(0, 1)] raises a TypeError and no instance is
    returned. *)
Definition Dtrace_constructor (arg : jsarg) : result Dtrace :=
  match arg with
  | ANull | AUndefined => Throw "Script is a required parameter for Dtrace class"
  | AStr s => Ok (newDtrace s)
  | ANum _ | ABool _ | AObject => ThrowTypeError "this.script.substr is not a function"
  end.

(** The arguments [start] passes to the child. *)
Definition dtraceArgs (d : Dtrace) : list string :=
  (["-q"] ++ [if inline d then "-n" else "-s"] ++ [script d])%list.

(** [start()]: what it does to the instance before it registers the
    handlers.  The child process and its exit and stderr handlers are not
    part of the model. *)
Definition start (d : Dtrace) : Dtrace :=
  setLines (Some []) (setBuffer (Some "") d).

(** ** aggregateSamples and makeHistogram *)

(** One turn of the inner loop of [aggregateSamples]. *)
Definition addSample (tgtSamples srcSamples : loc) (h : Heap) (sample : string) : Heap :=
  let h1 :=
    if hasOwnProperty (readSamples h tgtSamples) sample then h
    else writeSamples h tgtSamples (setProp sample (Num 0) (readSamples h tgtSamples)) in
  writeSamples h1 tgtSamples
    (setProp sample
       (add (toNumber (getProp sample (readSamples h1 tgtSamples)))
            (toNumber (getProp sample (readSamples h1 srcSamples))))
       (readSamples h1 tgtSamples)).

(** [if (!{}.hasOwnProperty.call(o, key)) { o[key] = {}; }], which both
    [aggregateSamples] and the decoder run before they write a count. *)
Definition ensureSamples (o : loc) (key : string) (h : Heap) : Heap :=
  if hasOwnProperty (readMetrics h o) key then h
  else let '(fresh, h') := newSamples h in
       writeMetrics h' o (setProp key fresh (readMetrics h' o)).

(** One turn of the outer loop.  A [for-in] over [undefined] has no
    turn. *)
Definition addMetric (tgt src : loc) (h : Heap) (metric : string) : Heap :=
  let h1 := ensureSamples tgt metric h in
  match getProp metric (readMetrics h1 src), getProp metric (readMetrics h1 tgt) with
  | Some srcSamples, Some tgtSamples =>
      foldl (addSample tgtSamples srcSamples) h1 (forInKeys (readSamples h1 srcSamples))
  | _, _ => h1
  end.

(** [aggregateSamples(tgt, src)], [src] being an element of [windows]. *)
Definition aggregateSamples (tgt : loc) (src : option slot) (h : Heap) : Heap :=
  match src with
  | Some SNull => h
  | None => h
  | Some (SRef s) => foldl (addMetric tgt s) h (forInKeys (readMetrics h s))
  end.

(** [makeHistogram(samples)]; the test of [hasOwnProperty] and the read
    of the property are one [getProp]. *)
Definition makeHistogram (h : Heap) (samples : option loc) : list string :=
  match samples with
  | None => []
  | Some l =>
      let o := readSamples h l in
      foldl (fun ret key =>
               match getProp key o with
               | Some v => (ret ++ [("H[" ++ key ++ "]=" ++ numToString v)%string])%list
               | None => ret
               end) [] (forInKeys o)
  end.

(** ** The stdout handler *)

(** The gap loop of the [>END] branch.  With [lastTimestamp] undefined
    both comparisons are on NaN and are false. *)
Definition clearGap (last : tstamp) (currTimestamp : Z) (w : gmap Z slot) : gmap Z slot :=
  match last with
  | TNum l =>
      if 60 <=? currTimestamp - l
      then foldl (fun w j => <[j := SNull]> w) w (seqZ 0 60)
      else foldl (fun w j => <[Z.rem j 60 := SNull]> w) w
             (seqZ (l + 1) (currTimestamp - (l + 1)))
  | TNull =>
      (* null is 0 in arithmetic *)
      if 60 <=? currTimestamp - 0
      then foldl (fun w j => <[j := SNull]> w) w (seqZ 0 60)
      else foldl (fun w j => <[Z.rem j 60 := SNull]> w) w
             (seqZ (0 + 1) (currTimestamp - (0 + 1)))
  | TUndefined => w
  end.

(** The state of the loop over [self.lines]: [metricKey] (null is
    [None]) and the store; [metrics] is a location fixed for the loop. *)
Definition decodeLine (metrics : loc) (st : option string * Heap) (line : string)
  : option string * Heap :=
  let '(metricKey, h) := st in
  match matchMetric line with
  | Some name => (Some name, h)
  | None =>
      match metricKey with
      | None => (metricKey, h)
      | Some key =>
          if matchSample line then
            let aggSample := split "|"%char line in
            let latency := List.hd EmptyString aggSample in
            let count := parseInt (List.nth_error aggSample 1) in
            if jsnum_eqb count (Num 0) then (metricKey, h)
            else
              let h1 := ensureSamples metrics key h in
              match getProp key (readMetrics h1 metrics) with
              | Some samples =>
                  (metricKey,
                   writeSamples h1 samples (setNumber latency count (readSamples h1 samples)))
              | None => (metricKey, h1)
              end
          else (metricKey, h)
      end
  end.

(** The lines the handler sees: [start] has assigned the array before the
    handler is registered; null reads as no line. *)
Definition linesOf (d : Dtrace) : list string := default [] (lines d).

(** The [>END] branch. *)
Definition endOfReport (currTimestamp : Z) (st : Dtrace * Heap) : Dtrace * Heap :=
  let '(d, h) := st in
  let '(metrics, h) := newMetrics h in
  let last :=
    match lastTimestamp d with
    | TNull => TNum currTimestamp
    | t => t
    end in
  let w := clearGap last currTimestamp (windows d) in
  let '(_, h) := foldl (decodeLine metrics) (None, h) (linesOf d) in
  let windowIdx := Z.rem currTimestamp 60 in
  let w := <[windowIdx := SNull]> w in
  if (0 <? length (linesOf d))%nat
  then (setLastTimestamp (TNum currTimestamp)
          (setWindows (<[windowIdx := SRef metrics]> w) d), h)
  else (setLastTimestamp last (setWindows w d), h).

(** The body of the loop over [buffLines]. *)
Definition handleLine (now : Z) (st : Dtrace * Heap) (raw : string) : Dtrace * Heap :=
  let buffLine := stripSpaceAt raw in
  if negb (String.eqb (substr0 1 buffLine) ">")
  then (setLines (Some (linesOf (fst st) ++ [buffLine])%list) (fst st), snd st)
  else if String.eqb (substr0 6 buffLine) ">START"
  then (setLines (Some []) (fst st), snd st)
  else if String.eqb (substr0 4 buffLine) ">END"
  then endOfReport now st
  else st.

(** The segments the loop visits and the new pending buffer: [pop] runs
    only when the last segment is not empty. *)
Definition frame (buf : string) : list string * string :=
  let buffLines := split "010"%char buf in
  if String.eqb (List.last buffLines EmptyString) EmptyString
  then (buffLines, EmptyString)
  else (List.removelast buffLines, List.last buffLines EmptyString).

(** [stdout.on('data', chunk => ...)], run in the second [now].  A null
    buffer concatenates as the text [null]. *)
Definition onStdoutData (now : Z) (st : Dtrace * Heap) (chunk : string) : Dtrace * Heap :=
  let '(d, h) := st in
  let buf := (default "null" (buffer d) ++ chunk)%string in
  let '(buffLines, rest) := frame buf in
  foldl (handleLine now) (setBuffer (Some rest) d, h) buffLines.

(** ** flush *)

(** The values [flush] returns: fresh objects and arrays that the
    instance keeps no reference to. *)
Local Unset Elimination Schemes.
Inductive jsval : Type :=
| VStr (s : string)
| VArr (items : list jsval)
| VObj (props : list (string * jsval)).
Local Set Elimination Schemes.

(** The seconds the loop of [flush] visits. *)
Definition flushSeconds (startTimestamp : Z) (last : tstamp) : list Z :=
  match last with
  | TNum l => seqZ startTimestamp (l - startTimestamp + 1)
  | TNull => seqZ startTimestamp (0 - startTimestamp + 1)
  | TUndefined => []
  end.

(** [flush(numSamples)], run in the second [now]: the returned value and
    the state it leaves. *)
Definition flush (now numSamples : Z) (st : Dtrace * Heap) : jsval * (Dtrace * Heap) :=
  let '(d, h) := st in
  let currTimestamp := now in
  let startTimestamp := currTimestamp - numSamples in
  let '(aggregates, h) := newMetrics h in
  let h :=
    foldl (fun h i => aggregateSamples aggregates (windows d !! Z.rem i 60) h)
      h (flushSeconds startTimestamp (lastTimestamp d)) in
  let histograms :=
    foldl (fun (hist : Obj jsval) key =>
             if hasOwnProperty (readMetrics h aggregates) key
             then setProp key
                    (VObj [("_type", VStr "n");
                           ("_value",
                            VArr (VStr <$> makeHistogram h (getProp key (readMetrics h aggregates))))])
                    hist
             else hist)
      [] (forInKeys (readMetrics h aggregates)) in
  (VObj histograms, (d, h)).

(** ** Values of the stored objects *)

(** What a metrics object holds, read through the store: each metric
    with the samples its reference points to. *)
Definition viewMetrics (h : Heap) (l : loc) : Obj (Obj jsnum) :=
  mapValues (readSamples h) (readMetrics h l).

(** What an element of [windows] holds. *)
Definition viewSlot (h : Heap) (s : option slot) : option (Obj (Obj jsnum)) :=
  match s with
  | Some (SRef l) => Some (viewMetrics h l)
  | _ => None
  end.

(** A slot without recorded data: undefined, null, or a metrics object
    without a metric. *)
Definition noData (h : Heap) (s : option slot) : Prop :=
  match s with
  | Some (SRef l) => readMetrics h l = []
  | _ => True
  end.

(** The count a window holds for a metric and a label; [None] is
    undefined. *)
Definition storedCount (h : Heap) (metrics : loc) (key latency : string) : option jsnum :=
  getProp key (viewMetrics h metrics) ≫= getProp latency.

(** [v[k]] on a returned value; [None] is undefined. *)
Definition propOf (v : jsval) (k : string) : option jsval :=
  match v with
  | VObj props => getProp k props
  | _ => None
  end.

(** The shape of the value [flush] builds for a metric: the type tag
    [n] and the list of bucket entries, under [_type] and [_value]. *)
Definition histogramValue (v : jsval) : Prop :=
  ∃ entries, v = VObj [("_type", VStr "n"); ("_value", VArr (VStr <$> entries))].

(** The value [flush] returns for one metric with the given entries. *)
Definition histogramOf (metric : string) (entries : list string) : jsval :=
  VObj [(metric, VObj [("_type", VStr "n"); ("_value", VArr (VStr <$> entries))])].

(** ** Merging on values

    What [aggregateSamples] computes, on the values of the objects and
    without a store: counts are summed per metric and per label, an
    absent bucket starting from zero. *)

Definition mergeSample (src tgt : Obj jsnum) (sample : string) : Obj jsnum :=
  let t1 := if hasOwnProperty tgt sample then tgt else setProp sample (Num 0) tgt in
  setProp sample
    (add (toNumber (getProp sample t1)) (toNumber (getProp sample src))) t1.

Definition mergeSamples (tgt src : Obj jsnum) : Obj jsnum :=
  foldl (mergeSample src) tgt (forInKeys src).

Definition mergeMetric (src tgt : Obj (Obj jsnum)) (metric : string) : Obj (Obj jsnum) :=
  let t1 := if hasOwnProperty tgt metric then tgt else setProp metric [] tgt in
  match getProp metric src, getProp metric t1 with
  | Some s, Some t => setProp metric (mergeSamples t s) t1
  | _, _ => t1
  end.

Definition mergeWindow (tgt : Obj (Obj jsnum)) (src : option (Obj (Obj jsnum)))
  : Obj (Obj jsnum) :=
  match src with
  | Some s => foldl (mergeMetric s) tgt (forInKeys s)
  | None => tgt
  end.

(** The merged value of the slots that a list of seconds reads. *)
Definition mergedWindows (d : Dtrace) (h : Heap) (seconds : list Z) : Obj (Obj jsnum) :=
  foldl (fun acc i => mergeWindow acc (viewSlot h (windows d !! Z.rem i 60))) [] seconds.

(** The entries [makeHistogram] builds from the value of a samples
    object. *)
Definition histogramEntries (samples : Obj jsnum) : list string :=
  foldl (fun ret key =>
           match getProp key samples with
           | Some v => (ret ++ [("H[" ++ key ++ "]=" ++ numToString v)%string])%list
           | None => ret
           end) [] (forInKeys samples).

(** The value [flush] returns for merged distributions. *)
Definition render (aggregates : Obj (Obj jsnum)) : jsval :=
  VObj (foldl (fun (hist : Obj jsval) key =>
                 match getProp key aggregates with
                 | Some samples =>
                     setProp key
                       (VObj [("_type", VStr "n");
                              ("_value", VArr (VStr <$> histogramEntries samples))])
                       hist
                 | None => hist
                 end) [] (forInKeys aggregates)).

(** ** The last sample of a report *)

(** The count of the last sample line of a report with the metric [key]
    and the label [latency], in the words of the claim on duplicate
    samples: a scan of the lines that keeps the current metric name and,
    at each sample line with that name and label, forgets the count it
    held for the count of the line. *)
Definition lastSampleStep (key latency : string)
    (st : option string * option jsnum) (line : string) : option string * option jsnum :=
  match matchMetric line with
  | Some name => (Some name, snd st)
  | None =>
      match fst st with
      | None => st
      | Some k =>
          if matchSample line then
            let aggSample := split "|"%char line in
            let count := parseInt (List.nth_error aggSample 1) in
            if String.eqb k key && String.eqb (List.hd EmptyString aggSample) latency
            then (fst st, Some count)
            else st
          else st
      end
  end.

Definition lastSample (key latency : string) (report : list string) : option jsnum :=
  snd (foldl (lastSampleStep key latency) (None, None) report).

(** The same scan with the two exceptions of the code: a line whose
    count parses to zero is passed over and leaves the count held, and a
    line with the label [__proto__] stores nothing. *)
Definition lastStoredStep (key latency : string)
    (st : option string * option jsnum) (line : string) : option string * option jsnum :=
  match matchMetric line with
  | Some name => (Some name, snd st)
  | None =>
      match fst st with
      | None => st
      | Some k =>
          if matchSample line then
            let aggSample := split "|"%char line in
            let label := List.hd EmptyString aggSample in
            let count := parseInt (List.nth_error aggSample 1) in
            if jsnum_eqb count (Num 0) then st
            else if String.eqb label "__proto__" then st
            else if String.eqb k key && String.eqb label latency
                 then (fst st, Some count)
                 else st
          else st
      end
  end.

Definition lastStored (key latency : string) (report : list string) : option jsnum :=
  snd (foldl (lastStoredStep key latency) (None, None) report).

(** The metric name in force after some lines of a report: the name of
    the last metric line among them. *)
Definition currentMetric (report : list string) : option string :=
  foldl (fun ctx line => match matchMetric line with
                         | Some name => Some name
                         | None => ctx
                         end) None report.

(** ** Seconds without a report *)

(** [k] is the ring index of a second strictly between [l] and [t]. *)
Definition gapSecond (l t k : Z) : Prop := ∃ s, l < s < t ∧ s mod 60 = k.

(** ** Well-formed states

    No object lives at or above the next free location, every reference
    held by a metrics object or by the ring is below it. *)
Definition wfHeap (h : Heap) : Prop :=
  (∀ l, (nextLoc h ≤ l)%nat → metricsAt h !! l = None)
  ∧ (∀ l, (nextLoc h ≤ l)%nat → samplesAt h !! l = None)
  ∧ (∀ l r, r ∈ map snd (readMetrics h l) → (r < nextLoc h)%nat).

Definition wfState (st : Dtrace * Heap) : Prop :=
  wfHeap (snd st)
  ∧ ∀ i l, windows (fst st) !! i = Some (SRef l) → (l < nextLoc (snd st))%nat.

(** [h] keeps every object of [h0]. *)
Definition keeps (h0 h : Heap) : Prop :=
  (nextLoc h0 ≤ nextLoc h)%nat
  ∧ (∀ l, (l < nextLoc h0)%nat → metricsAt h !! l = metricsAt h0 !! l)
  ∧ (∀ l, (l < nextLoc h0)%nat → samplesAt h !! l = samplesAt h0 !! l).

(** A local metrics object [tgt] created after [h0]: its samples objects
    are distinct and were created after [h0] too. *)
Definition ownsFresh (h0 : Heap) (tgt : loc) (h : Heap) : Prop :=
  (nextLoc h0 ≤ tgt < nextLoc h)%nat
  ∧ NoDup (map snd (readMetrics h tgt))
  ∧ ∀ r, r ∈ map snd (readMetrics h tgt) →
         (nextLoc h0 ≤ r)%nat ∧ is_Some (samplesAt h !! r).

(** The invariant of a loop that fills the local object [tgt]. *)
Definition fills (h0 : Heap) (tgt : loc) (h : Heap) : Prop :=
  wfHeap h ∧ keeps h0 h ∧ ownsFresh h0 tgt h.

(** The states of an instance: [start] on a new instance, over any
    well-formed store; then chunks of the child's output, calls of
    [flush], and [start] again when the child has exited. *)
Inductive reachable : Dtrace * Heap → Prop :=
| reach_start s h :
    wfHeap h → reachable (start (newDtrace s), h)
| reach_data now chunk st :
    reachable st → reachable (onStdoutData now st chunk)
| reach_flush now numSamples st :
    reachable st → reachable (snd (flush now numSamples st))
| reach_restart st :
    reachable st → reachable (start (fst st), snd st).

(** ** Counts and keys of values *)

(** The count a mapping holds for a metric and a label. *)
Definition countOf (m : Obj (Obj jsnum)) (key latency : string) : option jsnum :=
  getProp key m ≫= getProp latency.

(** A count after the count of a source has been added to it: an
    absent bucket starts from zero, an absent source changes nothing. *)
Definition sumCount (old src : option jsnum) : option jsnum :=
  match src with
  | Some c => Some (add (default (Num 0) old) c)
  | None => old
  end.

(** The lists stand for objects: a key occurs once, in the mapping and
    in each of its distributions. *)
Definition uniqueKeys (m : Obj (Obj jsnum)) : Prop :=
  NoDup (map fst m) ∧ Forall (fun p => NoDup (map fst (snd p))) m.

(** A text without a character that the handler strips. *)
Definition normalised (s : string) : bool :=
  allChars (fun c => negb (isSpace c || Ascii.eqb c "@"%char)) s.

(** A data line that the decoder passes over under every metric
    context: it names no metric, and it holds no digit or its count
    parses to zero. *)
Definition inert (line : string) : bool :=
  match matchMetric line with
  | Some _ => false
  | None =>
      negb (matchSample line)
      || jsnum_eqb (parseInt (List.nth_error (split "|"%char line) 1)) (Num 0)
  end.

(** The ring as the constructor builds it and the handler keeps it when
    the clock is not negative: an element at each index from 0 to 59,
    nothing elsewhere, and [lastTimestamp] undefined or a second that is
    not negative. *)
Definition ringShaped (d : Dtrace) : Prop :=
  (∀ k, 0 ≤ k < 60 → is_Some (windows d !! k))
  ∧ (∀ k, ¬ (0 ≤ k < 60) → windows d !! k = None)
  ∧ match lastTimestamp d with
    | TUndefined => True
    | TNull => False
    | TNum l => 0 ≤ l
    end.

(** ** Decoding on values

    What the loop over the pending lines computes, on the value of
    [metrics] and without a store. *)
Definition decodeValueLine (st : option string * Obj (Obj jsnum)) (line : string)
  : option string * Obj (Obj jsnum) :=
  match matchMetric line with
  | Some name => (Some name, snd st)
  | None =>
      match fst st with
      | None => st
      | Some key =>
          if matchSample line then
            let aggSample := split "|"%char line in
            let latency := List.hd EmptyString aggSample in
            let count := parseInt (List.nth_error aggSample 1) in
            if jsnum_eqb count (Num 0) then st
            else
              let m1 := if hasOwnProperty (snd st) key then snd st
                        else setProp key [] (snd st) in
              match getProp key m1 with
              | Some samples => (fst st, setProp key (setNumber latency count samples) m1)
              | None => (fst st, m1)
              end
          else st
      end
  end.

Definition decodeValue (report : list string) : Obj (Obj jsnum) :=
  snd (foldl decodeValueLine (None, []) report).

(** Every window of the ring has its keys once. *)
Definition windowsUnique (st : Dtrace * Heap) : Prop :=
  ∀ i l, windows (fst st) !! i = Some (SRef l) → uniqueKeys (viewMetrics (snd st) l).

(** The count that the slot read in the second [i] holds. *)
Definition slotCount (st : Dtrace * Heap) (key latency : string) (i : Z) : option jsnum :=
  match viewSlot (snd st) (windows (fst st) !! Z.rem i 60) with
  | Some v => countOf v key latency
  | None => None
  end.

(** The count [flush] sums for a metric and a label over the seconds it
    visits: the counts of the slots are added in visiting order, an
    absent bucket starting from zero. *)
Definition summedCount (st : Dtrace * Heap) (seconds : list Z) (key latency : string)
  : option jsnum :=
  foldl sumCount None (slotCount st key latency <$> seconds).

(** The slot read in the second [i] holds a window with the metric
    [key]. *)
Definition slotHolds (st : Dtrace * Heap) (key : string) (i : Z) : Prop :=
  ∃ v, viewSlot (snd st) (windows (fst st) !! Z.rem i 60) = Some v
       ∧ is_Some (getProp key v).

(** The entry [makeHistogram] writes for a label and a count. *)
Definition bucketEntry (latency : string) (c : jsnum) : string :=
  ("H[" ++ latency ++ "]=" ++ numToString c)%string.

(** ** Inputs of the examples *)

(** A running instance with an empty store: the constructor, then
    [start]. *)
Definition launched (s : string) : Dtrace * Heap := (start (newDtrace s), emptyHeap).

Definition nl : string := String "010"%char EmptyString.

(** The text of a report: [>START], the data lines, [>END], each ended
    by a newline. *)
Definition reportText (data : list string) : string :=
  (">START" ++ nl ++ foldr (fun l acc => l ++ nl ++ acc) EmptyString data ++ ">END" ++ nl)%string.

(** One report delivered as one chunk in the second [t]. *)
Definition deliver (t : Z) (data : list string) (st : Dtrace * Heap) : Dtrace * Heap :=
  onStdoutData t st (reportText data).

(** A running instance whose pending report holds the given data lines,
    as the handler leaves it before it reads [>END]. *)
Definition collecting (data : list string) : Dtrace * Heap :=
  (setLines (Some data) (fst (launched "/io.d")), emptyHeap).

(** The instance after one report whose only line names a metric. *)
Definition emptyReportState : Dtrace * Heap := deliver 120 ["=foo"] (launched "/io.d").

(** The instance after the report [=read], [10|2], [20|1], finalized in
    the second [t]. *)
Definition readReport (t : Z) : Dtrace * Heap :=
  deliver t ["=read"; "10|2"; "20|1"] (launched "/io.d").

(** Three reports of one sample each, in three consecutive seconds. *)
Definition threeSeconds : Dtrace * Heap :=
  deliver 102 ["=m"; "10|1"]
    (deliver 101 ["=m"; "10|1"]
       (deliver 100 ["=m"; "10|1"] (launched "/io.d"))).

(** Sixty reports of one sample each, in the seconds 100 to 159. *)
Definition sixtySeconds : Dtrace * Heap :=
  foldl (fun st t => deliver t ["=m"; "10|1"] st) (launched "/io.d") (seqZ 100 60).

(** The text [>START], newline, [>END], newline in one chunk and in two. *)
Definition oneChunk : Dtrace * Heap :=
  onStdoutData 120 (launched "/io.d") (">START" ++ nl ++ ">END" ++ nl)%string.

Definition twoChunks : Dtrace * Heap :=
  onStdoutData 120 (onStdoutData 120 (launched "/io.d") (">START" ++ nl)%string)
    (">END" ++ nl)%string.

(** A distribution whose metric name and labels hold no whitespace and
    no [@]. *)
Definition normalisedEntry (p : string * list (string * jsnum)) : Prop :=
  normalised (fst p) = true ∧ Forall (fun q => normalised (fst q) = true) (snd p).

(** The pending lines are stripped, and every window of the ring is the
    decoding of stripped lines. *)
Definition decodedState (st : Dtrace * Heap) : Prop :=
  Forall (fun l => normalised l = true) (linesOf (fst st))
  ∧ ∀ i l, windows (fst st) !! i = Some (SRef l) →
           ∃ ls, Forall (fun l => normalised l = true) ls
                 ∧ viewMetrics (snd st) l = decodeValue ls.

(** ** Sequences of reports *)

(** A data line that the handler appends to the pending lines as it is:
    nothing to strip, and not a control line. *)
Definition clean (line : string) : bool :=
  normalised line && negb (String.eqb (substr0 1 line) ">").

(** Seconds that grow strictly, all above [prev]. *)
Fixpoint ascending (prev : Z) (times : list Z) : bool :=
  match times with
  | [] => true
  | t :: r => (prev <? t) && ascending t r
  end.

(** The reports delivered one after the other, each in its second. *)
Definition deliverAll (reports : list (Z * list string)) (st : Dtrace * Heap)
  : Dtrace * Heap :=
  foldl (fun st r => deliver (fst r) (snd r) st) st reports.

(** The distributions of the report finalized in the second [i], if
    there is one. *)
Definition reportValue (reports : list (Z * list string)) (i : Z)
  : option (Obj (Obj jsnum)) :=
  (fun r => decodeValue (snd r)) <$> List.find (fun r => Z.eqb (fst r) i) reports.

(** The count the report of the second [i] holds for a metric and a
    label. *)
Definition reportCount (reports : list (Z * list string)) (key latency : string) (i : Z)
  : option jsnum :=
  reportValue reports i ≫= (fun v => countOf v key latency).

(** The report of the second [i] has recorded the metric [key]. *)
Definition reportHolds (reports : list (Z * list string)) (key : string) (i : Z) : Prop :=
  ∃ v, reportValue reports i = Some v ∧ is_Some (getProp key v).

(** Two reports, in the seconds 100 and 101. *)
Definition twoReports : list (Z * list string) :=
  [(100, ["=m"; "10|1"]); (101, ["=m"; "10|2"; "20|1"])].

(** The store after the window of [readReport 120] has been merged
    into a new object. *)
Definition mergedOnce : Heap :=
  aggregateSamples 2%nat (Some (SRef 0%nat)) (snd (newMetrics (snd (readReport 120)))).

(** * Properties *)

(** ** Objects *)

Section ObjFacts.
Context {V : Type}.
Implicit Types (o : Obj V) (k : string) (v : V).

Lemma getProp_setProp_eq k v o : getProp k (setProp k v o) = Some v.
Proof.
  induction o as [|[k' v'] o IH]; simpl.
  - by rewrite String.eqb_refl.
  - destruct (String.eqb k k') eqn:E; simpl; rewrite ?String.eqb_refl, ?E; done.
Qed.

Lemma getProp_setProp_ne k k' v o :
  k ≠ k' → getProp k' (setProp k v o) = getProp k' o.
Proof.
  intros Hne. induction o as [|[k1 v1] o IH]; simpl.
  - destruct (String.eqb k' k) eqn:E; [|done].
    apply String.eqb_eq in E. congruence.
  - destruct (String.eqb k k1) eqn:E; simpl.
    + apply String.eqb_eq in E. subst k1.
      destruct (String.eqb k' k) eqn:E'; [|done].
      apply String.eqb_eq in E'. congruence.
    + by rewrite IH.
Qed.

Lemma hasOwnProperty_true o k :
  hasOwnProperty o k = true ↔ is_Some (getProp k o).
Proof.
  unfold hasOwnProperty. destruct (getProp k o) as [v|]; split.
  - intros _. by exists v.
  - done.
  - done.
  - intros [v Hv]. discriminate.
Qed.

Lemma hasOwnProperty_nil k : hasOwnProperty (@nil (string * V)) k = false.
Proof. done. Qed.

Lemma forInKeys_nil : forInKeys (@nil (string * V)) = [].
Proof. done. Qed.
End ObjFacts.

Lemma foldl_fixed {A B : Type} (f : A → B → A) (a : A) (l : list B) :
  (∀ x, x ∈ l → f a x = a) → foldl f a l = a.
Proof.
  induction l as [|x l IH]; intros H; simpl; [done|].
  rewrite H; [|by left]. apply IH. intros y Hy. apply H. by right.
Qed.

(** ** The store *)

Lemma readMetrics_newMetrics h l :
  readMetrics (snd (newMetrics h)) l =
  if decide (l = nextLoc h) then [] else readMetrics h l.
Proof.
  unfold readMetrics, newMetrics; simpl. case_decide as E.
  - subst. by rewrite lookup_insert_eq.
  - by rewrite lookup_insert_ne.
Qed.

Lemma aggregateSamples_noData tgt s h :
  noData h s → aggregateSamples tgt s h = h.
Proof.
  destruct s as [[|l]|]; simpl; try done.
  intros ->. done.
Qed.

Lemma noData_newMetrics h s : noData h s → noData (snd (newMetrics h)) s.
Proof.
  destruct s as [[|l]|]; unfold noData; try done.
  intros H. rewrite readMetrics_newMetrics. by case_decide.
Qed.


(** ** Objects read through a map of their values *)

Section ObjMap.
Context {A B : Type} (f : A → B).
Implicit Types (o : Obj A) (k : string).

Lemma getProp_mapValues k o : getProp k (mapValues f o) = f <$> getProp k o.
Proof.
  induction o as [|[k' v] o IH]; simpl; [done|].
  by destruct (String.eqb k k').
Qed.

Lemma hasOwnProperty_mapValues k o :
  hasOwnProperty (mapValues f o) k = hasOwnProperty o k.
Proof.
  unfold hasOwnProperty. rewrite getProp_mapValues.
  by destruct (getProp k o).
Qed.

Lemma forInKeys_mapValues o : forInKeys (mapValues f o) = forInKeys o.
Proof.
  unfold forInKeys, mapValues. rewrite map_map. simpl. done.
Qed.

Lemma mapValues_setProp k v o :
  mapValues f (setProp k v o) = setProp k (f v) (mapValues f o).
Proof.
  induction o as [|[k' v'] o IH]; simpl; [done|].
  destruct (String.eqb k k'); simpl; [done|]. by rewrite IH.
Qed.
End ObjMap.

Section ObjMore.
Context {V : Type}.
Implicit Types (o : Obj V) (k : string) (v : V).

Lemma getProp_elem_of k v o : getProp k o = Some v → v ∈ map snd o.
Proof.
  induction o as [|[k' v'] o IH]; simpl; [done|].
  destruct (String.eqb k k').
  - intros [= ->]. by left.
  - intros H. right. by apply IH.
Qed.

Lemma elem_of_getProp v o : v ∈ map snd o → ∃ k, (k, v) ∈ o.
Proof.
  intros H. apply list_elem_of_fmap in H as [[k v'] [-> H]]. by exists k.
Qed.

Lemma snd_setProp_new k v o :
  getProp k o = None → map snd (setProp k v o) = (map snd o ++ [v])%list.
Proof.
  induction o as [|[k' v'] o IH]; simpl; [done|].
  destruct (String.eqb k k'); [done|]. intros H. simpl. by rewrite IH.
Qed.

Lemma setProp_same k v o : getProp k o = Some v → setProp k v o = o.
Proof.
  induction o as [|[k' v'] o IH]; simpl; [done|].
  destruct (String.eqb k k') eqn:E.
  - apply String.eqb_eq in E. by intros [= ->]; subst.
  - intros H. by rewrite IH.
Qed.
End ObjMore.

(** Reading the values of a metrics object through two stores that
    differ at one samples object. *)
Lemma mapValues_update {B : Type} (f g : nat → B) (k : string) (r : nat) (o : Obj nat) :
  getProp k o = Some r →
  NoDup (map snd o) →
  (∀ r', r' ≠ r → g r' = f r') →
  mapValues g o = setProp k (g r) (mapValues f o).
Proof.
  intros Hk Hnd Hfg. induction o as [|[k' r'] o IH]; simpl in *; [done|].
  apply NoDup_cons in Hnd as [Hr' Hnd].
  destruct (String.eqb k k') eqn:E.
  - injection Hk as ->. apply String.eqb_eq in E as ->. f_equal.
    apply map_ext_in. intros [k2 r2] Hin. simpl. f_equal. apply Hfg.
    intros ->. apply Hr'. apply list_elem_of_In. apply in_map_iff.
    by exists (k2, r).
  - f_equal.
    + f_equal. apply Hfg. intros ->. apply Hr'. by eapply getProp_elem_of.
    + by apply IH.
Qed.

Lemma mapValues_ext {B : Type} (f g : nat → B) (o : Obj nat) :
  (∀ r, r ∈ map snd o → g r = f r) → mapValues g o = mapValues f o.
Proof.
  intros H. apply map_ext_in. intros [k r] Hin. simpl. f_equal. apply H.
  apply list_elem_of_In. apply in_map_iff. by exists (k, r).
Qed.

(** ** Reads and writes of the store *)

Lemma readSamples_writeSamples h l o l' :
  readSamples (writeSamples h l o) l' = if decide (l = l') then o else readSamples h l'.
Proof.
  unfold readSamples, writeSamples; simpl. case_decide as E.
  - subst. by rewrite lookup_insert_eq.
  - by rewrite lookup_insert_ne.
Qed.

Lemma readMetrics_writeMetrics h l o l' :
  readMetrics (writeMetrics h l o) l' = if decide (l = l') then o else readMetrics h l'.
Proof.
  unfold readMetrics, writeMetrics; simpl. case_decide as E.
  - subst. by rewrite lookup_insert_eq.
  - by rewrite lookup_insert_ne.
Qed.

Lemma writeSamples_writeSamples h l o o' :
  writeSamples (writeSamples h l o) l o' = writeSamples h l o'.
Proof. unfold writeSamples; simpl. by rewrite insert_insert_eq. Qed.

Lemma writeSamples_read h l :
  is_Some (samplesAt h !! l) → writeSamples h l (readSamples h l) = h.
Proof.
  intros [o Ho]. unfold writeSamples, readSamples. rewrite Ho. simpl.
  rewrite insert_id by done. by destruct h.
Qed.

(** ** The inner loop of aggregateSamples *)

Lemma addSample_spec tgtSamples srcSamples h sample :
  tgtSamples ≠ srcSamples →
  addSample tgtSamples srcSamples h sample =
  writeSamples h tgtSamples
    (mergeSample (readSamples h srcSamples) (readSamples h tgtSamples) sample).
Proof.
  intros Hne. unfold addSample, mergeSample.
  destruct (hasOwnProperty (readSamples h tgtSamples) sample); [done|].
  rewrite writeSamples_writeSamples, !readSamples_writeSamples.
  repeat case_decide; congruence.
Qed.

Lemma addSamples_spec tgtSamples srcSamples keys h :
  tgtSamples ≠ srcSamples →
  is_Some (samplesAt h !! tgtSamples) →
  foldl (addSample tgtSamples srcSamples) h keys =
  writeSamples h tgtSamples
    (foldl (mergeSample (readSamples h srcSamples)) (readSamples h tgtSamples) keys).
Proof.
  intros Hne. revert h. induction keys as [|k keys IH]; intros h Hsome; simpl.
  - by rewrite writeSamples_read.
  - rewrite addSample_spec by done. rewrite IH.
    + rewrite writeSamples_writeSamples, !readSamples_writeSamples.
      repeat case_decide; congruence.
    + unfold writeSamples; simpl. rewrite lookup_insert_eq. by eexists.
Qed.

(** ** Well-formed stores *)

Lemma wfHeap_unmapped_ge h l :
  wfHeap h → is_Some (samplesAt h !! l) → (l < nextLoc h)%nat.
Proof.
  intros (_ & Hs & _) [o Ho].
  destruct (decide (l < nextLoc h)%nat) as [|Hge]; [done|].
  rewrite Hs in Ho by lia. discriminate.
Qed.

Lemma wfHeap_writeSamples h l o :
  wfHeap h → (l < nextLoc h)%nat → wfHeap (writeSamples h l o).
Proof.
  intros (Hm & Hs & Hr) Hl. split; [|split]; simpl.
  - done.
  - intros l' Hl'. rewrite lookup_insert_ne by lia. by apply Hs.
  - done.
Qed.

Lemma wfHeap_writeMetrics h l o :
  wfHeap h → (l < nextLoc h)%nat →
  (∀ r, r ∈ map snd o → (r < nextLoc h)%nat) →
  wfHeap (writeMetrics h l o).
Proof.
  intros (Hm & Hs & Hr) Hl Ho. split; [|split].
  - simpl. intros l' Hl'. rewrite lookup_insert_ne by lia. by apply Hm.
  - done.
  - intros l' r. rewrite readMetrics_writeMetrics. case_decide; [apply Ho|apply Hr].
Qed.

Lemma wfHeap_newSamples h : wfHeap h → wfHeap (snd (newSamples h)).
Proof.
  intros (Hm & Hs & Hr). split; [|split]; simpl.
  - intros l Hl. apply Hm. lia.
  - intros l Hl. rewrite lookup_insert_ne by lia. apply Hs. lia.
  - intros l r Hin. specialize (Hr l r Hin). lia.
Qed.

Lemma wfHeap_newMetrics h : wfHeap h → wfHeap (snd (newMetrics h)).
Proof.
  intros (Hm & Hs & Hr). split; [|split].
  - simpl. intros l Hl. rewrite lookup_insert_ne by lia. apply Hm. lia.
  - simpl. intros l Hl. apply Hs. lia.
  - intros l r. rewrite readMetrics_newMetrics. case_decide.
    + intros Hin. by apply elem_of_nil in Hin.
    + intros Hin. specialize (Hr l r Hin). simpl. lia.
Qed.

Lemma keeps_refl h : keeps h h.
Proof. split; [|split]; [lia|done|done]. Qed.

Lemma keeps_trans h0 h1 h2 : keeps h0 h1 → keeps h1 h2 → keeps h0 h2.
Proof.
  intros (Hn & Hm & Hs) (Hn' & Hm' & Hs'). split; [|split].
  - lia.
  - intros l Hl. rewrite Hm' by lia. by apply Hm.
  - intros l Hl. rewrite Hs' by lia. by apply Hs.
Qed.

Lemma keeps_readMetrics h0 h l :
  keeps h0 h → (l < nextLoc h0)%nat → readMetrics h l = readMetrics h0 l.
Proof. intros (_ & Hm & _) Hl. unfold readMetrics. by rewrite Hm. Qed.

Lemma keeps_readSamples h0 h l :
  keeps h0 h → (l < nextLoc h0)%nat → readSamples h l = readSamples h0 l.
Proof. intros (_ & _ & Hs) Hl. unfold readSamples. by rewrite Hs. Qed.

Lemma keeps_viewMetrics h0 h l :
  wfHeap h0 → keeps h0 h → (l < nextLoc h0)%nat →
  viewMetrics h l = viewMetrics h0 l.
Proof.
  intros Hwf Hk Hl. unfold viewMetrics.
  rewrite (keeps_readMetrics h0 h) by done.
  apply mapValues_ext. intros r Hr. apply (keeps_readSamples h0 h); [done|].
  destruct Hwf as (_ & _ & Hrefs). by apply (Hrefs l).
Qed.

Lemma keeps_newMetrics h : keeps h (snd (newMetrics h)).
Proof.
  split; [|split]; simpl; [lia| |done].
  intros l Hl. by rewrite lookup_insert_ne by lia.
Qed.

Lemma keeps_newSamples h : keeps h (snd (newSamples h)).
Proof.
  split; [|split]; simpl; [lia|done|].
  intros l Hl. by rewrite lookup_insert_ne by lia.
Qed.

Lemma keeps_writeSamples h l o :
  (nextLoc h ≤ l)%nat → keeps h (writeSamples h l o).
Proof.
  intros Hl. split; [|split]; simpl; [lia|done|].
  intros l' Hl'. by rewrite lookup_insert_ne by lia.
Qed.

Lemma keeps_writeMetrics h l o :
  (nextLoc h ≤ l)%nat → keeps h (writeMetrics h l o).
Proof.
  intros Hl. split; [|split]; simpl; [lia| |done].
  intros l' Hl'. by rewrite lookup_insert_ne by lia.
Qed.

(** ** Filling a local metrics object *)

Lemma fills_owned h0 tgt h key r :
  fills h0 tgt h → getProp key (readMetrics h tgt) = Some r →
  (nextLoc h0 ≤ r < nextLoc h)%nat ∧ is_Some (samplesAt h !! r).
Proof.
  intros (Hwf & _ & _ & _ & Hrefs) Hk.
  destruct (Hrefs r) as [Hge Hsome]; [by eapply getProp_elem_of|].
  split; [|done]. split; [done|]. by apply wfHeap_unmapped_ge.
Qed.

Lemma readMetrics_newSamples h l :
  readMetrics (snd (newSamples h)) l = readMetrics h l.
Proof. done. Qed.

Lemma readMetrics_writeSamples h r o l :
  readMetrics (writeSamples h r o) l = readMetrics h l.
Proof. done. Qed.

Lemma ensureSamples_fills h0 tgt key h :
  fills h0 tgt h →
  fills h0 tgt (ensureSamples tgt key h)
  ∧ viewMetrics (ensureSamples tgt key h) tgt =
      (if hasOwnProperty (viewMetrics h tgt) key then viewMetrics h tgt
       else setProp key [] (viewMetrics h tgt)).
Proof.
  intros Hf. unfold ensureSamples, viewMetrics at 2 3 4.
  rewrite hasOwnProperty_mapValues.
  destruct (hasOwnProperty (readMetrics h tgt) key) eqn:Hown; [done|].
  assert (Hnone : getProp key (readMetrics h tgt) = None).
  { unfold hasOwnProperty in Hown. by destruct (getProp key (readMetrics h tgt)). }
  destruct Hf as (Hwf & Hk & Htgt & Hnd & Hrefs).
  assert (Hlt : ∀ r, r ∈ map snd (readMetrics h tgt) → (r < nextLoc h)%nat).
  { intros r Hr. apply wfHeap_unmapped_ge; [done|]. by apply Hrefs. }
  cbn [newSamples].
  set (fresh := nextLoc h).
  set (ha := mkHeap (S fresh) (metricsAt h) (<[fresh := []]> (samplesAt h))).
  change (readMetrics ha tgt) with (readMetrics h tgt).
  set (h1 := writeMetrics ha tgt (setProp key fresh (readMetrics h tgt))).
  assert (Hread : readMetrics h1 tgt = setProp key fresh (readMetrics h tgt)).
  { unfold h1. rewrite readMetrics_writeMetrics. by rewrite decide_True. }
  assert (Hsnd : map snd (readMetrics h1 tgt) = (map snd (readMetrics h tgt) ++ [fresh])%list).
  { rewrite Hread. by apply snd_setProp_new. }
  split; [split; [|split; [|split; [|split]]]|].
  - apply wfHeap_writeMetrics.
    + apply (wfHeap_newSamples h Hwf).
    + simpl. lia.
    + intros r. rewrite <- Hread, Hsnd. intros [Hr|Hr]%elem_of_app; simpl.
      * specialize (Hlt r Hr). lia.
      * apply list_elem_of_singleton in Hr. subst r. unfold fresh. lia.
  - destruct Hk as (Hn & Hm & Hs). split; [|split]; simpl.
    + unfold fresh. lia.
    + intros l Hl. rewrite lookup_insert_ne by lia. by apply Hm.
    + intros l Hl. rewrite lookup_insert_ne by (unfold fresh; lia). by apply Hs.
  - simpl. lia.
  - rewrite Hsnd. apply NoDup_app. split; [done|]. split.
    + intros r Hr [Hr'|Hr']%elem_of_cons.
      * specialize (Hlt r Hr). unfold fresh in Hr'. lia.
      * by apply elem_of_nil in Hr'.
    + apply NoDup_singleton.
  - intros r. rewrite Hsnd. intros [Hr|Hr]%elem_of_app.
    + destruct (Hrefs r Hr) as [Hge Hsome]. split; [done|].
      simpl. rewrite lookup_insert_is_Some. right. split; [|done].
      specialize (Hlt r Hr). unfold fresh. lia.
    + apply list_elem_of_singleton in Hr. subst r. split.
      * destruct Hk as (Hn & _). unfold fresh. lia.
      * simpl. rewrite lookup_insert_eq. by eexists.
  - unfold viewMetrics. rewrite Hread, mapValues_setProp. f_equal.
    + unfold readSamples, h1; simpl. by rewrite lookup_insert_eq.
    + apply mapValues_ext. intros r Hr. unfold readSamples, h1; simpl.
      rewrite lookup_insert_ne; [done|]. specialize (Hlt r Hr). unfold fresh. lia.
Qed.

Lemma writeOwned_fills h0 tgt h key r o :
  fills h0 tgt h → getProp key (readMetrics h tgt) = Some r →
  fills h0 tgt (writeSamples h r o)
  ∧ viewMetrics (writeSamples h r o) tgt = setProp key o (viewMetrics h tgt).
Proof.
  intros Hf Hkey. destruct (fills_owned _ _ _ _ _ Hf Hkey) as [[Hge Hlt] Hsome].
  destruct Hf as (Hwf & Hk & Htgt & Hnd & Hrefs).
  split; [split; [|split; [|split; [|split]]]|].
  - by apply wfHeap_writeSamples.
  - destruct Hk as (Hn & Hm & Hs). split; [|split]; simpl; [done|done|].
    intros l Hl. rewrite lookup_insert_ne by lia. by apply Hs.
  - done.
  - done.
  - intros r' Hr'. rewrite readMetrics_writeSamples in Hr'.
    destruct (Hrefs r' Hr') as [Hge' Hsome']. split; [done|].
    simpl. rewrite lookup_insert_is_Some.
    destruct (decide (r = r')); [by left|by right].
  - unfold viewMetrics. rewrite readMetrics_writeSamples.
    rewrite (mapValues_update (readSamples h) (readSamples (writeSamples h r o)) key r);
      [|done|done|].
    + rewrite readSamples_writeSamples. by rewrite decide_True.
    + intros r' Hne. rewrite readSamples_writeSamples. by rewrite decide_False.
Qed.

(** ** aggregateSamples computes the merge of the values *)

Lemma getProp_viewMetrics h l k :
  getProp k (viewMetrics h l) = readSamples h <$> getProp k (readMetrics h l).
Proof. apply getProp_mapValues. Qed.

Lemma forInKeys_viewMetrics h l :
  forInKeys (viewMetrics h l) = forInKeys (readMetrics h l).
Proof. apply forInKeys_mapValues. Qed.

Lemma addMetric_fills h0 tgt src h metric :
  wfHeap h0 → (src < nextLoc h0)%nat → fills h0 tgt h →
  fills h0 tgt (addMetric tgt src h metric)
  ∧ viewMetrics (addMetric tgt src h metric) tgt =
    mergeMetric (viewMetrics h0 src) (viewMetrics h tgt) metric.
Proof.
  intros Hwf0 Hsrc Hf. unfold addMetric, mergeMetric.
  destruct (ensureSamples_fills h0 tgt metric h Hf) as [Hf1 Hv1].
  rewrite <- Hv1. clear Hv1.
  set (h1 := ensureSamples tgt metric h) in *.
  assert (Hk1 : keeps h0 h1) by apply Hf1.
  rewrite (keeps_readMetrics h0 h1) by done.
  rewrite !getProp_viewMetrics.
  destruct (getProp metric (readMetrics h0 src)) as [sS|] eqn:Hs; [|done].
  destruct (getProp metric (readMetrics h1 tgt)) as [tS|] eqn:Ht; [|done].
  cbn [fmap option_fmap option_map].
  destruct (fills_owned _ _ _ _ _ Hf1 Ht) as [[Hge Hlt] Hsome].
  assert (HsS : (sS < nextLoc h0)%nat).
  { destruct Hwf0 as (_ & _ & Hrefs). apply (Hrefs src). by eapply getProp_elem_of. }
  rewrite addSamples_spec; [|lia|done].
  rewrite (keeps_readSamples h0 h1 sS) by done.
  by apply writeOwned_fills.
Qed.

Lemma addMetrics_fills h0 tgt src keys h :
  wfHeap h0 → (src < nextLoc h0)%nat → fills h0 tgt h →
  fills h0 tgt (foldl (addMetric tgt src) h keys)
  ∧ viewMetrics (foldl (addMetric tgt src) h keys) tgt =
    foldl (mergeMetric (viewMetrics h0 src)) (viewMetrics h tgt) keys.
Proof.
  intros Hwf0 Hsrc. revert h. induction keys as [|k keys IH]; intros h Hf; simpl.
  - done.
  - destruct (addMetric_fills h0 tgt src h k Hwf0 Hsrc Hf) as [Hf1 Hv1].
    destruct (IH _ Hf1) as [Hf2 Hv2]. split; [done|]. by rewrite Hv2, Hv1.
Qed.

Lemma aggregateSamples_fills h0 tgt s h :
  wfHeap h0 → (∀ l, s = Some (SRef l) → (l < nextLoc h0)%nat) → fills h0 tgt h →
  fills h0 tgt (aggregateSamples tgt s h)
  ∧ viewMetrics (aggregateSamples tgt s h) tgt =
    mergeWindow (viewMetrics h tgt) (viewSlot h0 s).
Proof.
  intros Hwf0 Hs Hf. destruct s as [[|src]|]; simpl; try done.
  assert (Hsrc : (src < nextLoc h0)%nat) by by apply Hs.
  assert (Hk : keeps h0 h) by apply Hf.
  rewrite (keeps_readMetrics h0 h) by done.
  rewrite forInKeys_viewMetrics.
  by apply addMetrics_fills.
Qed.

Lemma flushLoop_fills h0 tgt (w : gmap Z slot) seconds h :
  wfHeap h0 → (∀ i l, w !! i = Some (SRef l) → (l < nextLoc h0)%nat) →
  fills h0 tgt h →
  fills h0 tgt (foldl (fun h i => aggregateSamples tgt (w !! Z.rem i 60) h) h seconds)
  ∧ viewMetrics (foldl (fun h i => aggregateSamples tgt (w !! Z.rem i 60) h) h seconds) tgt =
    foldl (fun acc i => mergeWindow acc (viewSlot h0 (w !! Z.rem i 60)))
      (viewMetrics h tgt) seconds.
Proof.
  intros Hwf0 Hw. revert h. induction seconds as [|i seconds IH]; intros h Hf; simpl.
  - done.
  - destruct (aggregateSamples_fills h0 tgt (w !! Z.rem i 60) h Hwf0) as [Hf1 Hv1];
      [by intros l; apply Hw|done|].
    destruct (IH _ Hf1) as [Hf2 Hv2]. split; [done|]. by rewrite Hv2, Hv1.
Qed.

Lemma fills_newMetrics h : wfHeap h → fills h (nextLoc h) (snd (newMetrics h)).
Proof.
  intros Hwf. split; [|split; [|split; [|split]]].
  - by apply wfHeap_newMetrics.
  - apply keeps_newMetrics.
  - simpl. lia.
  - rewrite readMetrics_newMetrics, decide_True by done. apply NoDup_nil_2.
  - intros r. rewrite readMetrics_newMetrics, decide_True by done.
    intros Hr. by apply elem_of_nil in Hr.
Qed.

Lemma foldl_ext_all {A B : Type} (f g : A → B → A) (a : A) (l : list B) :
  (∀ a x, f a x = g a x) → foldl f a l = foldl g a l.
Proof.
  intros H. revert a. induction l as [|x l IH]; intros a; simpl; [done|].
  by rewrite H, IH.
Qed.

(** [flush] returns the rendering of the merged values of the slots it
    reads, keeps the instance, and keeps every object of the store. *)
Lemma flush_spec now numSamples d h :
  wfState (d, h) →
  fst (flush now numSamples (d, h)) =
    render (mergedWindows d h (flushSeconds (now - numSamples) (lastTimestamp d)))
  ∧ fst (snd (flush now numSamples (d, h))) = d
  ∧ wfHeap (snd (snd (flush now numSamples (d, h))))
  ∧ keeps h (snd (snd (flush now numSamples (d, h)))).
Proof.
  intros [Hwf Hw]. simpl in Hwf, Hw. unfold flush.
  destruct (newMetrics h) as [aggregates h1] eqn:Hn.
  assert (Hh1 : h1 = snd (newMetrics h)) by (by rewrite Hn).
  assert (Ha : aggregates = nextLoc h) by (by inversion Hn).
  destruct (flushLoop_fills h aggregates (windows d)
              (flushSeconds (now - numSamples) (lastTimestamp d)) h1 Hwf Hw)
    as [Hf Hv].
  { subst. by apply fills_newMetrics. }
  set (h2 := foldl _ h1 _) in *.
  cbn [fst snd]. split; [|split; [done|split; [apply Hf|apply Hf]]].
  unfold render, mergedWindows.
  assert (Hv0 : viewMetrics h1 aggregates = []).
  { unfold viewMetrics. subst. rewrite readMetrics_newMetrics. by rewrite decide_True. }
  rewrite Hv0 in Hv. rewrite <- Hv. f_equal.
  rewrite forInKeys_viewMetrics.
  apply foldl_ext_all. intros hist key.
  unfold hasOwnProperty. rewrite getProp_viewMetrics.
  by destruct (getProp key (readMetrics h2 aggregates)).
Qed.

(** ** The decoder fills its local metrics object *)

Lemma decodeLine_fills h0 metrics st line :
  fills h0 metrics (snd st) → fills h0 metrics (snd (decodeLine metrics st line)).
Proof.
  destruct st as [ctx h]. intros Hf. unfold decodeLine. cbn [snd] in Hf.
  destruct (matchMetric line); [done|].
  destruct ctx as [key|]; [|done].
  destruct (matchSample line); [|done].
  destruct (jsnum_eqb _ _); [done|].
  destruct (ensureSamples_fills h0 metrics key h Hf) as [Hf1 _].
  destruct (getProp key (readMetrics (ensureSamples metrics key h) metrics)) as [samples|] eqn:Hk;
    [|done].
  cbn [snd]. by eapply writeOwned_fills.
Qed.

Lemma decodeLines_fills h0 metrics ls st :
  fills h0 metrics (snd st) →
  fills h0 metrics (snd (foldl (decodeLine metrics) st ls)).
Proof.
  revert st. induction ls as [|l ls IH]; intros st Hf; simpl; [done|].
  apply IH. by apply decodeLine_fills.
Qed.

(** ** The handler keeps states well formed *)

Lemma lookup_foldl_null_SRef (f : Z → Z) (js : list Z) (w : gmap Z slot) i l :
  foldl (fun w j => <[f j := SNull]> w) w js !! i = Some (SRef l) →
  w !! i = Some (SRef l).
Proof.
  revert w. induction js as [|j js IH]; intros w; simpl; [done|].
  intros H. apply IH in H. rewrite lookup_insert in H.
  case_decide; [discriminate|done].
Qed.

Lemma clearGap_SRef last t (w : gmap Z slot) i l :
  clearGap last t w !! i = Some (SRef l) → w !! i = Some (SRef l).
Proof.
  unfold clearGap. destruct last as [| |z]; [done| |].
  - destruct (60 <=? t - 0).
    + apply (lookup_foldl_null_SRef (fun j => j)).
    + apply (lookup_foldl_null_SRef (fun j => Z.rem j 60)).
  - destruct (60 <=? t - z).
    + apply (lookup_foldl_null_SRef (fun j => j)).
    + apply (lookup_foldl_null_SRef (fun j => Z.rem j 60)).
Qed.

Lemma endOfReport_heap t d h :
  snd (endOfReport t (d, h)) =
  snd (foldl (decodeLine (nextLoc h)) (None, snd (newMetrics h)) (linesOf d)).
Proof.
  unfold endOfReport. cbn [newMetrics snd].
  destruct (foldl _ _ (linesOf d)) as [mk h2].
  by destruct (0 <? length (linesOf d))%nat.
Qed.

Lemma endOfReport_fills t d h :
  wfHeap h → fills h (nextLoc h) (snd (endOfReport t (d, h))).
Proof.
  intros Hwf. rewrite endOfReport_heap.
  apply decodeLines_fills. by apply fills_newMetrics.
Qed.

Lemma endOfReport_windows t d h :
  windows (fst (endOfReport t (d, h))) =
  let last := match lastTimestamp d with TNull => TNum t | x => x end in
  let w := <[Z.rem t 60 := SNull]> (clearGap last t (windows d)) in
  if (0 <? length (linesOf d))%nat then <[Z.rem t 60 := SRef (nextLoc h)]> w else w.
Proof.
  unfold endOfReport. cbn [newMetrics].
  destruct (foldl _ _ (linesOf d)) as [mk h2].
  by destruct (0 <? length (linesOf d))%nat.
Qed.

Lemma endOfReport_lastTimestamp t d h :
  lastTimestamp (fst (endOfReport t (d, h))) =
  if (0 <? length (linesOf d))%nat then TNum t
  else match lastTimestamp d with TNull => TNum t | x => x end.
Proof.
  unfold endOfReport. cbn [newMetrics].
  destruct (foldl _ _ (linesOf d)) as [mk h2].
  by destruct (0 <? length (linesOf d))%nat.
Qed.

Lemma endOfReport_wf t st :
  wfState st → wfState (endOfReport t st) ∧ keeps (snd st) (snd (endOfReport t st)).
Proof.
  destruct st as [d h]. intros [Hwf Hw]. cbn [fst snd] in *.
  pose proof (endOfReport_fills t d h Hwf) as (Hwf2 & Hk & Htgt & _).
  split; [split|]; [done| |done].
  intros i l. rewrite endOfReport_windows. cbv zeta.
  assert (Hold : ∀ i l,
    (<[Z.rem t 60 := SNull]>
       (clearGap match lastTimestamp d with TNull => TNum t | x => x end t (windows d))
     : gmap Z slot) !! i = Some (SRef l) →
    (l < nextLoc (snd (endOfReport t (d, h))))%nat).
  { intros i' l'. rewrite lookup_insert. case_decide; [discriminate|].
    intros Hc%clearGap_SRef. apply Hw in Hc. destruct Hk as [Hn _]. lia. }
  destruct (0 <? length (linesOf d))%nat; [|apply Hold].
  rewrite lookup_insert. case_decide; [|apply Hold].
  intros [= <-]. lia.
Qed.

Lemma handleLine_wf now st raw :
  wfState st → wfState (handleLine now st raw) ∧ keeps (snd st) (snd (handleLine now st raw)).
Proof.
  intros Hwf. unfold handleLine.
  destruct (negb _); [split; [apply Hwf|apply keeps_refl]|].
  destruct (String.eqb (substr0 6 _) _); [split; [apply Hwf|apply keeps_refl]|].
  destruct (String.eqb (substr0 4 _) _); [by apply endOfReport_wf|].
  split; [done|apply keeps_refl].
Qed.

Lemma handleLines_wf now ls st :
  wfState st →
  wfState (foldl (handleLine now) st ls) ∧ keeps (snd st) (snd (foldl (handleLine now) st ls)).
Proof.
  revert st. induction ls as [|l ls IH]; intros st Hwf; simpl.
  - split; [done|apply keeps_refl].
  - destruct (handleLine_wf now st l Hwf) as [Hwf1 Hk1].
    destruct (IH _ Hwf1) as [Hwf2 Hk2]. split; [done|]. by eapply keeps_trans.
Qed.

Lemma onStdoutData_wf now st chunk :
  wfState st →
  wfState (onStdoutData now st chunk) ∧ keeps (snd st) (snd (onStdoutData now st chunk)).
Proof.
  destruct st as [d h]. intros Hwf. unfold onStdoutData.
  destruct (frame _) as [buffLines rest].
  apply (handleLines_wf now buffLines (setBuffer (Some rest) d, h)). apply Hwf.
Qed.

Lemma newDtrace_windows s k :
  windows (newDtrace s) !! k = if decide (0 ≤ k < 60) then Some SNull else None.
Proof.
  cbn [newDtrace windows].
  assert (H : ∀ (js : list Z) (w : gmap Z slot),
    foldl (fun w i => <[i := SNull]> w) w js !! k =
    if decide (k ∈ js) then Some SNull else w !! k).
  { induction js as [|j js IH]; intros w; cbn [foldl].
    - destruct (decide (k ∈ [])) as [Hin|_]; [by apply elem_of_nil in Hin|done].
    - rewrite IH, lookup_insert.
      destruct (decide (k ∈ js)) as [H1|H1], (decide (j = k)) as [H2|H2],
        (decide (k ∈ j :: js)) as [H3|H3]; try done; exfalso.
      + apply H3. by right.
      + apply H3. by right.
      + apply H3. subst. by left.
      + apply elem_of_cons in H3 as [H3|H3]; congruence. }
  rewrite H, lookup_empty.
  destruct (decide (0 ≤ k < 60)) as [Hk|Hk], (decide (k ∈ seqZ 0 60)) as [Hin|Hin];
    try done; exfalso.
  - apply Hin, elem_of_seqZ. lia.
  - apply elem_of_seqZ in Hin. lia.
Qed.

Lemma wfHeap_empty : wfHeap emptyHeap.
Proof.
  split; [|split]; try done.
  intros l r Hr. by apply elem_of_nil in Hr.
Qed.

Lemma wfState_launched s : wfState (launched s).
Proof.
  split; [apply wfHeap_empty|].
  intros i l. cbn [launched fst start setLines setBuffer windows].
  change (windows (newDtrace s) !! i = Some (SRef l) → (l < nextLoc emptyHeap)%nat).
  rewrite newDtrace_windows. by case_decide.
Qed.

(** ** Stores that keep the objects of a state *)

Lemma keeps_viewSlot h0 h s :
  wfHeap h0 → keeps h0 h → (∀ l, s = Some (SRef l) → (l < nextLoc h0)%nat) →
  viewSlot h s = viewSlot h0 s.
Proof.
  intros Hwf Hk Hs. destruct s as [[|l]|]; simpl; try done.
  f_equal. apply keeps_viewMetrics; [done|done|]. by apply Hs.
Qed.

Lemma mergedWindows_keeps d h0 h seconds :
  wfState (d, h0) → keeps h0 h →
  mergedWindows d h seconds = mergedWindows d h0 seconds.
Proof.
  intros [Hwf Hw] Hk. unfold mergedWindows. apply foldl_ext_all.
  intros acc i. f_equal. apply keeps_viewSlot; [done|done|].
  intros l Hl. by apply (Hw (Z.rem i 60)).
Qed.

Lemma wfState_keeps d h0 h :
  wfState (d, h0) → wfHeap h → keeps h0 h → wfState (d, h).
Proof.
  intros [_ Hw] Hwf [Hn _]. split; [done|].
  intros i l Hl. specialize (Hw i l Hl). simpl in *. lia.
Qed.

(** ** The count a window holds *)

Lemma storedCount_ensureSamples h0 metrics k h key latency :
  fills h0 metrics h →
  storedCount (ensureSamples metrics k h) metrics key latency =
  storedCount h metrics key latency.
Proof.
  intros Hf. unfold storedCount.
  rewrite (proj2 (ensureSamples_fills h0 metrics k h Hf)).
  destruct (hasOwnProperty (viewMetrics h metrics) k) eqn:Hown; [done|].
  destruct (String.eqb_spec k key) as [->|Hne].
  - rewrite getProp_setProp_eq. unfold hasOwnProperty in Hown.
    by destruct (getProp key (viewMetrics h metrics)).
  - by rewrite getProp_setProp_ne.
Qed.

Lemma decodeLine_lastStored h0 metrics key latency ctx h line :
  fills h0 metrics h →
  lastStoredStep key latency (ctx, storedCount h metrics key latency) line =
  (fst (decodeLine metrics (ctx, h) line),
   storedCount (snd (decodeLine metrics (ctx, h) line)) metrics key latency).
Proof.
  intros Hf. unfold lastStoredStep, decodeLine. cbn [fst snd].
  destruct (matchMetric line); [done|].
  destruct ctx as [k|]; [|done].
  destruct (matchSample line); [|done].
  set (latency' := List.hd EmptyString (split "|" line)).
  set (count := parseInt (List.nth_error (split "|" line) 1)).
  destruct (jsnum_eqb count (Num 0)); [done|].
  destruct (ensureSamples_fills h0 metrics k h Hf) as [Hf1 Hv1].
  pose proof (storedCount_ensureSamples h0 metrics k h key latency Hf) as Hs1.
  set (h1 := ensureSamples metrics k h) in *.
  destruct (getProp k (readMetrics h1 metrics)) as [samples|] eqn:Hk; cbn [fst snd].
  - destruct (writeOwned_fills h0 metrics h1 k samples
                (setNumber latency' count (readSamples h1 samples)) Hf1 Hk) as [_ Hv2].
    unfold storedCount in *. rewrite Hv2.
    assert (Hget : getProp k (viewMetrics h1 metrics) = Some (readSamples h1 samples)).
    { by rewrite getProp_viewMetrics, Hk. }
    unfold setNumber.
    destruct (String.eqb latency' "__proto__").
    + f_equal. rewrite <- Hs1.
      destruct (String.eqb_spec k key) as [->|Hne].
      * by rewrite getProp_setProp_eq, Hget.
      * by rewrite getProp_setProp_ne.
    + destruct (String.eqb_spec k key) as [->|Hne]; cbn [andb].
      * rewrite getProp_setProp_eq. cbn [mbind option_bind].
        rewrite Hget in Hs1. cbn [mbind option_bind] in Hs1.
        destruct (String.eqb_spec latency' latency) as [->|Hne'].
        -- by rewrite getProp_setProp_eq.
        -- rewrite getProp_setProp_ne by done. by rewrite Hs1.
      * rewrite getProp_setProp_ne by done. by rewrite Hs1.
  - exfalso. assert (Hnone : getProp k (viewMetrics h1 metrics) = None).
    { by rewrite getProp_viewMetrics, Hk. }
    rewrite Hv1 in Hnone.
    destruct (hasOwnProperty (viewMetrics h metrics) k) eqn:Hown.
    + unfold hasOwnProperty in Hown. by rewrite Hnone in Hown.
    + by rewrite getProp_setProp_eq in Hnone.
Qed.

Lemma decodeLines_lastStored h0 metrics key latency ls ctx h :
  fills h0 metrics h →
  foldl (lastStoredStep key latency) (ctx, storedCount h metrics key latency) ls =
  (fst (foldl (decodeLine metrics) (ctx, h) ls),
   storedCount (snd (foldl (decodeLine metrics) (ctx, h) ls)) metrics key latency).
Proof.
  revert ctx h. induction ls as [|l ls IH]; intros ctx h Hf; cbn [foldl]; [done|].
  rewrite (decodeLine_lastStored h0 metrics) by done.
  pose proof (decodeLine_fills h0 metrics (ctx, h) l Hf) as Hf1.
  destruct (decodeLine metrics (ctx, h) l) as [ctx1 h1]. cbn [fst snd] in *.
  by apply IH.
Qed.

(** ** Reachable states *)

Lemma flush_wf now numSamples st : wfState st → wfState (snd (flush now numSamples st)).
Proof.
  destruct st as [d h]. intros Hwf.
  destruct (flush_spec now numSamples d h Hwf) as (_ & Hd & Hwf' & Hk).
  destruct (flush now numSamples (d, h)) as [v [d' h']]. cbn [fst snd] in *.
  subst d'. by eapply wfState_keeps.
Qed.

Lemma reachable_wf st : reachable st → wfState st.
Proof.
  induction 1 as [s h Hwf|now chunk st _ IH|now n st _ IH|st _ IH].
  - split; [done|]. intros i l.
    change (windows (newDtrace s) !! i = Some (SRef l) → (l < nextLoc h)%nat).
    rewrite newDtrace_windows. by case_decide.
  - by apply onStdoutData_wf.
  - by apply flush_wf.
  - destruct IH as [Hh Hw]. split; [done|]. intros i l. apply Hw.
Qed.

Lemma handleLines_lastTimestamp now ls st :
  lastTimestamp (fst st) ≠ TNull →
  lastTimestamp (fst (foldl (handleLine now) st ls)) ≠ TNull.
Proof.
  revert st. induction ls as [|l ls IH]; intros st Hst; cbn [foldl]; [done|].
  apply IH. unfold handleLine.
  destruct (negb _); [done|].
  destruct (String.eqb (substr0 6 _) _); [done|].
  destruct (String.eqb (substr0 4 _) _); [|done].
  destruct st as [d h]. rewrite endOfReport_lastTimestamp.
  destruct (0 <? length (linesOf d))%nat; [done|].
  cbn [fst] in Hst. by destruct (lastTimestamp d).
Qed.

(** [lastTimestamp] is never null: the test of the [>END] branch against
    null does not fire on an instance that runs. *)
Lemma reachable_lastTimestamp st : reachable st → lastTimestamp (fst st) ≠ TNull.
Proof.
  induction 1 as [s h Hwf|now chunk st _ IH|now n st Hr IH|st _ IH]; try done.
  - destruct st as [d h]. unfold onStdoutData.
    destruct (frame _) as [buffLines rest].
    by apply handleLines_lastTimestamp.
  - destruct st as [d h].
    destruct (flush_spec now n d h (reachable_wf _ Hr)) as (_ & Hd & _).
    by rewrite Hd.
Qed.

(** ** The seconds flush visits *)

(** C1.  After three reports in the seconds 100, 101 and 102, each with
    the sample [10|1], [flush(1)] in the second 102 visits the seconds
    101 and 102 and returns the sum of two windows, and [flush(60)]
    visits the 61 seconds 42 to 102 and so reads the slot of 102 twice:
    it returns 4 where the three windows sum to 3.  In the second after
    the last report the span is [numSamples] seconds, but nothing bounds
    it by the size of the ring: after sixty reports in the seconds 100
    to 159, [flush(61)] in the second 160 visits 61 seconds, reads the
    slot of 159 twice and returns 61 where the sixty windows sum to
    60. *)
Theorem C1_flush_counts_one_second_too_many :
  fst (flush 102 1 threeSeconds) = histogramOf "m" ["H[10]=2"]
  ∧ fst (flush 102 60 threeSeconds) = histogramOf "m" ["H[10]=4"]
  ∧ length (flushSeconds (102 - 1) (lastTimestamp (fst threeSeconds))) = 2%nat
  ∧ length (flushSeconds (102 - 60) (lastTimestamp (fst threeSeconds))) = 61%nat
  ∧ fst (flush 160 60 sixtySeconds) = histogramOf "m" ["H[10]=60"]
  ∧ fst (flush 160 61 sixtySeconds) = histogramOf "m" ["H[10]=61"].
Proof. repeat split; vm_compute; reflexivity. Qed.

(** ** The gap loop *)

Lemma lookup_foldl_null_cases (f : Z → Z) (js : list Z) (w : gmap Z slot) k :
  foldl (fun w j => <[f j := SNull]> w) w js !! k = Some SNull
  ∨ (foldl (fun w j => <[f j := SNull]> w) w js !! k = w !! k
     ∧ ∀ j, j ∈ js → f j ≠ k).
Proof.
  revert w. induction js as [|j js IH]; intros w; cbn [foldl].
  - right. split; [done|]. intros j Hj. by apply elem_of_nil in Hj.
  - destruct (IH (<[f j := SNull]> w)) as [Hnull|[Hsame Hall]]; [by left|].
    rewrite Hsame, lookup_insert. case_decide as Hfj; [by left|].
    right. split; [done|]. intros j' [->|Hj']%elem_of_cons; [done|by apply Hall].
Qed.

Lemma lookup_foldl_null_in (f : Z → Z) (js : list Z) (w : gmap Z slot) k :
  (∃ j, j ∈ js ∧ f j = k) →
  foldl (fun w j => <[f j := SNull]> w) w js !! k = Some SNull.
Proof.
  intros (j & Hin & Hf).
  destruct (lookup_foldl_null_cases f js w k) as [Hnull|[_ Hall]]; [done|].
  by destruct (Hall j Hin).
Qed.

Lemma lookup_foldl_null_notin (f : Z → Z) (js : list Z) (w : gmap Z slot) k :
  (∀ j, j ∈ js → f j ≠ k) →
  foldl (fun w j => <[f j := SNull]> w) w js !! k = w !! k.
Proof.
  revert w. induction js as [|j js IH]; intros w Hall; cbn [foldl]; [done|].
  rewrite IH by (intros j' Hj'; apply Hall; by right).
  apply lookup_insert_ne. apply Hall. by left.
Qed.

Lemma mod60_apart a b : a ≠ b → -60 < a - b < 60 → a mod 60 ≠ b mod 60.
Proof. intros Hne Hd Heq. Z.div_mod_to_equations. lia. Qed.

(** The ring after a report, away from the slot of the report itself. *)
Lemma endOfReport_other_slot t l d h k :
  lastTimestamp d = TNum l → k ≠ Z.rem t 60 →
  windows (fst (endOfReport t (d, h))) !! k = clearGap (TNum l) t (windows d) !! k.
Proof.
  intros Hl Hk. rewrite endOfReport_windows, Hl. cbv zeta.
  destruct (0 <? length (linesOf d))%nat; rewrite ?lookup_insert_ne by done; done.
Qed.

Lemma clearGap_stale t l (w : gmap Z slot) k :
  60 ≤ t - l → 0 ≤ k < 60 → clearGap (TNum l) t w !! k = Some SNull.
Proof.
  intros Hgap Hk. unfold clearGap.
  destruct (60 <=? t - l) eqn:E; [|apply Z.leb_gt in E; lia].
  apply (lookup_foldl_null_in (fun j => j)). exists k. split; [|done].
  apply elem_of_seqZ. lia.
Qed.

Lemma clearGap_gap t l (w : gmap Z slot) k :
  0 ≤ l → t - l < 60 → gapSecond l t k → clearGap (TNum l) t w !! k = Some SNull.
Proof.
  intros H0 Hgap (s & Hs & Hk). unfold clearGap.
  destruct (60 <=? t - l) eqn:E; [apply Z.leb_le in E; lia|].
  apply (lookup_foldl_null_in (fun j => Z.rem j 60)). exists s. split.
  - apply elem_of_seqZ. lia.
  - rewrite Z.rem_mod_nonneg by lia. done.
Qed.

Lemma clearGap_outside t l (w : gmap Z slot) k :
  0 ≤ l → t - l < 60 → ¬ gapSecond l t k → clearGap (TNum l) t w !! k = w !! k.
Proof.
  intros H0 Hgap Hnot. unfold clearGap.
  destruct (60 <=? t - l) eqn:E; [apply Z.leb_le in E; lia|].
  apply (lookup_foldl_null_notin (fun j => Z.rem j 60)).
  intros j Hj%elem_of_seqZ Hk. apply Hnot. exists j. split; [lia|].
  rewrite <- Hk. symmetry. apply Z.rem_mod_nonneg; lia.
Qed.

Lemma mergeWindows_no_data (w : gmap Z slot) h acc seconds :
  (∀ i, i ∈ seconds → viewSlot h (w !! Z.rem i 60) = None) →
  foldl (fun acc i => mergeWindow acc (viewSlot h (w !! Z.rem i 60))) acc seconds = acc.
Proof.
  intros H. apply foldl_fixed. intros i Hi. by rewrite H.
Qed.


(** ** Reports after a gap *)


(** ** Reports without samples *)

(** The lines [=foo] decode to no metric, yet the slot of the second
    holds the new object and [lastTimestamp] has moved. *)
Lemma C3_counterexample :
  let st' := endOfReport 120 (collecting ["=foo"]) in
  readMetrics (snd st') (nextLoc emptyHeap) = []
  ∧ ¬ (windows (fst st') !! Z.rem 120 60 = Some SNull
       ∧ lastTimestamp (fst st') = lastTimestamp (fst (collecting ["=foo"]))).
Proof.
  split.
  - vm_compute. reflexivity.
  - intros [H _]. vm_compute in H. discriminate H.
Qed.

(** C3, amended.  The test of the [>END] branch is on the pending lines,
    not on the decoded mapping: without a pending line the slot of the
    second is left null and [lastTimestamp] keeps its value; with one the
    slot receives the new metrics object, empty or not, and
    [lastTimestamp] becomes the second.  In both cases a report that
    decoded no metric adds nothing when [flush] merges its slot.
    ([lastTimestamp] is never null on a running instance,
    [reachable_lastTimestamp].) *)
Theorem C3_empty_report_amended (t : Z) (d : Dtrace) (h : Heap)
    (Hlast : lastTimestamp d ≠ TNull) :
  let st' := endOfReport t (d, h) in
  (linesOf d = [] →
     windows (fst st') !! Z.rem t 60 = Some SNull
     ∧ lastTimestamp (fst st') = lastTimestamp d)
  ∧ (linesOf d ≠ [] →
     windows (fst st') !! Z.rem t 60 = Some (SRef (nextLoc h))
     ∧ lastTimestamp (fst st') = TNum t)
  ∧ (readMetrics (snd st') (nextLoc h) = [] →
     ∀ tgt, aggregateSamples tgt (windows (fst st') !! Z.rem t 60) (snd st') = snd st').
Proof.
  unfold endOfReport. cbn [newMetrics].
  destruct (foldl _ _ (linesOf d)) as [mk h2].
  destruct (linesOf d) as [|l ls]; cbn [length Nat.ltb Nat.leb fst snd
    setWindows setLastTimestamp windows lastTimestamp].
  - split; [|split].
    + intros _. rewrite lookup_insert_eq. split; [done|].
      by destruct (lastTimestamp d).
    + done.
    + intros _ tgt. by rewrite lookup_insert_eq.
  - split; [|split].
    + done.
    + intros _. by rewrite lookup_insert_eq.
    + intros He tgt. rewrite lookup_insert_eq. cbn [aggregateSamples].
      by rewrite He.
Qed.

(** A report without a pending line on a new instance. *)
Lemma C3_witness :
  windows (fst (endOfReport 120 (fst (launched "/io.d"), emptyHeap))) !! Z.rem 120 60
    = Some SNull
  ∧ lastTimestamp (fst (endOfReport 120 (fst (launched "/io.d"), emptyHeap)))
    = lastTimestamp (fst (launched "/io.d")).
Proof.
  refine (proj1 (C3_empty_report_amended 120 (fst (launched "/io.d")) emptyHeap _) _).
  - vm_compute. discriminate.
  - vm_compute. reflexivity.
Defined.


(** ** Lines the decoder accepts *)

(** C4.  A data line that holds a digit passes the match of the sample
    expression whatever its shape: the lines [7] and [12|x] are recorded,
    with the count NaN. *)
Theorem C4_malformed_sample_is_recorded :
  viewSlot (snd (deliver 120 ["=m"; "7"] (launched "/io.d")))
    (windows (fst (deliver 120 ["=m"; "7"] (launched "/io.d"))) !! Z.rem 120 60)
  = Some [("m", [("7", NaN)])]
  ∧ viewSlot (snd (deliver 120 ["=m"; "12|x"] (launched "/io.d")))
      (windows (fst (deliver 120 ["=m"; "12|x"] (launched "/io.d"))) !! Z.rem 120 60)
    = Some [("m", [("12", NaN)])]
  ∧ fst (flush 121 60 (deliver 120 ["=m"; "7"] (launched "/io.d")))
    = histogramOf "m" ["H[7]=NaN"].
Proof. repeat split; vm_compute; reflexivity. Qed.

(** C5.  The line [5|-3] is stored with the count -3, and a later window
    with [5|3] makes [flush] return a bucket whose count is 0; the line
    [5|0] alone leaves no entry. *)
Theorem C5_negative_count_is_stored :
  viewSlot (snd (deliver 120 ["=m"; "5|-3"] (launched "/io.d")))
    (windows (fst (deliver 120 ["=m"; "5|-3"] (launched "/io.d"))) !! Z.rem 120 60)
  = Some [("m", [("5", Num (-3))])]
  ∧ fst (flush 122 60
           (deliver 121 ["=m"; "5|3"] (deliver 120 ["=m"; "5|-3"] (launched "/io.d"))))
    = histogramOf "m" ["H[5]=0"]
  ∧ viewSlot (snd (deliver 120 ["=m"; "5|0"] (launched "/io.d")))
      (windows (fst (deliver 120 ["=m"; "5|0"] (launched "/io.d"))) !! Z.rem 120 60)
    = Some [].
Proof. repeat split; vm_compute; reflexivity. Qed.

Lemma lastStoredStep_nonzero key latency st line :
  snd st ≠ Some (Num 0) → snd (lastStoredStep key latency st line) ≠ Some (Num 0).
Proof.
  intros Hst. unfold lastStoredStep.
  destruct (matchMetric line); [done|].
  destruct (fst st) as [k|]; [|done].
  destruct (matchSample line); [|done].
  cbv zeta. set (count := parseInt _).
  destruct (jsnum_eqb count (Num 0)) eqn:Hz; [done|].
  destruct (String.eqb _ "__proto__"); [done|].
  destruct (_ && _); [|done].
  cbn [snd]. intros [= Hc]. rewrite Hc in Hz. discriminate Hz.
Qed.

Lemma lastStored_nonzero key latency report :
  lastStored key latency report ≠ Some (Num 0).
Proof.
  unfold lastStored.
  assert (H : ∀ st, snd st ≠ Some (Num 0) →
    snd (foldl (lastStoredStep key latency) st report) ≠ Some (Num 0)).
  { induction report as [|l ls IH]; intros st Hst; cbn [foldl]; [done|].
    apply IH. by apply lastStoredStep_nonzero. }
  by apply H.
Qed.

(** The part of the zero-count suppression that holds: no window ever
    holds a count of zero, whatever the lines of the report. *)
Lemma zero_count_is_never_stored t d h key latency :
  wfHeap h →
  storedCount (snd (endOfReport t (d, h))) (nextLoc h) key latency ≠ Some (Num 0).
Proof.
  intros Hwf. rewrite endOfReport_heap.
  pose proof (decodeLines_lastStored h (nextLoc h) key latency (linesOf d) None
                (snd (newMetrics h)) (fills_newMetrics h Hwf)) as Hd.
  assert (H0 : storedCount (snd (newMetrics h)) (nextLoc h) key latency = None).
  { unfold storedCount, viewMetrics.
    rewrite readMetrics_newMetrics, decide_True by done. done. }
  rewrite H0 in Hd. fold (lastStored key latency (linesOf d)) in Hd.
  pose proof (lastStored_nonzero key latency (linesOf d)) as Hnz.
  unfold lastStored in Hnz. rewrite Hd in Hnz. exact Hnz.
Qed.

(** ** The line framer *)

(** C6.  The segment after a final newline is the empty string; it is
    not popped and the loop appends it to the pending lines.  Cut after
    its first newline, the text of an empty report therefore leaves an
    empty line pending when [>END] arrives, and a window is stored; in
    one chunk the same text stores nothing. *)
Theorem C6_chunk_boundary_changes_the_lines :
  lines (fst oneChunk) = Some [""]
  ∧ lines (fst twoChunks) = Some [""; ""]
  ∧ lastTimestamp (fst oneChunk) = TUndefined
  ∧ lastTimestamp (fst twoChunks) = TNum 120
  ∧ windows (fst oneChunk) !! Z.rem 120 60 = Some SNull
  ∧ windows (fst twoChunks) !! Z.rem 120 60 = Some (SRef 0%nat)
  ∧ buffer (fst oneChunk) = buffer (fst twoChunks).
Proof. repeat split; vm_compute; reflexivity. Qed.

(** ** The pending buffer of the framer *)

Lemma append_assoc (a b c : string) : ((a ++ b) ++ c = a ++ (b ++ c))%string.
Proof.
  induction a as [|x a IH]; [reflexivity|].
  change (String x ((a ++ b) ++ c) = String x (a ++ (b ++ c)))%string. by f_equal.
Qed.

Lemma split_nonempty sep s : split sep s ≠ [].
Proof.
  destruct s as [|c s]; simpl; [done|].
  destruct (Ascii.eqb c sep); [done|]. by destruct (split sep s).
Qed.


Lemma split_no_sep sep s :
  anyChar (fun c => Ascii.eqb c sep) s = false → split sep s = [s].
Proof.
  induction s as [|c s IH]; simpl; [done|].
  destruct (Ascii.eqb c sep); [done|]. simpl. intros H. by rewrite IH.
Qed.





Lemma frame_rest buf : snd (frame buf) = List.last (split "010" buf) EmptyString.
Proof.
  unfold frame.
  destruct (String.eqb_spec (List.last (split "010" buf) EmptyString) EmptyString) as [->|_];
    done.
Qed.

Lemma handleLines_buffer now ls st :
  buffer (fst (foldl (handleLine now) st ls)) = buffer (fst st).
Proof.
  revert st. induction ls as [|l ls IH]; intros st; cbn [foldl]; [done|].
  rewrite IH. unfold handleLine.
  destruct (negb _); [done|].
  destruct (String.eqb (substr0 6 _) _); [done|].
  destruct (String.eqb (substr0 4 _) _); [|done].
  destruct st as [d h]. unfold endOfReport. cbn [newMetrics].
  destruct (foldl _ _ (linesOf d)) as [mk h2].
  by destruct (0 <? length (linesOf d))%nat.
Qed.

Lemma onStdoutData_buffer now d h chunk :
  buffer (fst (onStdoutData now (d, h) chunk)) =
  Some (List.last (split "010" (default "null" (buffer d) ++ chunk)%string) EmptyString).
Proof.
  unfold onStdoutData. rewrite <- frame_rest.
  destruct (frame _) as [buffLines rest]. by rewrite handleLines_buffer.
Qed.


(** The two deliveries of the documentation agree: a cut inside a line
    changes nothing. *)
Example cut_inside_a_line :
  onStdoutData 120
    (onStdoutData 120 (launched "/io.d") ("=foo" ++ nl ++ "12|3")%string)
    ("4" ++ nl ++ ">END" ++ nl)%string
  = onStdoutData 120 (launched "/io.d")
      ("=foo" ++ nl ++ "12|34" ++ nl ++ ">END" ++ nl)%string.
Proof. vm_compute. reflexivity. Qed.

(** ** flush leaves the instance and the store as they were *)

(** C7.  On a well-formed state, which every state of a running
    instance is ([reachable_wf]), [flush] returns the instance as it
    received it (ring, [lastTimestamp], buffer and pending lines) and
    keeps every object that was in the store, so every slot holds the
    same contents afterwards; a second call with the same argument in
    the same second returns the same value. *)
Theorem C7_flush_is_a_pure_read (now numSamples : Z) (d : Dtrace) (h : Heap)
    (Hwf : wfState (d, h)) :
  fst (snd (flush now numSamples (d, h))) = d
  ∧ keeps h (snd (snd (flush now numSamples (d, h))))
  ∧ (∀ i, viewSlot (snd (snd (flush now numSamples (d, h)))) (windows d !! i)
          = viewSlot h (windows d !! i))
  ∧ wfState (snd (flush now numSamples (d, h)))
  ∧ fst (flush now numSamples (snd (flush now numSamples (d, h))))
    = fst (flush now numSamples (d, h)).
Proof.
  destruct (flush_spec now numSamples d h Hwf) as (Hv & Hd & Hwf' & Hk).
  destruct (flush now numSamples (d, h)) as [v [d' h']] eqn:E.
  cbn [fst snd] in *. subst d'.
  assert (Hwfs : wfState (d, h')) by by eapply wfState_keeps.
  split; [done|]. split; [done|]. split; [|split; [done|]].
  - intros i. apply keeps_viewSlot; [apply Hwf|done|].
    intros l Hl. by apply (proj2 Hwf i).
  - destruct (flush_spec now numSamples d h' Hwfs) as (Hv' & _).
    rewrite Hv', Hv. f_equal. by apply mergedWindows_keeps.
Qed.

(** Two calls of [flush(60)] in the second 121 after a report. *)
Lemma C7_witness :
  fst (flush 121 60 (snd (flush 121 60 (fst (readReport 120), snd (readReport 120)))))
  = fst (flush 121 60 (fst (readReport 120), snd (readReport 120))).
Proof.
  apply (C7_flush_is_a_pure_read 121 60 (fst (readReport 120)) (snd (readReport 120))).
  rewrite <- surjective_pairing.
  apply onStdoutData_wf, wfState_launched.
Defined.

(** ** The value flush returns *)

(** The value for [read] has nothing under [type] or [buckets].  In
    the second of the report itself the counts come out doubled, and
    more than 60 seconds later the result has no entry. *)
Lemma C8_counterexample :
  ¬ (∃ hv, propOf (fst (flush 121 60 (readReport 120))) "read" = Some hv
           ∧ propOf hv "type" = Some (VStr "histogram")
           ∧ propOf hv "buckets" = Some (VArr [VStr "H[10]=2"; VStr "H[20]=1"]))
  ∧ fst (flush 120 60 (readReport 120)) = histogramOf "read" ["H[10]=4"; "H[20]=2"]
  ∧ fst (flush 181 60 (readReport 120)) = VObj [].
Proof.
  split; [|split; vm_compute; reflexivity].
  assert (E : fst (flush 121 60 (readReport 120))
              = histogramOf "read" ["H[10]=2"; "H[20]=1"]) by (vm_compute; reflexivity).
  rewrite E. intros (hv & Hread & Htype & _).
  injection Hread as <-. discriminate Htype.
Qed.

Lemma Forall_setProp {V : Type} (P : V → Prop) k v (o : list (string * V)) :
  P v → Forall (fun p => P (snd p)) o → Forall (fun p => P (snd p)) (setProp k v o).
Proof.
  intros Hv. induction o as [|[k' v'] o IH]; intros Ho; simpl.
  - by constructor.
  - apply Forall_cons in Ho as [Hv' Ho].
    destruct (String.eqb k k'); constructor; auto.
Qed.

Lemma histograms_shape (own : string → bool) (entries : string → list string)
    (keys : list string) (hist : list (string * jsval)) :
  Forall (fun p => histogramValue (snd p)) hist →
  Forall (fun p => histogramValue (snd p))
    (foldl (fun (hist : list (string * jsval)) key =>
              if own key
              then setProp key
                     (VObj [("_type", VStr "n"); ("_value", VArr (VStr <$> entries key))])
                     hist
              else hist) hist keys).
Proof.
  revert hist. induction keys as [|k keys IH]; intros hist Hhist; cbn [foldl]; [done|].
  apply IH. destruct (own k); [|done].
  apply Forall_setProp; [|done]. by eexists.
Qed.

Lemma flush_shape now numSamples st :
  ∃ hist, fst (flush now numSamples st) = VObj hist
          ∧ Forall (fun p => histogramValue (snd p)) hist.
Proof.
  destruct st as [d h]. unfold flush.
  destruct (newMetrics h) as [aggregates h1]. cbv zeta. cbn [fst].
  eexists. split; [reflexivity|].
  set (h2 := foldl _ h1 _).
  apply (histograms_shape
           (fun key => hasOwnProperty (readMetrics h2 aggregates) key)
           (fun key => makeHistogram h2 (getProp key (readMetrics h2 aggregates)))).
  constructor.
Qed.

Lemma rem60_apart i t : 0 ≤ t → t - 60 < i < t → Z.rem i 60 ≠ Z.rem t 60.
Proof. intros Ht Hi Heq. Z.quot_rem_to_equations. lia. Qed.

(** C8, amended.  [flush] returns an object that maps each metric to an
    object with the type tag [n] under [_type] and the list of bucket
    entries under [_value].  For the report [=read], [10|2], [20|1]
    finalized in the second [T] on a fresh instance, [flush(60)] in a
    second after [T] and at most [T + 60] returns the entries [H[10]=2]
    and [H[20]=1] for [read]. *)
Theorem C8_histogram_value_amended (T now : Z)
    (HT : 0 ≤ T) (Hnow : T < now ≤ T + 60) :
  (∀ now' numSamples st,
     ∃ hist, fst (flush now' numSamples st) = VObj hist
             ∧ Forall (fun p => histogramValue (snd p)) hist)
  ∧ fst (flush now 60 (readReport T)) = histogramOf "read" ["H[10]=2"; "H[20]=1"].
Proof.
  split; [apply flush_shape|].
  assert (Hwf : wfState (readReport T)) by apply onStdoutData_wf, wfState_launched.
  assert (Hw : windows (fst (readReport T)) =
               <[Z.rem T 60 := SRef 0%nat]>
                 (<[Z.rem T 60 := SNull]> (windows (newDtrace "/io.d"))))
    by reflexivity.
  assert (Hl : lastTimestamp (fst (readReport T)) = TNum T) by reflexivity.
  assert (Hv : viewMetrics (snd (readReport T)) 0 =
               [("read", [("10", Num 2); ("20", Num 1)])])
    by (vm_compute; reflexivity).
  destruct (readReport T) as [d h]. cbn [fst snd] in *.
  rewrite (proj1 (flush_spec now 60 d h Hwf)), Hl. cbn [flushSeconds].
  replace (T - (now - 60) + 1) with ((T - (now - 60)) + 1) by lia.
  rewrite seqZ_app by lia.
  replace (now - 60 + (T - (now - 60))) with T by lia.
  change (seqZ T 1) with [T].
  unfold mergedWindows. rewrite foldl_app. cbn [foldl].
  rewrite mergeWindows_no_data.
  - rewrite Hw, lookup_insert_eq. cbn [viewSlot]. rewrite Hv.
    vm_compute. reflexivity.
  - intros i Hi%elem_of_seqZ. rewrite Hw.
    rewrite !lookup_insert_ne by (apply not_eq_sym, rem60_apart; lia).
    rewrite newDtrace_windows. by case_decide.
Qed.

(** The report in the second 120, flushed in the second 121. *)
Lemma C8_witness :
  fst (flush 121 60 (readReport 120)) = histogramOf "read" ["H[10]=2"; "H[20]=1"].
Proof.
  apply (C8_histogram_value_amended 120 121); lia.
Defined.

(** ** Construction and the empty flush *)

(** A number passes the test for a missing script and the constructor
    still throws, at the call of [substr]. *)
Lemma C9_counterexample :
  Dtrace_constructor (ANum (Num 42)) = ThrowTypeError "this.script.substr is not a function"
  ∧ ANum (Num 42) ≠ ANull
  ∧ ANum (Num 42) ≠ AUndefined.
Proof. split; [reflexivity|]. split; discriminate. Qed.

(** C9, amended.  The constructor throws the error of the missing script
    exactly for null and undefined, builds the instance for every
    string, and raises a TypeError at [this.script.substr] exactly for
    the other values: the missing script is not the only error of the
    constructor.  A flush whose seconds all read a slot without
    recorded data returns the mapping without entries. *)
Theorem C9_construction_errors_and_empty_flush_amended
    (arg : jsarg) (now numSamples : Z) (d : Dtrace) (h : Heap)
    (Hempty : ∀ i, i ∈ flushSeconds (now - numSamples) (lastTimestamp d) →
                   noData h (windows d !! Z.rem i 60)) :
  (Dtrace_constructor arg = Throw "Script is a required parameter for Dtrace class"
   ↔ arg = ANull ∨ arg = AUndefined)
  ∧ (∀ s, arg = AStr s → Dtrace_constructor arg = Ok (newDtrace s))
  ∧ (Dtrace_constructor arg = ThrowTypeError "this.script.substr is not a function"
     ↔ arg ≠ ANull ∧ arg ≠ AUndefined ∧ ∀ s, arg ≠ AStr s)
  ∧ fst (flush now numSamples (d, h)) = VObj [].
Proof.
  split; [|split; [|split]].
  - destruct arg as [| |s|n|b|]; cbn [Dtrace_constructor];
      (split;
       [intros H; first [discriminate H | by right | by left]
       |intros [H|H]; first [discriminate H | reflexivity]]).
  - intros s ->. done.
  - destruct arg as [| |s|n|b|]; cbn [Dtrace_constructor];
      (split;
       [intros H;
        first [discriminate H
              | (split; [discriminate|split; [discriminate|intros s'; discriminate]])]
       |intros (H1 & H2 & H3);
        first [reflexivity | by destruct H1 | by destruct H2 | by destruct (H3 s)]]).
  - unfold flush.
    destruct (newMetrics h) as [aggregates h1] eqn:Hn.
    assert (Hh1 : h1 = snd (newMetrics h)) by (by rewrite Hn).
    assert (Ha : aggregates = nextLoc h) by (by inversion Hn).
    assert (Hr : readMetrics h1 aggregates = []).
    { rewrite Hh1, Ha, readMetrics_newMetrics. by rewrite decide_True. }
    assert (Hloop :
      foldl (fun h0 i => aggregateSamples aggregates (windows d !! Z.rem i 60) h0)
        h1 (flushSeconds (now - numSamples) (lastTimestamp d)) = h1).
    { apply foldl_fixed. intros i Hi. apply aggregateSamples_noData.
      rewrite Hh1. apply noData_newMetrics. by apply Hempty. }
    cbv zeta. rewrite Hloop, Hr. done.
Qed.

(** A boolean in place of the script, and a flush over seconds whose
    slots are null or hold a window without a metric. *)
Lemma C9_witness :
  Dtrace_constructor (ABool true) = ThrowTypeError "this.script.substr is not a function"
  ∧ fst (flush 120 10 (fst emptyReportState, snd emptyReportState)) = VObj [].
Proof.
  assert (Hempty : ∀ i,
    i ∈ flushSeconds (120 - 10) (lastTimestamp (fst emptyReportState)) →
    noData (snd emptyReportState) (windows (fst emptyReportState) !! Z.rem i 60)).
  { assert (E : flushSeconds (120 - 10) (lastTimestamp (fst emptyReportState))
                = seqZ 110 11) by (vm_compute; reflexivity).
    rewrite E. intros i Hi.
    repeat (apply elem_of_cons in Hi as [->|Hi];
      [vm_compute; first [exact I | reflexivity]|]).
    apply elem_of_nil in Hi. destruct Hi. }
  pose proof (C9_construction_errors_and_empty_flush_amended (ABool true) 120 10
                (fst emptyReportState) (snd emptyReportState) Hempty) as (_ & _ & Ht & Hf).
  split; [|exact Hf].
  apply Ht. split; [discriminate|]. split; [discriminate|]. intros s. discriminate.
Defined.

(** ** Duplicate samples in one report *)

(** A later line for the same metric and label does not always replace
    the earlier one: a line whose count parses to zero is passed over
    and the earlier count stays, and a line with the label [__proto__]
    stores nothing at all. *)
Lemma C10_counterexample :
  storedCount (snd (endOfReport 120 (collecting ["=m"; "10|2"; "10|0"])))
    (nextLoc emptyHeap) "m" "10" = Some (Num 2)
  ∧ lastSample "m" "10" ["=m"; "10|2"; "10|0"] = Some (Num 0)
  ∧ storedCount (snd (endOfReport 120 (collecting ["=m"; "__proto__|5"; "__proto__|7"])))
      (nextLoc emptyHeap) "m" "__proto__" = None
  ∧ lastSample "m" "__proto__" ["=m"; "__proto__|5"; "__proto__|7"] = Some (Num 7).
Proof. repeat split; vm_compute; reflexivity. Qed.

Lemma lastStored_context key latency ls ctx x :
  fst (foldl (lastStoredStep key latency) (ctx, x) ls)
  = foldl (fun ctx line => match matchMetric line with
                           | Some name => Some name
                           | None => ctx
                           end) ctx ls.
Proof.
  revert ctx x. induction ls as [|l ls IH]; intros ctx x; cbn [foldl]; [done|].
  assert (E : lastStoredStep key latency (ctx, x) l
              = (match matchMetric l with Some name => Some name | None => ctx end,
                 snd (lastStoredStep key latency (ctx, x) l))).
  { unfold lastStoredStep. cbn [fst snd].
    destruct (matchMetric l); [done|]. destruct ctx; [|done].
    destruct (matchSample l); [|done]. cbv zeta.
    destruct (jsnum_eqb _ _); [done|]. destruct (String.eqb _ "__proto__"); [done|].
    by destruct (_ && _). }
  rewrite E. apply IH.
Qed.

(** C10, amended.  For every metric other than [__proto__] and every
    label, the count that the window of a report holds is the count of
    the last sample line of the report with that metric and label whose
    count does not parse to zero, the label [__proto__] never holding
    one: such a line assigns over an earlier one, the counts are not
    added.  In particular a sample line that ends the report, with a
    count other than zero and a label other than [__proto__], leaves
    its own count in its bucket whatever the earlier lines stored
    there.  So the lines [=m], [10|2], [10|5], [20|1] store 5 for the
    label 10, not 7; after [10|2] the line [10|0] leaves 2; and
    [__proto__|5] stores no bucket. *)
Theorem C10_later_sample_replaces_earlier_amended (t : Z) (d : Dtrace) (h : Heap)
    (key latency : string) (Hwf : wfHeap h) (Hkey : key ≠ "__proto__") :
  storedCount (snd (endOfReport t (d, h))) (nextLoc h) key latency
  = lastStored key latency (linesOf d)
  ∧ (∀ pre line,
       linesOf d = (pre ++ [line])%list →
       currentMetric pre = Some key →
       matchMetric line = None → matchSample line = true →
       List.hd EmptyString (split "|" line) = latency →
       latency ≠ "__proto__" →
       jsnum_eqb (parseInt (List.nth_error (split "|" line) 1)) (Num 0) = false →
       storedCount (snd (endOfReport t (d, h))) (nextLoc h) key latency
       = Some (parseInt (List.nth_error (split "|" line) 1)))
  ∧ storedCount
      (snd (endOfReport t (setLines (Some ["=m"; "10|2"; "10|5"; "20|1"]) d, h)))
      (nextLoc h) "m" "10" = Some (Num 5)
  ∧ storedCount
      (snd (endOfReport t (setLines (Some ["=m"; "10|2"; "10|0"]) d, h)))
      (nextLoc h) "m" "10" = Some (Num 2)
  ∧ storedCount
      (snd (endOfReport t (setLines (Some ["=m"; "10|2"; "__proto__|5"]) d, h)))
      (nextLoc h) "m" "__proto__" = None.
Proof.
  assert (Hgen : ∀ d key latency,
    storedCount (snd (endOfReport t (d, h))) (nextLoc h) key latency
    = lastStored key latency (linesOf d)).
  { clear d key latency Hkey. intros d key latency.
    rewrite endOfReport_heap. unfold lastStored.
    pose proof (fills_newMetrics h Hwf) as Hf.
    assert (H0 : storedCount (snd (newMetrics h)) (nextLoc h) key latency = None).
    { unfold storedCount, viewMetrics.
      rewrite readMetrics_newMetrics, decide_True by done. done. }
    rewrite <- H0.
    by rewrite (decodeLines_lastStored h (nextLoc h) key latency (linesOf d) None _ Hf). }
  split; [apply Hgen|]. split.
  - intros pre line Hlines Hctx Hm Hs Hlabel Hproto Hz.
    rewrite Hgen, Hlines. unfold lastStored. rewrite foldl_app. cbn [foldl].
    pose proof (lastStored_context key latency pre None None) as Hc.
    fold (currentMetric pre) in Hc. rewrite Hctx in Hc.
    destruct (foldl (lastStoredStep key latency) (None, None) pre) as [ctx x].
    cbn [fst] in Hc. subst ctx.
    unfold lastStoredStep. cbn [fst snd]. rewrite Hm, Hs. cbv zeta. rewrite Hz, Hlabel.
    destruct (String.eqb_spec latency "__proto__") as [E|_]; [done|].
    by rewrite !String.eqb_refl.
  - rewrite !Hgen. repeat split; vm_compute; reflexivity.
Qed.

(** Reports that give the label [10] of [m] twice: in the middle of the
    report, and with the second sample as its last line. *)
Lemma C10_witness :
  storedCount (snd (endOfReport 120 (fst (collecting ["=m"; "10|2"; "10|5"; "20|1"]), emptyHeap)))
    (nextLoc emptyHeap) "m" "10"
  = lastStored "m" "10" (linesOf (fst (collecting ["=m"; "10|2"; "10|5"; "20|1"])))
  ∧ storedCount (snd (endOfReport 120 (fst (collecting ["=m"; "10|2"; "10|5"]), emptyHeap)))
      (nextLoc emptyHeap) "m" "10"
    = Some (parseInt (List.nth_error (split "|" "10|5") 1)).
Proof.
  split.
  - refine (proj1 (C10_later_sample_replaces_earlier_amended 120
                     (fst (collecting ["=m"; "10|2"; "10|5"; "20|1"])) emptyHeap "m" "10"
                     _ _)).
    + apply wfHeap_empty.
    + discriminate.
  - refine (proj1 (proj2 (C10_later_sample_replaces_earlier_amended 120
                            (fst (collecting ["=m"; "10|2"; "10|5"])) emptyHeap "m" "10"
                            wfHeap_empty _))
              ["=m"; "10|2"] "10|5" _ _ _ _ _ _ _).
    + discriminate.
    + reflexivity.
    + reflexivity.
    + reflexivity.
    + reflexivity.
    + reflexivity.
    + discriminate.
    + reflexivity.
Defined.

(** The window holds 5 for the label, not 7. *)
Example duplicate_label_is_assigned :
  lastStored "m" "10" ["=m"; "10|2"; "10|5"; "20|1"] = Some (Num 5)
  ∧ viewSlot (snd (endOfReport 120 (collecting ["=m"; "10|2"; "10|5"; "20|1"])))
      (windows (fst (endOfReport 120 (collecting ["=m"; "10|2"; "10|5"; "20|1"]))) !! 0)
    = Some [("m", [("10", Num 5); ("20", Num 1)])].
Proof. split; vm_compute; reflexivity. Qed.

(** * Further properties of the module *)

(** ** The keys a for-in visits *)

Lemma insertIndex_perm e l : insertIndex e l ≡ₚ e :: l.
Proof.
  induction l as [|e' l IH]; cbn [insertIndex]; [done|].
  destruct (fst e <=? fst e'); [done|].
  rewrite IH. apply perm_swap.
Qed.

Lemma sortIndex_perm l : sortIndex l ≡ₚ l.
Proof.
  induction l as [|e l IH]; [done|].
  unfold sortIndex. cbn [foldr]. fold (sortIndex l).
  rewrite insertIndex_perm. by apply perm_skip.
Qed.

Lemma forInKeys_perm {V : Type} (o : list (string * V)) : forInKeys o ≡ₚ map fst o.
Proof.
  unfold forInKeys. generalize (map fst o). intros ks.
  rewrite (Permutation_map snd (sortIndex_perm _)).
  induction ks as [|k ks IH]; [done|].
  rewrite filter_cons. cbn [omap list_omap]. 
  destruct (arrayIndex k) as [n|] eqn:E; cbn [fmap option_fmap option_map].
  - rewrite decide_False by done. cbn [map snd app]. by apply perm_skip.
  - rewrite decide_True by done. rewrite <- Permutation_middle. by apply perm_skip.
Qed.

Lemma elem_of_forInKeys {V : Type} (o : list (string * V)) k :
  k ∈ forInKeys o ↔ k ∈ map fst o.
Proof. by rewrite forInKeys_perm. Qed.

Lemma NoDup_forInKeys {V : Type} (o : list (string * V)) :
  NoDup (map fst o) → NoDup (forInKeys o).
Proof. by rewrite forInKeys_perm. Qed.

Lemma getProp_None {V : Type} (o : list (string * V)) k :
  getProp k o = None ↔ k ∉ map fst o.
Proof.
  induction o as [|[k' v] o IH]; cbn [getProp map fst].
  - split; [intros _; apply not_elem_of_nil|done].
  - destruct (String.eqb_spec k k') as [->|Hne].
    + split; [done|]. intros H. destruct H. by left.
    + rewrite IH, not_elem_of_cons. split; [by intros Hn|by intros [_ Hn]].
Qed.

Lemma getProp_is_Some {V : Type} (o : list (string * V)) k :
  is_Some (getProp k o) ↔ k ∈ map fst o.
Proof.
  destruct (getProp k o) as [v|] eqn:E.
  - split; [|by eexists]. intros _.
    destruct (decide (k ∈ map fst o)) as [|Hn]; [done|].
    apply getProp_None in Hn. congruence.
  - split; [by intros [? ?]|]. intros Hin. by apply getProp_None in E.
Qed.

Lemma fst_setProp {V : Type} k (v : V) (o : list (string * V)) :
  map fst (setProp k v o) =
  if hasOwnProperty o k then map fst o else (map fst o ++ [k])%list.
Proof.
  unfold hasOwnProperty.
  induction o as [|[k' v'] o IH]; cbn [setProp getProp map fst]; [done|].
  destruct (String.eqb_spec k k') as [->|Hne]; [done|].
  cbn [map fst]. rewrite IH. by destruct (getProp k o).
Qed.

Lemma NoDup_setProp {V : Type} k (v : V) (o : list (string * V)) :
  NoDup (map fst o) → NoDup (map fst (setProp k v o)).
Proof.
  intros Hnd. rewrite fst_setProp. unfold hasOwnProperty.
  destruct (getProp k o) eqn:E; [done|].
  apply NoDup_app. split; [done|]. split; [|apply NoDup_singleton].
  intros x Hx ->%list_elem_of_singleton. by apply getProp_None in E.
Qed.

(** ** The merge adds counts, bucket by bucket *)

Lemma getProp_mergeSample src tgt sample k :
  getProp k (mergeSample src tgt sample) =
  if String.eqb sample k
  then Some (add (default (Num 0) (getProp k tgt)) (toNumber (getProp k src)))
  else getProp k tgt.
Proof.
  unfold mergeSample, hasOwnProperty.
  destruct (String.eqb_spec sample k) as [->|Hne].
  - rewrite getProp_setProp_eq. f_equal. f_equal.
    destruct (getProp k tgt) as [v|] eqn:E; [by rewrite E|].
    by rewrite getProp_setProp_eq.
  - rewrite getProp_setProp_ne by done.
    destruct (getProp sample tgt); [done|]. by rewrite getProp_setProp_ne.
Qed.

Lemma getProp_mergeSamples_keys src keys tgt k :
  NoDup keys →
  getProp k (foldl (mergeSample src) tgt keys) =
  if decide (k ∈ keys)
  then Some (add (default (Num 0) (getProp k tgt)) (toNumber (getProp k src)))
  else getProp k tgt.
Proof.
  revert tgt. induction keys as [|x keys IH]; intros tgt Hnd; cbn [foldl].
  - by rewrite decide_False by apply not_elem_of_nil.
  - apply NoDup_cons in Hnd as [Hx Hnd]. rewrite IH by done.
    rewrite getProp_mergeSample.
    destruct (String.eqb_spec x k) as [->|Hne].
    + rewrite decide_False by done. rewrite decide_True by (by left). done.
    + destruct (decide (k ∈ keys)) as [Hin|Hnin].
      * rewrite decide_True by (by right). done.
      * rewrite decide_False; [done|]. intros [->|?]%elem_of_cons; done.
Qed.

Lemma getProp_mergeSamples tgt src k :
  NoDup (map fst src) →
  getProp k (mergeSamples tgt src) = sumCount (getProp k tgt) (getProp k src).
Proof.
  intros Hnd. unfold mergeSamples.
  rewrite getProp_mergeSamples_keys by by apply NoDup_forInKeys.
  destruct (getProp k src) as [c|] eqn:E; cbn [sumCount toNumber].
  - rewrite decide_True; [done|]. apply elem_of_forInKeys, getProp_is_Some. by eexists.
  - rewrite decide_False; [done|]. rewrite elem_of_forInKeys. by apply getProp_None.
Qed.

Lemma countOf_mergeMetric src tgt metric key latency :
  uniqueKeys src →
  countOf (mergeMetric src tgt metric) key latency =
  if String.eqb metric key
  then sumCount (countOf tgt key latency) (countOf src key latency)
  else countOf tgt key latency.
Proof.
  intros [Hnd Hall]. unfold mergeMetric, countOf, hasOwnProperty.
  destruct (String.eqb_spec metric key) as [->|Hne].
  - destruct (getProp key src) as [s|] eqn:Hs; cbn [mbind option_bind].
    + assert (Hnds : NoDup (map fst s)).
      { rewrite Forall_forall in Hall.
        assert (Hin : ∃ k, (k, s) ∈ src).
        { clear -Hs. induction src as [|[k' v] src IH]; [done|].
          cbn [getProp] in Hs. destruct (String.eqb key k').
          - injection Hs as ->. exists k'. by left.
          - destruct (IH Hs) as [k Hk]. exists k. by right. }
        destruct Hin as [k Hk]. apply (Hall _ Hk). }
      destruct (getProp key tgt) as [t|] eqn:Ht.
      * rewrite Ht. rewrite getProp_setProp_eq. cbn [mbind option_bind].
        by apply getProp_mergeSamples.
      * rewrite getProp_setProp_eq, getProp_setProp_eq. cbn [mbind option_bind].
        by rewrite getProp_mergeSamples.
    + destruct (getProp key tgt) as [t|] eqn:Ht; [by rewrite Ht|].
      by rewrite getProp_setProp_eq.
  - set (t1 := if match getProp metric tgt with Some _ => true | None => false end
               then tgt else setProp metric [] tgt).
    assert (Ht1 : getProp key t1 = getProp key tgt).
    { unfold t1. destruct (getProp metric tgt); [done|]. by apply getProp_setProp_ne. }
    destruct (getProp metric src) as [s|]; [|by rewrite Ht1].
    destruct (getProp metric t1) as [t|]; [|by rewrite Ht1].
    rewrite getProp_setProp_ne by done. by rewrite Ht1.
Qed.

Lemma countOf_mergeMetrics src keys tgt key latency :
  uniqueKeys src → NoDup keys →
  countOf (foldl (mergeMetric src) tgt keys) key latency =
  if decide (key ∈ keys)
  then sumCount (countOf tgt key latency) (countOf src key latency)
  else countOf tgt key latency.
Proof.
  intros Hu. revert tgt. induction keys as [|x keys IH]; intros tgt Hnd; cbn [foldl].
  - by rewrite decide_False by apply not_elem_of_nil.
  - apply NoDup_cons in Hnd as [Hx Hnd]. rewrite IH by done.
    rewrite countOf_mergeMetric by done.
    destruct (String.eqb_spec x key) as [->|Hne].
    + rewrite decide_False by done. rewrite decide_True by (by left). done.
    + destruct (decide (key ∈ keys)) as [Hin|Hnin].
      * rewrite decide_True by (by right). done.
      * rewrite decide_False; [done|]. intros [->|?]%elem_of_cons; done.
Qed.

Lemma countOf_mergeWindow tgt src key latency :
  uniqueKeys src →
  countOf (mergeWindow tgt (Some src)) key latency =
  sumCount (countOf tgt key latency) (countOf src key latency).
Proof.
  intros Hu. cbn [mergeWindow].
  rewrite countOf_mergeMetrics; [|done|apply NoDup_forInKeys, Hu].
  destruct (decide (key ∈ forInKeys src)) as [Hin|Hnin]; [done|].
  rewrite elem_of_forInKeys in Hnin. apply getProp_None in Hnin.
  unfold countOf at 3. by rewrite Hnin.
Qed.

(** ** The window of a report, as a value *)

Lemma decodeLine_view h0 metrics ctx h line :
  fills h0 metrics h →
  decodeValueLine (ctx, viewMetrics h metrics) line =
  (fst (decodeLine metrics (ctx, h) line),
   viewMetrics (snd (decodeLine metrics (ctx, h) line)) metrics).
Proof.
  intros Hf. unfold decodeValueLine, decodeLine. cbn [fst snd].
  destruct (matchMetric line); [done|].
  destruct ctx as [key|]; [|done].
  destruct (matchSample line); [|done].
  cbv zeta.
  set (latency := List.hd EmptyString (split "|" line)).
  set (count := parseInt (List.nth_error (split "|" line) 1)).
  destruct (jsnum_eqb count (Num 0)); [done|].
  destruct (ensureSamples_fills h0 metrics key h Hf) as [Hf1 Hv1].
  rewrite <- Hv1. clear Hv1.
  set (h1 := ensureSamples metrics key h) in *.
  rewrite getProp_viewMetrics.
  destruct (getProp key (readMetrics h1 metrics)) as [samples|] eqn:Hk;
    cbn [fmap option_fmap option_map fst snd]; [|done].
  f_equal. symmetry. by apply (writeOwned_fills h0).
Qed.

Lemma decodeLines_view h0 metrics ls ctx h :
  fills h0 metrics h →
  foldl decodeValueLine (ctx, viewMetrics h metrics) ls =
  (fst (foldl (decodeLine metrics) (ctx, h) ls),
   viewMetrics (snd (foldl (decodeLine metrics) (ctx, h) ls)) metrics).
Proof.
  revert ctx h. induction ls as [|l ls IH]; intros ctx h Hf; cbn [foldl]; [done|].
  rewrite (decodeLine_view h0 metrics) by done.
  pose proof (decodeLine_fills h0 metrics (ctx, h) l Hf) as Hf1.
  destruct (decodeLine metrics (ctx, h) l) as [ctx1 h1]. cbn [fst snd] in *.
  by apply IH.
Qed.

Lemma endOfReport_view t d h :
  wfHeap h →
  viewMetrics (snd (endOfReport t (d, h))) (nextLoc h) = decodeValue (linesOf d).
Proof.
  intros Hwf. rewrite endOfReport_heap. unfold decodeValue.
  assert (H0 : viewMetrics (snd (newMetrics h)) (nextLoc h) = []).
  { unfold viewMetrics. rewrite readMetrics_newMetrics, decide_True by done. done. }
  rewrite <- H0.
  by rewrite (decodeLines_view h (nextLoc h) (linesOf d) None _ (fills_newMetrics h Hwf)).
Qed.

Lemma Forall_entry_setProp {V : Type} (P : string * V → Prop) k v (o : list (string * V)) :
  P (k, v) → Forall P o → Forall P (setProp k v o).
Proof.
  intros Hv. induction o as [|[k' v'] o IH]; intros Ho; cbn [setProp].
  - by constructor.
  - apply Forall_cons in Ho as [Hv' Ho].
    destruct (String.eqb k k'); constructor; auto.
Qed.

Lemma getProp_Forall {V : Type} (P : string * V → Prop) k v (o : list (string * V)) :
  Forall P o → getProp k o = Some v → P (k, v).
Proof.
  induction o as [|[k' v'] o IH]; intros Ho; cbn [getProp]; [done|].
  apply Forall_cons in Ho as [Hv' Ho].
  destruct (String.eqb_spec k k') as [->|Hne]; [by intros [= <-]|by apply IH].
Qed.

Lemma setProp_setProp {V : Type} k (v w : V) (o : list (string * V)) :
  setProp k v (setProp k w o) = setProp k v o.
Proof.
  induction o as [|[k' v'] o IH]; cbn [setProp].
  - by rewrite String.eqb_refl.
  - destruct (String.eqb k k') eqn:E; cbn [setProp]; rewrite ?String.eqb_refl, ?E; [done|].
    by rewrite IH.
Qed.

(** What a line that records a sample leaves: the samples of [key]
    with [latency] assigned over them, [key] keeping its place or
    coming last. *)
Lemma decodeValueLine_cases st line :
  decodeValueLine st line = st
  ∨ (∃ name, matchMetric line = Some name ∧ decodeValueLine st line = (Some name, snd st))
  ∨ (∃ key count,
       fst st = Some key
       ∧ matchMetric line = None
       ∧ count = parseInt (List.nth_error (split "|" line) 1)
       ∧ jsnum_eqb count (Num 0) = false
       ∧ decodeValueLine st line =
         (Some key,
          setProp key
            (setNumber (List.hd EmptyString (split "|" line)) count
               (default [] (getProp key (snd st))))
            (snd st))).
Proof.
  unfold decodeValueLine.
  destruct (matchMetric line) as [name|]; [right; left; by exists name|].
  destruct st as [[key|] m]; cbn [fst snd]; [|by left].
  destruct (matchSample line); [|by left]. cbv zeta.
  set (count := parseInt _).
  destruct (jsnum_eqb count (Num 0)) eqn:Hz; [by left|].
  right. right. exists key, count. do 4 (split; [done|]).
  unfold hasOwnProperty.
  destruct (getProp key m) as [s|] eqn:Hs.
  - by rewrite Hs.
  - rewrite getProp_setProp_eq. cbn [default from_option id]. by rewrite setProp_setProp.
Qed.

(** An invariant of the entries of [metrics] holds for the decoded
    value when each recorded sample keeps it. *)
Lemma decodeValue_invariant (P : string * list (string * jsnum) → Prop)
    (Q : option string → Prop) (ls : list string) :
  Q None →
  (∀ line name, line ∈ ls → matchMetric line = Some name → Q (Some name)) →
  (∀ line key samples, line ∈ ls → Q (Some key) → matchMetric line = None →
     (samples = [] ∨ P (key, samples)) →
     jsnum_eqb (parseInt (List.nth_error (split "|" line) 1)) (Num 0) = false →
     P (key, setNumber (List.hd EmptyString (split "|" line))
                (parseInt (List.nth_error (split "|" line) 1)) samples)) →
  Forall P (decodeValue ls).
Proof.
  intros HQ Hname Hset. unfold decodeValue.
  assert (H : ∀ st, Q (fst st) → Forall P (snd st) →
    Forall P (snd (foldl decodeValueLine st ls))).
  { induction ls as [|l ls IH]; intros st Hq Hp; cbn [foldl]; [done|].
    assert (Hstep : Q (fst (decodeValueLine st l)) ∧ Forall P (snd (decodeValueLine st l))).
    { destruct (decodeValueLine_cases st l)
        as [->|[(name & Hm & ->)|(key & count & Hk & Hm & -> & Hz & ->)]]; cbn [fst snd].
      - done.
      - split; [|done]. apply (Hname l); [by left|done].
      - rewrite Hk in Hq. split; [done|].
        apply Forall_entry_setProp; [|done].
        apply (Hset l); [by left|done|done| |done].
        destruct (getProp key (snd st)) as [s|] eqn:Hs; [right|by left].
        by apply (getProp_Forall P key s (snd st)). }
    destruct Hstep as [Hq1 Hp1].
    apply IH; [| |done|done].
    - intros line name Hin. apply Hname. by right.
    - intros line key samples Hin. apply Hset. by right. }
  apply H; [done|constructor].
Qed.

Lemma NoDup_keys_decodeValue ls : NoDup (map fst (decodeValue ls)).
Proof.
  unfold decodeValue.
  assert (H : ∀ st, NoDup (map fst (snd st)) →
    NoDup (map fst (snd (foldl decodeValueLine st ls)))).
  { induction ls as [|l ls IH]; intros st Hnd; cbn [foldl]; [done|].
    apply IH.
    destruct (decodeValueLine_cases st l)
      as [->|[(name & Hm & ->)|(key & count & Hk & Hm & -> & Hz & ->)]]; cbn [fst snd];
      [done|done|by apply NoDup_setProp]. }
  apply H. constructor.
Qed.

Lemma uniqueKeys_decodeValue ls : uniqueKeys (decodeValue ls).
Proof.
  split; [apply NoDup_keys_decodeValue|].
  apply (decodeValue_invariant (fun p => NoDup (map fst (snd p))) (fun _ => True));
    [done|done|].
  intros line key samples _ _ _ Hs _; cbn [snd]. unfold setNumber.
  destruct (String.eqb _ "__proto__").
  - destruct Hs as [->|Hs]; [constructor|done].
  - destruct Hs as [->|Hs]; [apply NoDup_singleton|by apply NoDup_setProp].
Qed.

Lemma decodeValueLine_inert st line : inert line = true → decodeValueLine st line = st.
Proof.
  unfold inert, decodeValueLine.
  destruct (matchMetric line); [done|].
  destruct (fst st); [|done].
  destruct (matchSample line); cbn [negb orb]; [|done].
  by intros ->.
Qed.

Lemma decodeLine_inert metrics st line :
  inert line = true → decodeLine metrics st line = st.
Proof.
  unfold inert, decodeLine. destruct st as [ctx h].
  destruct (matchMetric line); [done|].
  destruct ctx; [|done].
  destruct (matchSample line); cbn [negb orb]; [|done].
  by intros ->.
Qed.

Lemma decodeValue_no_metric st pre :
  fst st = None → (∀ l, l ∈ pre → matchMetric l = None) →
  foldl decodeValueLine st pre = st.
Proof.
  intros Hctx. induction pre as [|l pre IH]; intros Hpre; cbn [foldl]; [done|].
  assert (Hl : decodeValueLine st l = st).
  { unfold decodeValueLine. rewrite (Hpre l) by (by left). by rewrite Hctx. }
  rewrite Hl. apply IH. intros l' Hl'. apply Hpre. by right.
Qed.

(** ** What a report stores *)



(** A pending line that names no metric and holds no digit, or whose
    count parses to zero, can be taken out of a report that has another
    line, wherever it stands: the [>END] branch leaves the same ring,
    the same [lastTimestamp] and the same store as without it.  (Alone,
    such a line still makes the branch store an empty window.) *)
Theorem inert_line_changes_nothing (t : Z) (d : Dtrace) (h : Heap)
    (pre post : list string) (line : string)
    (Hinert : inert line = true) (Hrest : (pre ++ post)%list ≠ []) :
  endOfReport t (setLines (Some (pre ++ line :: post)%list) d, h)
  = (setLines (Some (pre ++ line :: post)%list)
       (fst (endOfReport t (setLines (Some (pre ++ post)%list) d, h))),
     snd (endOfReport t (setLines (Some (pre ++ post)%list) d, h))).
Proof.
  unfold endOfReport. cbn [newMetrics].
  change (linesOf (setLines (Some ?x) d)) with x.
  rewrite !foldl_app. cbn [foldl].
  rewrite (decodeLine_inert (nextLoc h) _ line Hinert).
  destruct (foldl (decodeLine (nextLoc h)) _ post) as [mk h2].
  assert (H1 : (0 <? length (pre ++ line :: post))%nat = true).
  { rewrite length_app. cbn [length]. apply Nat.ltb_lt. lia. }
  assert (H2 : (0 <? length (pre ++ post))%nat = true).
  { destruct (pre ++ post)%list; [done|reflexivity]. }
  rewrite H1, H2. reflexivity.
Qed.

(** A line [5|0] between two samples. *)
Lemma inert_line_changes_nothing_witness :
  endOfReport 120
    (setLines (Some (["=m"; "10|2"] ++ "5|0" :: ["20|1"])%list) (fst (launched "/io.d")),
     emptyHeap)
  = (setLines (Some (["=m"; "10|2"] ++ "5|0" :: ["20|1"])%list)
       (fst (endOfReport 120
               (setLines (Some (["=m"; "10|2"] ++ ["20|1"])%list) (fst (launched "/io.d")),
                emptyHeap))),
     snd (endOfReport 120
            (setLines (Some (["=m"; "10|2"] ++ ["20|1"])%list) (fst (launched "/io.d")),
             emptyHeap))).
Proof.
  apply (inert_line_changes_nothing 120 (fst (launched "/io.d")) emptyHeap
           ["=m"; "10|2"] ["20|1"] "5|0").
  - reflexivity.
  - discriminate.
Defined.

(** The lines of a report that come before its first metric line are
    passed over, whatever they hold. *)
Theorem lines_before_first_metric_are_ignored (t1 t2 : Z) (d1 d2 : Dtrace) (h1 h2 : Heap)
    (pre rest : list string)
    (Hwf1 : wfHeap h1) (Hwf2 : wfHeap h2)
    (Hpre : ∀ l, l ∈ pre → matchMetric l = None)
    (Hlines1 : linesOf d1 = (pre ++ rest)%list)
    (Hlines2 : linesOf d2 = rest) :
  viewMetrics (snd (endOfReport t1 (d1, h1))) (nextLoc h1)
  = viewMetrics (snd (endOfReport t2 (d2, h2))) (nextLoc h2).
Proof.
  rewrite !endOfReport_view by done. rewrite Hlines1, Hlines2.
  unfold decodeValue. rewrite foldl_app.
  by rewrite (decodeValue_no_metric (None, []) pre).
Qed.

(** Two sample lines ahead of the metric line. *)
Lemma lines_before_first_metric_are_ignored_witness :
  viewMetrics
    (snd (endOfReport 120 (fst (collecting ["7|1"; "8|2"; "=m"; "10|2"]), emptyHeap)))
    (nextLoc emptyHeap)
  = viewMetrics (snd (endOfReport 120 (fst (collecting ["=m"; "10|2"]), emptyHeap)))
      (nextLoc emptyHeap).
Proof.
  apply (lines_before_first_metric_are_ignored 120 120 _ _ emptyHeap emptyHeap
           ["7|1"; "8|2"] ["=m"; "10|2"]).
  - apply wfHeap_empty.
  - apply wfHeap_empty.
  - intros l Hl. repeat (apply elem_of_cons in Hl as [->|Hl]; [reflexivity|]).
    apply elem_of_nil in Hl. destruct Hl.
  - reflexivity.
  - reflexivity.
Defined.

(** A metric other than [__proto__] is in a stored window only with a
    bucket, when no pending line has the label [__proto__]: the decoder
    creates the distribution of a metric when it is about to write a
    count into it, so a metric line that no sample follows leaves no
    entry.  (A count for the label [__proto__] is the one that is not
    written: see [proto_label_leaves_an_empty_metric].) *)
Theorem stored_metric_has_a_bucket (t : Z) (d : Dtrace) (h : Heap)
    (key : string) (samples : list (string * jsnum))
    (Hwf : wfHeap h) (Hkey : key ≠ "__proto__")
    (Hlabels : ∀ line, line ∈ linesOf d →
                       List.hd EmptyString (split "|" line) ≠ "__proto__")
    (Hget : getProp key (viewMetrics (snd (endOfReport t (d, h))) (nextLoc h)) = Some samples) :
  samples ≠ [].
Proof.
  rewrite endOfReport_view in Hget by done.
  assert (Hall : Forall (fun p : string * list (string * jsnum) => snd p ≠ [])
                   (decodeValue (linesOf d))).
  { apply (decodeValue_invariant _ (fun _ => True)); [done|done|].
    intros line k s Hin _ _ _ _. cbn [snd]. unfold setNumber.
    destruct (String.eqb_spec (List.hd EmptyString (split "|" line)) "__proto__") as [E|_].
    - by destruct (Hlabels line Hin).
    - by destruct s as [|[k' v'] s]; cbn [setProp]; [|destruct (String.eqb _ k')]. }
  apply (getProp_Forall _ key samples _ Hall Hget).
Qed.

(** The metric [m] of a report with one sample. *)
Lemma stored_metric_has_a_bucket_witness :
  getProp "m"
    (viewMetrics (snd (endOfReport 120 (fst (collecting ["=k"; "=m"; "10|2"]), emptyHeap)))
       (nextLoc emptyHeap))
  = Some [("10", Num 2)]
  ∧ [("10", Num 2)] ≠ @nil (string * jsnum).
Proof.
  assert (H : getProp "m"
                (viewMetrics
                   (snd (endOfReport 120 (fst (collecting ["=k"; "=m"; "10|2"]), emptyHeap)))
                   (nextLoc emptyHeap))
              = Some [("10", Num 2)]) by (vm_compute; reflexivity).
  split; [exact H|].
  refine (stored_metric_has_a_bucket 120 (fst (collecting ["=k"; "=m"; "10|2"])) emptyHeap "m"
            [("10", Num 2)] wfHeap_empty _ _ H).
  - discriminate.
  - intros line Hl.
    repeat (apply elem_of_cons in Hl as [->|Hl]; [vm_compute; discriminate|]).
    apply elem_of_nil in Hl. destruct Hl.
Defined.

(** A sample for the label [__proto__] creates the distribution of its
    metric and stores no bucket in it. *)
Example proto_label_leaves_an_empty_metric :
  viewMetrics (snd (endOfReport 120 (collecting ["=m"; "__proto__|5"]))) (nextLoc emptyHeap)
  = [("m", [])].
Proof. vm_compute. reflexivity. Qed.

(** ** Windows recorded earlier *)

Lemma endOfReport_slot_ref t d h i l :
  wfState (d, h) →
  windows (fst (endOfReport t (d, h))) !! i = Some (SRef l) →
  (l = nextLoc h ∧ i = Z.rem t 60 ∧ linesOf d ≠ [])
  ∨ (windows d !! i = Some (SRef l)
     ∧ (l < nextLoc h)%nat
     ∧ viewMetrics (snd (endOfReport t (d, h))) l = viewMetrics h l).
Proof.
  intros Hwf. destruct (endOfReport_wf t (d, h) Hwf) as [_ Hk]. cbn [snd] in Hk.
  rewrite endOfReport_windows. cbv zeta.
  assert (Hold :
    (<[Z.rem t 60 := SNull]>
       (clearGap match lastTimestamp d with TNull => TNum t | x => x end t (windows d))
     : gmap Z slot) !! i = Some (SRef l) →
    windows d !! i = Some (SRef l) ∧ (l < nextLoc h)%nat
    ∧ viewMetrics (snd (endOfReport t (d, h))) l = viewMetrics h l).
  { rewrite lookup_insert. case_decide; [discriminate|].
    intros Hc%clearGap_SRef. pose proof (proj2 Hwf i l Hc) as Hl. cbn [snd] in Hl.
    split; [done|]. split; [done|]. apply keeps_viewMetrics; [apply Hwf|done|done]. }
  destruct (linesOf d) as [|x xs] eqn:Hlines; cbn [length Nat.ltb Nat.leb].
  - intros H. right. by apply Hold.
  - rewrite lookup_insert. case_decide as Hi; [|intros H; right; by apply Hold].
    intros [= <-]. left. by subst.
Qed.

(** A report never changes a window recorded earlier: a slot that holds
    another object than the one the report made held that object before
    the report, with the same contents. *)
Theorem earlier_windows_are_kept (t : Z) (d : Dtrace) (h : Heap) (i : Z) (l : loc)
    (Hwf : wfState (d, h))
    (Hslot : windows (fst (endOfReport t (d, h))) !! i = Some (SRef l))
    (Hold : l ≠ nextLoc h) :
  windows d !! i = Some (SRef l)
  ∧ viewMetrics (snd (endOfReport t (d, h))) l = viewMetrics h l.
Proof.
  destruct (endOfReport_slot_ref t d h i l Hwf Hslot) as [(-> & _)|(H1 & _ & H2)]; done.
Qed.

(** The window of the second 120 after a report in the second 123. *)
Lemma earlier_windows_are_kept_witness :
  windows (fst (readReport 120)) !! 0 = Some (SRef 0%nat)
  ∧ viewMetrics (snd (endOfReport 123 (fst (readReport 120), snd (readReport 120)))) 0
    = viewMetrics (snd (readReport 120)) 0.
Proof.
  apply (earlier_windows_are_kept 123 (fst (readReport 120)) (snd (readReport 120)) 0 0%nat).
  - rewrite <- surjective_pairing. apply onStdoutData_wf, wfState_launched.
  - vm_compute. reflexivity.
  - vm_compute. discriminate.
Defined.

Lemma endOfReport_windowsUnique t st :
  wfState st → windowsUnique st → windowsUnique (endOfReport t st).
Proof.
  destruct st as [d h]. intros Hwf Hu i l Hslot.
  destruct (endOfReport_slot_ref t d h i l Hwf Hslot) as [(-> & _)|(H1 & _ & H2)].
  - rewrite endOfReport_view by apply Hwf. apply uniqueKeys_decodeValue.
  - rewrite H2. by apply (Hu i).
Qed.

Lemma handleLines_windowsUnique now ls st :
  wfState st → windowsUnique st → windowsUnique (foldl (handleLine now) st ls).
Proof.
  revert st. induction ls as [|x ls IH]; intros st Hwf Hu; cbn [foldl]; [done|].
  apply IH; [by apply handleLine_wf|]. unfold handleLine.
  destruct (negb _); [done|].
  destruct (String.eqb (substr0 6 _) _); [done|].
  destruct (String.eqb (substr0 4 _) _); [|done].
  by apply endOfReport_windowsUnique.
Qed.

(** Every window of a running instance has its keys once. *)
Lemma reachable_windowsUnique st : reachable st → windowsUnique st.
Proof.
  induction 1 as [s h Hwf|now chunk st Hr IH|now n st Hr IH|st _ IH].
  - intros i l. cbn [fst start setLines setBuffer windows].
    change (windows (newDtrace s) !! i = Some (SRef l) → uniqueKeys (viewMetrics h l)).
    rewrite newDtrace_windows. by case_decide.
  - destruct st as [d h]. unfold onStdoutData.
    destruct (frame _) as [buffLines rest].
    apply handleLines_windowsUnique; [apply (reachable_wf _ Hr)|apply IH].
  - destruct st as [d h]. pose proof (reachable_wf _ Hr) as Hwf.
    destruct (flush_spec now n d h Hwf) as (_ & Hd & Hwf' & Hk).
    destruct (flush now n (d, h)) as [v [d' h']]. cbn [fst snd] in *. subst d'.
    intros i l Hl. cbn [fst snd] in *.
    rewrite (keeps_viewMetrics h h'); [by apply (IH i)|apply Hwf|done|].
    by apply (proj2 Hwf i).
  - intros i l. apply IH.
Qed.

(** ** What aggregateSamples adds *)

(** [aggregateSamples(tgt, src)] adds, for every metric and label, the
    count of [src] to the count of [tgt], which starts from zero when
    [tgt] has no such bucket, and leaves [src] as it was.  Here [tgt] is
    a local object made after the store [h0], as [aggregates] is in
    [flush], and [src] an object of [h0]. *)
Theorem aggregateSamples_adds_counts (h0 h : Heap) (tgt src : loc) (key latency : string)
    (Hwf0 : wfHeap h0) (Hsrc : (src < nextLoc h0)%nat) (Hf : fills h0 tgt h)
    (Hu : uniqueKeys (viewMetrics h0 src)) :
  storedCount (aggregateSamples tgt (Some (SRef src)) h) tgt key latency
  = sumCount (storedCount h tgt key latency) (storedCount h0 src key latency)
  ∧ viewMetrics (aggregateSamples tgt (Some (SRef src)) h) src = viewMetrics h0 src.
Proof.
  destruct (aggregateSamples_fills h0 tgt (Some (SRef src)) h Hwf0) as [Hf' Hv];
    [by intros l [= <-]|done|].
  split.
  - unfold storedCount. rewrite Hv. cbn [viewSlot].
    by apply countOf_mergeWindow.
  - apply keeps_viewMetrics; [done|apply Hf'|done].
Qed.

(** The window of a report merged into a new object, twice. *)
Lemma aggregateSamples_adds_counts_witness :
  storedCount (aggregateSamples 2%nat (Some (SRef 0%nat)) mergedOnce) 2%nat "read" "10"
  = sumCount (storedCount mergedOnce 2%nat "read" "10")
      (storedCount (snd (readReport 120)) 0%nat "read" "10").
Proof.
  assert (Hwf : wfState (readReport 120)) by apply onStdoutData_wf, wfState_launched.
  assert (Hlt : (0 < nextLoc (snd (readReport 120)))%nat) by (vm_compute; lia).
  assert (Hu : uniqueKeys (viewMetrics (snd (readReport 120)) 0)).
  { replace (viewMetrics (snd (readReport 120)) 0)
      with [("read", [("10", Num 2); ("20", Num 1)])] by (vm_compute; reflexivity).
    split.
    - apply NoDup_singleton.
    - constructor; [|constructor]. cbn [snd map fst].
      apply NoDup_cons. split; [|apply NoDup_singleton].
      intros E%list_elem_of_singleton. discriminate E. }
  assert (Hf : fills (snd (readReport 120)) 2%nat mergedOnce).
  { apply (aggregateSamples_fills (snd (readReport 120)) 2%nat (Some (SRef 0%nat)));
      [apply Hwf|intros l E; injection E as <-; exact Hlt|].
    apply (fills_newMetrics _ (proj1 Hwf)). }
  exact (proj1 (aggregateSamples_adds_counts (snd (readReport 120)) mergedOnce 2%nat 0%nat
                   "read" "10" (proj1 Hwf) Hlt Hf Hu)).
Defined.

(** ** What flush returns *)

Lemma countOf_mergedWindows (st : Dtrace * Heap) seconds key latency acc :
  windowsUnique st →
  countOf (foldl (fun acc i => mergeWindow acc (viewSlot (snd st) (windows (fst st) !! Z.rem i 60)))
             acc seconds) key latency
  = foldl sumCount (countOf acc key latency) (slotCount st key latency <$> seconds).
Proof.
  intros Hu. revert acc. induction seconds as [|i seconds IH]; intros acc; cbn [foldl fmap list_fmap].
  - done.
  - rewrite IH. f_equal. unfold slotCount.
    destruct (windows (fst st) !! Z.rem i 60) as [[|l]|] eqn:Hl; cbn [viewSlot mergeWindow sumCount]; try done.
    apply countOf_mergeWindow. by apply (Hu (Z.rem i 60)).
Qed.

Lemma getProp_foldl_setProp {V W : Type} (F : V → W) (m : Obj V) (keys : list string)
    (acc : Obj W) k :
  getProp k (foldl (fun hist key =>
                      match getProp key m with
                      | Some s => setProp key (F s) hist
                      | None => hist
                      end) acc keys)
  = match getProp k m with
    | Some s => if decide (k ∈ keys) then Some (F s) else getProp k acc
    | None => getProp k acc
    end.
Proof.
  revert acc. induction keys as [|key keys IH]; intros acc; cbn [foldl].
  - destruct (getProp k m); [|done]. by rewrite decide_False by apply not_elem_of_nil.
  - rewrite IH. destruct (getProp k m) as [s|] eqn:Hk.
    + destruct (decide (k ∈ keys)) as [Hin|Hin].
      * by rewrite decide_True by (by right).
      * destruct (decide (k = key)) as [->|Hne].
        -- rewrite decide_True by left. by rewrite Hk, getProp_setProp_eq.
        -- rewrite decide_False by (by intros [?|?]%elem_of_cons).
           destruct (getProp key m); [|done]. by rewrite getProp_setProp_ne.
    + destruct (getProp key m) eqn:Hkey; [|done].
      rewrite getProp_setProp_ne; [done|]. intros ->. congruence.
Qed.

Lemma propOf_render m key :
  propOf (render m) key
  = (fun samples => VObj [("_type", VStr "n");
                          ("_value", VArr (VStr <$> histogramEntries samples))])
      <$> getProp key m.
Proof.
  unfold render. cbn [propOf].
  rewrite (getProp_foldl_setProp
             (fun samples => VObj [("_type", VStr "n");
                                   ("_value", VArr (VStr <$> histogramEntries samples))])).
  destruct (getProp key m) as [s|] eqn:Hk; cbn [fmap option_fmap option_map]; [|done].
  rewrite decide_True; [done|]. apply elem_of_forInKeys, getProp_is_Some. by exists s.
Qed.

Lemma histogramEntries_omap samples :
  histogramEntries samples
  = omap (fun key => bucketEntry key <$> getProp key samples) (forInKeys samples).
Proof.
  unfold histogramEntries.
  assert (H : ∀ keys acc,
    foldl (fun ret key =>
             match getProp key samples with
             | Some v => (ret ++ [("H[" ++ key ++ "]=" ++ numToString v)%string])%list
             | None => ret
             end) acc keys
    = (acc ++ omap (fun key => bucketEntry key <$> getProp key samples) keys)%list).
  { induction keys as [|key keys IH]; intros acc; cbn [foldl omap list_omap].
    - by rewrite app_nil_r.
    - rewrite IH. destruct (getProp key samples); cbn [fmap option_fmap option_map]; [|done].
      by rewrite <- app_assoc. }
  by rewrite H.
Qed.

Lemma elem_of_histogramEntries samples e :
  e ∈ histogramEntries samples
  ↔ ∃ latency c, getProp latency samples = Some c ∧ e = bucketEntry latency c.
Proof.
  rewrite histogramEntries_omap, list_elem_of_omap. split.
  - intros (latency & _ & He). destruct (getProp latency samples) as [c|] eqn:Hc; [|done].
    exists latency, c. split; [done|]. cbn in He. congruence.
  - intros (latency & c & Hc & ->). exists latency. split.
    + apply elem_of_forInKeys, getProp_is_Some. by exists c.
    + by rewrite Hc.
Qed.

Lemma is_Some_getProp_setProp {V : Type} k m (v : V) (o : list (string * V)) :
  is_Some (getProp k (setProp m v o)) ↔ k = m ∨ is_Some (getProp k o).
Proof.
  destruct (String.eqb_spec k m) as [->|Hne].
  - rewrite getProp_setProp_eq. split; [by left|by eexists].
  - rewrite getProp_setProp_ne by done. split; [by right|by intros [?|?]].
Qed.

Lemma keys_mergeMetric src tgt metric k :
  is_Some (getProp k (mergeMetric src tgt metric)) ↔ k = metric ∨ is_Some (getProp k tgt).
Proof.
  unfold mergeMetric. cbv zeta.
  set (t1 := if hasOwnProperty tgt metric then tgt else setProp metric [] tgt).
  assert (H1 : is_Some (getProp k t1) ↔ k = metric ∨ is_Some (getProp k tgt)).
  { unfold t1. destruct (hasOwnProperty tgt metric) eqn:Hown.
    - apply hasOwnProperty_true in Hown. split; [by right|]. by intros [->|?].
    - apply is_Some_getProp_setProp. }
  destruct (getProp metric src); [|done].
  destruct (getProp metric t1) eqn:Ht; [|done].
  rewrite is_Some_getProp_setProp, H1. split; [by intros [?|?]; [left|]|by right].
Qed.

Lemma keys_mergeWindow tgt src k :
  is_Some (getProp k (mergeWindow tgt (Some src)))
  ↔ is_Some (getProp k tgt) ∨ is_Some (getProp k src).
Proof.
  cbn [mergeWindow]. rewrite (getProp_is_Some src), <- elem_of_forInKeys.
  generalize (forInKeys src). intros keys. revert tgt.
  induction keys as [|m keys IH]; intros tgt; cbn [foldl].
  - split; [by left|]. by intros [?|?%elem_of_nil].
  - rewrite IH, keys_mergeMetric, elem_of_cons. split.
    + intros [[->|?]|?]; [right; by left|by left|right; by right].
    + intros [?|[->|?]]; [left; by right|left; by left|by right].
Qed.

Lemma keys_mergedWindows (st : Dtrace * Heap) seconds key acc :
  is_Some (getProp key
             (foldl (fun acc i =>
                       mergeWindow acc (viewSlot (snd st) (windows (fst st) !! Z.rem i 60)))
                acc seconds))
  ↔ is_Some (getProp key acc) ∨ ∃ i, i ∈ seconds ∧ slotHolds st key i.
Proof.
  revert acc. induction seconds as [|i seconds IH]; intros acc; cbn [foldl].
  - split; [by left|]. by intros [?|(i & ?%elem_of_nil & _)].
  - rewrite IH. unfold slotHolds at 2.
    destruct (viewSlot (snd st) (windows (fst st) !! Z.rem i 60)) as [v|] eqn:Hv.
    + rewrite keys_mergeWindow. split.
      * intros [[?|?]|(j & Hj & Hh)]; [by left| |].
        -- right. exists i. split; [left|]. exists v. by rewrite Hv.
        -- right. exists j. split; [by right|done].
      * intros [?|(j & [->|Hj]%elem_of_cons & Hh)]; [left; by left| |].
        -- destruct Hh as (v' & Hv' & Hk). rewrite Hv in Hv'. injection Hv' as <-.
           left. by right.
        -- right. by exists j.
    + cbn [mergeWindow]. split.
      * intros [?|(j & Hj & Hh)]; [by left|]. right. exists j. split; [by right|done].
      * intros [?|(j & [->|Hj]%elem_of_cons & Hh)]; [by left| |].
        -- destruct Hh as (v' & Hv' & _). rewrite Hv in Hv'. discriminate.
        -- right. by exists j.
Qed.

Lemma flush_entries now numSamples d h key :
  wfState (d, h) → windowsUnique (d, h) →
  (propOf (fst (flush now numSamples (d, h))) key = None
   ∧ ¬ ∃ i, i ∈ flushSeconds (now - numSamples) (lastTimestamp d) ∧ slotHolds (d, h) key i)
  ∨ ((∃ i, i ∈ flushSeconds (now - numSamples) (lastTimestamp d) ∧ slotHolds (d, h) key i)
     ∧ ∃ entries,
         propOf (fst (flush now numSamples (d, h))) key
         = Some (VObj [("_type", VStr "n"); ("_value", VArr (VStr <$> entries))])
         ∧ ∀ e, e ∈ entries ↔
                ∃ latency c,
                  summedCount (d, h) (flushSeconds (now - numSamples) (lastTimestamp d))
                    key latency = Some c
                  ∧ e = bucketEntry latency c).
Proof.
  intros Hwf Hu.
  rewrite (proj1 (flush_spec now numSamples d h Hwf)), propOf_render.
  assert (Ht : ∀ latency,
    summedCount (d, h) (flushSeconds (now - numSamples) (lastTimestamp d)) key latency
    = getProp key (mergedWindows d h (flushSeconds (now - numSamples) (lastTimestamp d)))
      ≫= getProp latency).
  { intros latency. unfold summedCount.
    symmetry. apply (countOf_mergedWindows (d, h) _ key latency [] Hu). }
  pose proof (keys_mergedWindows (d, h)
                (flushSeconds (now - numSamples) (lastTimestamp d)) key []) as Hkeys.
  cbn [fst snd] in Hkeys. fold (mergedWindows d h
    (flushSeconds (now - numSamples) (lastTimestamp d))) in Hkeys.
  destruct (getProp key (mergedWindows d h _)) as [samples|] eqn:Hk;
    cbn [fmap option_fmap option_map].
  - right. split.
    + destruct (proj1 Hkeys) as [[? [=]]|Hh]; [by eexists|done].
    + exists (histogramEntries samples). split; [done|]. intros e.
      rewrite elem_of_histogramEntries. by setoid_rewrite Ht.
  - left. split; [done|]. intros Hh.
    destruct (proj2 Hkeys (or_intror Hh)) as [? [=]].
Qed.

Lemma slotHolds_checked (st : Dtrace * Heap) key seconds :
  forallb (fun i => match viewSlot (snd st) (windows (fst st) !! Z.rem i 60) with
                    | Some v => negb (hasOwnProperty v key)
                    | None => true
                    end) seconds = true →
  ∀ i, i ∈ seconds → ¬ slotHolds st key i.
Proof.
  intros Hall i Hi (v & Hv & Hk).
  rewrite forallb_forall in Hall. apply list_elem_of_In in Hi.
  specialize (Hall i Hi). rewrite Hv in Hall.
  apply hasOwnProperty_true in Hk. by rewrite Hk in Hall.
Qed.

(** What [flush] returns on a running instance, for every metric other
    than [__proto__].  When no window read by the call was decoded with
    a sample under a metric line [=__proto__] (the model keeps such a
    sample under the entry [__proto__]; in the program it replaces the
    prototype of the window), the result has the metric exactly when
    the slot of a visited second holds a window with it, and then its
    value has the entry [H[label]=c] exactly when [c] is the sum of the
    counts that the visited slots hold for the metric and the label,
    one term for every visit of a slot that has the bucket. *)
Theorem flush_returns_summed_counts (now numSamples : Z) (st : Dtrace * Heap) (key : string)
    (Hr : reachable st) (Hkey : key ≠ "__proto__")
    (Hplain : ∀ i, i ∈ flushSeconds (now - numSamples) (lastTimestamp (fst st)) →
                   ¬ slotHolds st "__proto__" i) :
  let seconds := flushSeconds (now - numSamples) (lastTimestamp (fst st)) in
  let result := fst (flush now numSamples st) in
  (propOf result key = None ∧ ¬ ∃ i, i ∈ seconds ∧ slotHolds st key i)
  ∨ ((∃ i, i ∈ seconds ∧ slotHolds st key i)
     ∧ ∃ entries,
         propOf result key
         = Some (VObj [("_type", VStr "n"); ("_value", VArr (VStr <$> entries))])
         ∧ ∀ e, e ∈ entries ↔
                ∃ latency c, summedCount st seconds key latency = Some c
                             ∧ e = bucketEntry latency c).
Proof.
  intros seconds result. subst seconds result. destruct st as [d h].
  apply flush_entries; [apply (reachable_wf _ Hr)|apply (reachable_windowsUnique _ Hr)].
Qed.

(** [flush(60)] in the second 130 after the report of the second 120. *)
Lemma flush_returns_summed_counts_witness :
  let seconds := flushSeconds (130 - 60) (lastTimestamp (fst (readReport 120))) in
  let result := fst (flush 130 60 (readReport 120)) in
  (propOf result "read" = None ∧ ¬ ∃ i, i ∈ seconds ∧ slotHolds (readReport 120) "read" i)
  ∨ ((∃ i, i ∈ seconds ∧ slotHolds (readReport 120) "read" i)
     ∧ ∃ entries,
         propOf result "read"
         = Some (VObj [("_type", VStr "n"); ("_value", VArr (VStr <$> entries))])
         ∧ ∀ e, e ∈ entries ↔
                ∃ latency c, summedCount (readReport 120) seconds "read" latency = Some c
                             ∧ e = bucketEntry latency c).
Proof.
  apply (flush_returns_summed_counts 130 60 (readReport 120) "read").
  - apply reach_data, reach_start, wfHeap_empty.
  - discriminate.
  - apply slotHolds_checked. vm_compute. reflexivity.
Defined.

(** ** The slots flush reads *)

Lemma rem60_inj i j :
  0 ≤ i → 0 ≤ j → -60 < i - j < 60 → Z.rem i 60 = Z.rem j 60 → i = j.
Proof.
  intros Hi Hj Hd. rewrite !Z.rem_mod_nonneg by lia. intros He.
  destruct (decide (i = j)) as [|Hne]; [done|].
  by destruct (mod60_apart i j Hne Hd).
Qed.

(** [flush] reads no slot twice exactly when it visits at most 60
    seconds: with a first second [now - numSamples] that is not
    negative, the slots [i % 60] of the visited seconds are pairwise
    distinct if and only if [lastTimestamp - (now - numSamples) < 60]. *)
Theorem flush_reads_each_slot_once (now numSamples l : Z)
    (Hstart : 0 ≤ now - numSamples) :
  NoDup ((fun i => Z.rem i 60) <$> flushSeconds (now - numSamples) (TNum l))
  ↔ l - (now - numSamples) < 60.
Proof.
  cbn [flushSeconds]. set (s := now - numSamples) in *. split.
  - intros Hnd. destruct (decide (l - s < 60)) as [|Hge]; [done|]. exfalso.
    assert (Hlen : (60 < length (seqZ s (l - s + 1)))%nat)
      by (rewrite length_seqZ; lia).
    assert (H0 : seqZ s (l - s + 1) !! 0%nat = Some s)
      by (rewrite lookup_seqZ; split; lia).
    assert (H60 : seqZ s (l - s + 1) !! 60%nat = Some (s + 60))
      by (rewrite lookup_seqZ; split; lia).
    assert (E : 0%nat = 60%nat); [|discriminate E].
    apply (NoDup_lookup _ 0%nat 60%nat (Z.rem s 60) Hnd).
    + by rewrite list_lookup_fmap, H0.
    + rewrite list_lookup_fmap, H60. cbn [fmap option_fmap option_map]. f_equal.
      rewrite !Z.rem_mod_nonneg by lia.
      replace (s + 60) with (s + 1 * 60) by lia. by rewrite Z.mod_add.
  - intros Hs. apply NoDup_fmap_2_strong; [|apply NoDup_seqZ].
    intros i j Hi%elem_of_seqZ Hj%elem_of_seqZ. apply rem60_inj; lia.
Qed.

(** [flush(30)] in the second 130 with [lastTimestamp] 120. *)
Lemma flush_reads_each_slot_once_witness :
  NoDup ((fun i => Z.rem i 60) <$> flushSeconds (130 - 30) (TNum 120))
  ↔ 120 - (130 - 30) < 60.
Proof. apply (flush_reads_each_slot_once 130 30 120). lia. Defined.

(** ** More on the line framer *)

(** A chunk that completes no line only extends the pending buffer: no
    line is handled, and the instance and the store are otherwise as
    they were. *)
Theorem chunk_without_newline_is_buffered (now : Z) (d : Dtrace) (h : Heap)
    (b chunk : string)
    (Hb : buffer d = Some b)
    (Hnl : anyChar (fun c => Ascii.eqb c "010") (b ++ chunk)%string = false)
    (Hne : (b ++ chunk)%string ≠ EmptyString) :
  onStdoutData now (d, h) chunk = (setBuffer (Some (b ++ chunk)%string) d, h).
Proof.
  unfold onStdoutData, frame. rewrite Hb. cbn [default from_option id].
  rewrite (split_no_sep _ _ Hnl). cbn [List.last List.removelast].
  destruct (String.eqb_spec (b ++ chunk)%string EmptyString) as [E|_]; [done|].
  reflexivity.
Qed.

(** The first half of a line arrives on a running instance. *)
Lemma chunk_without_newline_is_buffered_witness :
  onStdoutData 120 (launched "/io.d") "=re"
  = (setBuffer (Some ("" ++ "=re")%string) (fst (launched "/io.d")), emptyHeap).
Proof.
  apply (chunk_without_newline_is_buffered 120 (fst (launched "/io.d")) emptyHeap "" "=re").
  - reflexivity.
  - reflexivity.
  - discriminate.
Defined.

Lemma split_segments sep s :
  Forall (fun seg => anyChar (fun c => Ascii.eqb c sep) seg = false) (split sep s).
Proof.
  induction s as [|c s IH]; cbn [split].
  - by constructor.
  - destruct (Ascii.eqb c sep) eqn:Hc.
    + by constructor.
    + destruct (split sep s) as [|seg segs].
      * constructor; [|done]. cbn [anyChar]. by rewrite Hc.
      * apply Forall_cons in IH as [Hseg Hsegs].
        constructor; [|done]. cbn [anyChar]. by rewrite Hc.
Qed.

Lemma last_elem_of {A : Type} (l : list A) (x : A) : l ≠ [] → List.last l x ∈ l.
Proof.
  induction l as [|a l IH]; [done|]. intros _.
  destruct l as [|b l]; [left|]. right. by apply IH.
Qed.

(** After every chunk the pending buffer is a text without a newline:
    the handler never keeps a complete line in it. *)
Theorem pending_buffer_is_a_partial_line (now : Z) (d : Dtrace) (h : Heap)
    (chunk : string) :
  ∃ rest, buffer (fst (onStdoutData now (d, h) chunk)) = Some rest
          ∧ anyChar (fun c => Ascii.eqb c "010") rest = false.
Proof.
  rewrite onStdoutData_buffer. eexists. split; [done|].
  set (buf := (default "null" (buffer d) ++ chunk)%string).
  pose proof (split_segments "010" buf) as Hall.
  rewrite Forall_forall in Hall. apply Hall, last_elem_of, split_nonempty.
Qed.


(** The report [=m], [10|0] on an empty store. *)
Lemma zero_count_is_never_stored_witness :
  wfHeap emptyHeap
  ∧ storedCount (snd (endOfReport 120 (fst (collecting ["=m"; "10|0"]), emptyHeap)))
      (nextLoc emptyHeap) "m" "10" ≠ Some (Num 0).
Proof.
  split; [apply wfHeap_empty|].
  apply (zero_count_is_never_stored 120 (fst (collecting ["=m"; "10|0"])) emptyHeap "m" "10").
  apply wfHeap_empty.
Defined.

(** ** The order of the entries of a histogram *)

Lemma insertIndex_sorted e l :
  Sorted (fun a b : Z * string => fst a ≤ fst b) l →
  Sorted (fun a b : Z * string => fst a ≤ fst b) (insertIndex e l).
Proof.
  induction 1 as [|e' l Hs IH Hhd]; cbn [insertIndex].
  - by repeat constructor.
  - destruct (Z.leb_spec (fst e) (fst e')) as [Hle|Hgt].
    + constructor; [by constructor|]. by constructor.
    + constructor; [done|].
      destruct l as [|e'' l]; cbn [insertIndex].
      * constructor. lia.
      * destruct (Z.leb_spec (fst e) (fst e'')).
        -- constructor. lia.
        -- constructor. by inversion Hhd.
Qed.

Lemma sortIndex_sorted l :
  Sorted (fun a b : Z * string => fst a ≤ fst b) (sortIndex l).
Proof.
  induction l as [|e l IH]; cbn [sortIndex foldr]; [constructor|].
  by apply insertIndex_sorted.
Qed.

Lemma Sorted_map_fst (l : list (Z * string)) :
  Sorted (fun a b : Z * string => fst a ≤ fst b) l → Sorted Z.le (map fst l).
Proof.
  induction 1 as [|e l Hs IH Hhd]; cbn [map]; [constructor|].
  constructor; [done|]. destruct Hhd; cbn [map]; by constructor.
Qed.

Lemma indexed_elem_of (ks : list string) n k :
  (n, k) ∈ omap (fun k => (fun n => (n, k)) <$> arrayIndex k) ks →
  arrayIndex k = Some n.
Proof.
  rewrite list_elem_of_omap. intros (k' & _ & Hk).
  destruct (arrayIndex k') as [n'|] eqn:Hk'; [|done].
  cbn in Hk. by injection Hk as -> ->.
Qed.

Lemma omap_arrayIndex_snd (l : list (Z * string)) :
  (∀ n k, (n, k) ∈ l → arrayIndex k = Some n) →
  omap arrayIndex (map snd l) = map fst l.
Proof.
  induction l as [|[n k] l IH]; intros H; cbn [map omap list_omap snd fst]; [done|].
  rewrite (H n k) by left. f_equal. apply IH. intros n' k' Hin. apply H. by right.
Qed.

Lemma histogramEntries_map (samples : Obj jsnum) :
  histogramEntries samples
  = (fun k => bucketEntry k (toNumber (getProp k samples))) <$> forInKeys samples.
Proof.
  rewrite histogramEntries_omap.
  assert (H : ∀ keys, (∀ k, k ∈ keys → is_Some (getProp k samples)) →
    omap (fun key => bucketEntry key <$> getProp key samples) keys
    = (fun k => bucketEntry k (toNumber (getProp k samples))) <$> (keys : list string)).
  { induction keys as [|k keys IH]; intros Hk; cbn [omap list_omap fmap list_fmap]; [done|].
    destruct (Hk k) as [c Hc]; [left|]. rewrite Hc. cbn [fmap option_fmap option_map toNumber].
    f_equal. apply IH. intros k' Hin. apply Hk. by right. }
  apply H. intros k Hk. by apply getProp_is_Some, elem_of_forInKeys.
Qed.

(** [makeHistogram] writes one entry [H[label]=count] for every bucket
    of the object.  The labels that are array indices come first, in
    ascending numeric order whatever the order in which the buckets were
    created, and the other labels follow in creation order. *)
Theorem makeHistogram_entries_in_label_order (h : Heap) (l : loc) :
  ∃ indexLabels,
    makeHistogram h (Some l)
    = (fun k => bucketEntry k (toNumber (getProp k (readSamples h l))))
        <$> (indexLabels
             ++ filter (fun k => arrayIndex k = None) (map fst (readSamples h l)))%list
    ∧ indexLabels ≡ₚ filter (fun k => is_Some (arrayIndex k)) (map fst (readSamples h l))
    ∧ Sorted Z.le (omap arrayIndex indexLabels)
    ∧ length (makeHistogram h (Some l)) = length (readSamples h l).
Proof.
  set (o := readSamples h l).
  set (idx := omap (fun k => (fun n => (n, k)) <$> arrayIndex k) (map fst o)).
  assert (Hm : makeHistogram h (Some l) = histogramEntries o) by reflexivity.
  exists (map snd (sortIndex idx)). split; [|split; [|split]].
  - by rewrite Hm, histogramEntries_map.
  - rewrite (sortIndex_perm idx). unfold idx.
    generalize (map fst o). intros ks.
    induction ks as [|k ks IH]; [done|].
    cbn [omap list_omap]. rewrite filter_cons.
    destruct (arrayIndex k) as [n|] eqn:Hk; cbn [fmap option_fmap option_map].
    + rewrite decide_True by (by exists n). cbn [map snd]. by f_equiv.
    + rewrite decide_False by (by intros [? ?]). done.
  - rewrite omap_arrayIndex_snd.
    + apply Sorted_map_fst, sortIndex_sorted.
    + intros n k Hin. apply (indexed_elem_of (map fst o)).
      rewrite (sortIndex_perm idx) in Hin. exact Hin.
  - rewrite Hm, histogramEntries_map, length_fmap.
    rewrite (forInKeys_perm o). by rewrite length_map.
Qed.

(** ** Reports delivered whole *)

Lemma stripSpaceAt_normalised s : normalised s = true → stripSpaceAt s = s.
Proof.
  unfold normalised. induction s as [|c s IH]; cbn [allChars stripSpaceAt]; [done|].
  destruct (isSpace c || Ascii.eqb c "@"); cbn [negb andb]; [done|].
  intros H. by rewrite IH.
Qed.

Lemma normalised_no_newline s :
  normalised s = true → anyChar (fun c => Ascii.eqb c "010") s = false.
Proof.
  unfold normalised. induction s as [|c s IH]; cbn [allChars anyChar]; [done|].
  destruct (Ascii.eqb_spec c "010") as [->|_]; [done|].
  destruct (negb _); [|done]. cbn [andb orb]. apply IH.
Qed.

Lemma split_line sep l rest :
  anyChar (fun c => Ascii.eqb c sep) l = false →
  split sep (l ++ String sep rest)%string = l :: split sep rest.
Proof.
  induction l as [|c l IH]; intros Hl.
  - change (EmptyString ++ String sep rest)%string with (String sep rest).
    cbn [split]. by rewrite Ascii.eqb_refl.
  - change (String c l ++ String sep rest)%string with (String c (l ++ String sep rest)).
    cbn [anyChar] in Hl. cbn [split].
    destruct (Ascii.eqb c sep); [done|]. cbn [orb] in Hl. by rewrite (IH Hl).
Qed.

Lemma split_lines data rest :
  Forall (fun l => clean l = true) data →
  split "010" (foldr (fun l acc => l ++ nl ++ acc) EmptyString data ++ rest)%string
  = (data ++ split "010" rest)%list.
Proof.
  induction 1 as [|l data Hl _ IH]; cbn [foldr].
  - done.
  - rewrite append_assoc.
    change ((nl ++ ?a) ++ rest)%string with (String "010" (a ++ rest)).
    rewrite split_line, IH; [done|].
    apply normalised_no_newline. unfold clean in Hl. by apply andb_prop in Hl as [? _].
Qed.

Lemma split_reportText data :
  Forall (fun l => clean l = true) data →
  split "010" (reportText data) = (">START" :: data ++ [">END"; ""])%list.
Proof.
  intros Hd. unfold reportText.
  change (">START" ++ nl ++ ?a)%string with (">START" ++ String "010" a)%string.
  rewrite split_line by reflexivity. f_equal.
  rewrite split_lines by done. f_equal.
Qed.

Lemma handleLines_clean now ls d h :
  Forall (fun l => clean l = true) ls →
  foldl (handleLine now) (d, h) ls
  = (match ls with [] => d | _ => setLines (Some (linesOf d ++ ls)%list) d end, h).
Proof.
  intros Hls. revert d. induction Hls as [|l ls Hl _ IH]; intros d; cbn [foldl]; [done|].
  unfold clean in Hl. apply andb_prop in Hl as [Hn Hc].
  assert (E : handleLine now (d, h) l = (setLines (Some (linesOf d ++ [l])%list) d, h)).
  { unfold handleLine. rewrite (stripSpaceAt_normalised l Hn), Hc. done. }
  rewrite E, IH. destruct ls as [|l' ls]; [done|].
  cbn [setLines linesOf lines default from_option id]. by rewrite <- app_assoc.
Qed.

(** A whole report of clean lines, received with an empty buffer: the
    [>END] branch runs on the data lines, and the segment after the last
    newline is left as a pending empty line. *)
Lemma deliver_clean t data d h :
  buffer d = Some EmptyString →
  Forall (fun l => clean l = true) data →
  deliver t data (d, h)
  = (setLines (Some (data ++ [""])%list) (fst (endOfReport t (setLines (Some data) d, h))),
     snd (endOfReport t (setLines (Some data) d, h))).
Proof.
  intros Hb Hd. unfold deliver, onStdoutData. rewrite Hb.
  cbn [default from_option id].
  change (EmptyString ++ reportText data)%string with (reportText data).
  unfold frame. rewrite (split_reportText data Hd).
  replace (List.last (">START" :: data ++ [">END"; ""])%list EmptyString) with EmptyString.
  2:{       replace (">START" :: data ++ [">END"; ""])%list
        with ((">START" :: data ++ [">END"]) ++ [""])%list
        by (cbn [app]; by rewrite <- app_assoc).
      by rewrite List.last_last. }
  change (String.eqb EmptyString EmptyString) with true. cbv iota.
  cbn [foldl].
  change (handleLine t (setBuffer (Some EmptyString) d, h) ">START")
    with (setLines (Some []) (setBuffer (Some EmptyString) d), h).
  rewrite foldl_app, handleLines_clean by done.
  destruct d as [p s i b ls w lt]. cbn [buffer] in Hb. subst b.
  set (d0 := mkDtrace p s i (Some EmptyString) (Some data) w lt).
  assert (E0 : match data with
               | [] => setLines (Some []) (setBuffer (Some EmptyString)
                         (mkDtrace p s i (Some EmptyString) ls w lt))
               | _ :: _ =>
                   setLines
                     (Some (linesOf (setLines (Some []) (setBuffer (Some EmptyString)
                              (mkDtrace p s i (Some EmptyString) ls w lt))) ++ data)%list)
                     (setLines (Some []) (setBuffer (Some EmptyString)
                        (mkDtrace p s i (Some EmptyString) ls w lt)))
               end = d0) by (by destruct data).
  rewrite E0. cbn [foldl].
  change (setLines (Some data) (mkDtrace p s i (Some EmptyString) ls w lt)) with d0.
  change (handleLine t (d0, h) ">END") with (endOfReport t (d0, h)).
  assert (El : lines (fst (endOfReport t (d0, h))) = Some data).
  { unfold endOfReport. cbn [newMetrics].
    destruct (foldl _ _ (linesOf d0)) as [mk h2].
    by destruct (0 <? length (linesOf d0))%nat. }
  unfold handleLine. change (stripSpaceAt EmptyString) with EmptyString.
  change (negb (String.eqb (substr0 1 EmptyString) ">")) with true. cbv iota.
  unfold linesOf at 1. by rewrite El.
Qed.

(** ** The ring after a sequence of reports *)

Lemma last_cons_default {A : Type} (a p : A) (ts : list A) :
  List.last (a :: ts) p = List.last ts a.
Proof.
  revert a p. induction ts as [|b ts IH]; intros a p; [done|].
  change (List.last (a :: b :: ts) p) with (List.last (b :: ts) p).
  by rewrite !(IH b).
Qed.

Lemma ascending_snoc p ts t :
  ascending p (ts ++ [t])%list = ascending p ts && (List.last ts p <? t).
Proof.
  revert p. induction ts as [|a ts IH]; intros p; cbn [ascending app].
  - rewrite andb_true_r. done.
  - by rewrite IH, andb_assoc, last_cons_default.
Qed.

Lemma ascending_bounds p ts :
  ascending p ts = true → p ≤ List.last ts p ∧ ∀ a, a ∈ ts → p < a ≤ List.last ts p.
Proof.
  revert p. induction ts as [|a ts IH]; intros p; cbn [ascending].
  - intros _. split; [cbn; lia|]. by intros a Ha%elem_of_nil.
  - intros [Hp Hts]%andb_prop. apply Z.ltb_lt in Hp.
    destruct (IH a Hts) as [Hl Hall].
    rewrite last_cons_default. split; [lia|].
    intros b [->|Hb]%elem_of_cons; [lia|]. specialize (Hall b Hb). lia.
Qed.

Lemma find_app_cases {A : Type} (f : A → bool) (l1 l2 : list A) :
  List.find f (l1 ++ l2)%list = match List.find f l1 with
                           | Some x => Some x
                           | None => List.find f l2
                           end.
Proof. induction l1 as [|a l1 IH]; cbn [List.find app]; [done|]. by destruct (f a). Qed.

Lemma find_report_none (rs : list (Z * list string)) i :
  (∀ a, a ∈ map fst rs → a ≠ i) → List.find (fun r => Z.eqb (fst r) i) rs = None.
Proof.
  induction rs as [|r rs IH]; intros H; cbn [List.find]; [done|].
  destruct (Z.eqb_spec (fst r) i) as [E|_].
  - destruct (H (fst r)); [left|done].
  - apply IH. intros a Ha. apply H. by right.
Qed.

Lemma endOfReport_buffer t d h : buffer (fst (endOfReport t (d, h))) = buffer d.
Proof.
  unfold endOfReport. cbn [newMetrics].
  destruct (foldl _ _ (linesOf d)) as [mk h2].
  by destruct (0 <? length (linesOf d))%nat.
Qed.

(** The slots of the last 60 seconds after the [>END] branch has run in
    the second [t] with pending lines. *)
Lemma endOfReport_ring t d h (rec : Z → option (list (string * list (string * jsnum)))) i :
  wfState (d, h) → linesOf d ≠ [] → 0 ≤ t →
  (lastTimestamp d = TUndefined ∧ ∀ k, viewSlot h (windows d !! k) = None)
  ∨ (∃ l, lastTimestamp d = TNum l ∧ 0 ≤ l < t
          ∧ ∀ i, 0 ≤ i → l - 60 < i ≤ l →
                 viewSlot h (windows d !! Z.rem i 60) = rec i) →
  0 ≤ i → t - 60 < i ≤ t →
  viewSlot (snd (endOfReport t (d, h))) (windows (fst (endOfReport t (d, h))) !! Z.rem i 60)
  = if decide (i = t) then Some (decodeValue (linesOf d))
    else match lastTimestamp d with
         | TNum l => if decide (i ≤ l) then rec i else None
         | _ => None
         end.
Proof.
  intros Hwf Hne Ht Hcase Hi Hwin.
  assert (Hlen : (0 <? length (linesOf d))%nat = true)
    by (destruct (linesOf d); [done|reflexivity]).
  destruct (endOfReport_wf t (d, h) Hwf) as [_ Hk]. cbn [snd] in Hk.
  destruct (decide (i = t)) as [->|Hit].
  - rewrite endOfReport_windows. cbv zeta. rewrite Hlen, lookup_insert_eq.
    cbn [viewSlot]. f_equal. apply endOfReport_view, Hwf.
  - assert (Hrem : Z.rem i 60 ≠ Z.rem t 60) by (apply rem60_apart; lia).
    assert (Hkeep : ∀ k, viewSlot (snd (endOfReport t (d, h))) (windows d !! k)
                         = viewSlot h (windows d !! k)).
    { intros k. apply keeps_viewSlot; [apply Hwf|done|].
      intros l Hl. by apply (proj2 Hwf k). }
    destruct Hcase as [[Hu Hnone]|(l & Hl & Hlt & Hrec)].
    + rewrite Hu. rewrite endOfReport_windows, Hu. cbv zeta. rewrite Hlen.
      rewrite !lookup_insert_ne by done. cbn [clearGap]. by rewrite Hkeep.
    + rewrite Hl, (endOfReport_other_slot t l d h _ Hl Hrem).
      assert (Hri : Z.rem i 60 = i mod 60) by (apply Z.rem_mod_nonneg; lia).
      destruct (decide (60 ≤ t - l)) as [Hstale|Hnear].
      * rewrite clearGap_stale; [|done|rewrite Hri; apply Z.mod_pos_bound; lia].
        cbn [viewSlot]. rewrite decide_False by lia. done.
      * destruct (decide (i ≤ l)) as [Hold|Hgap].
        -- rewrite clearGap_outside; [|lia|lia|].
           ++ rewrite Hkeep. apply Hrec; lia.
           ++ intros (s & Hs & Hs'). rewrite Hri in Hs'.
              apply (mod60_apart s i); [lia|lia|done].
        -- rewrite clearGap_gap; [done|lia|lia|]. exists i. split; [lia|done].
Qed.

Lemma deliver_ring t data d h (rec : Z → option (list (string * list (string * jsnum)))) :
  wfState (d, h) → buffer d = Some EmptyString →
  Forall (fun l => clean l = true) data → data ≠ [] → 0 ≤ t →
  (lastTimestamp d = TUndefined ∧ ∀ k, viewSlot h (windows d !! k) = None)
  ∨ (∃ l, lastTimestamp d = TNum l ∧ 0 ≤ l < t
          ∧ ∀ i, 0 ≤ i → l - 60 < i ≤ l →
                 viewSlot h (windows d !! Z.rem i 60) = rec i) →
  wfState (deliver t data (d, h))
  ∧ buffer (fst (deliver t data (d, h))) = Some EmptyString
  ∧ lastTimestamp (fst (deliver t data (d, h))) = TNum t
  ∧ ∀ i, 0 ≤ i → t - 60 < i ≤ t →
      viewSlot (snd (deliver t data (d, h)))
        (windows (fst (deliver t data (d, h))) !! Z.rem i 60)
      = if decide (i = t) then Some (decodeValue data)
        else match lastTimestamp d with
             | TNum l => if decide (i ≤ l) then rec i else None
             | _ => None
             end.
Proof.
  intros Hwf Hb Hclean Hne Ht Hcase.
  split; [apply onStdoutData_wf, Hwf|].
  rewrite (deliver_clean t data d h Hb Hclean). cbn [fst snd].
  set (d0 := setLines (Some data) d).
  assert (Hwf0 : wfState (d0, h)) by exact Hwf.
  assert (Hl0 : linesOf d0 = data) by reflexivity.
  change (buffer (setLines ?x ?y)) with (buffer y).
  change (lastTimestamp (setLines ?x ?y)) with (lastTimestamp y).
  change (windows (setLines ?x ?y)) with (windows y).
  split; [by rewrite endOfReport_buffer|]. split.
  - rewrite endOfReport_lastTimestamp, Hl0. by destruct data.
  - intros i Hi Hwin.
    rewrite (endOfReport_ring t d0 h rec i Hwf0); [by rewrite Hl0| |done|exact Hcase|done|done].
    by rewrite Hl0.
Qed.

Lemma deliverAll_snoc rs r st :
  deliverAll (rs ++ [r])%list st = deliver (fst r) (snd r) (deliverAll rs st).
Proof. unfold deliverAll. by rewrite foldl_app. Qed.

Lemma launched_slots s k : viewSlot emptyHeap (windows (fst (launched s)) !! k) = None.
Proof.
  change (windows (fst (launched s))) with (windows (newDtrace s)).
  rewrite newDtrace_windows. by case_decide.
Qed.

Lemma deliverAll_ring s r0 rs :
  ascending (-1) (map fst (r0 :: rs)) = true →
  Forall (fun r => snd r ≠ [] ∧ Forall (fun l => clean l = true) (snd r)) (r0 :: rs) →
  wfState (deliverAll (r0 :: rs) (launched s))
  ∧ buffer (fst (deliverAll (r0 :: rs) (launched s))) = Some EmptyString
  ∧ lastTimestamp (fst (deliverAll (r0 :: rs) (launched s)))
    = TNum (List.last (map fst (r0 :: rs)) (-1))
  ∧ ∀ i, 0 ≤ i →
      List.last (map fst (r0 :: rs)) (-1) - 60 < i ≤ List.last (map fst (r0 :: rs)) (-1) →
      viewSlot (snd (deliverAll (r0 :: rs) (launched s)))
        (windows (fst (deliverAll (r0 :: rs) (launched s))) !! Z.rem i 60)
      = reportValue (r0 :: rs) i.
Proof.
  induction rs as [|r rs IH] using rev_ind; intros Hasc Hdata.
  - apply Forall_cons in Hdata as [[Hne Hclean] _].
    cbn [map ascending] in Hasc. apply andb_prop in Hasc as [Ht _]. apply Z.ltb_lt in Ht.
    destruct (deliver_ring (fst r0) (snd r0) (fst (launched s)) emptyHeap (fun _ => None))
      as (Hwf & Hb & Hl & Hv);
      [apply wfState_launched|reflexivity|done|done|lia| |].
    { left. split; [reflexivity|apply launched_slots]. }
    change (deliverAll [r0] (launched s)) with (deliver (fst r0) (snd r0) (launched s)).
    cbn [map List.last].
    split; [exact Hwf|]. split; [exact Hb|]. split; [exact Hl|].
    intros i Hi Hwin. refine (eq_trans (Hv i Hi Hwin) _).
    change (lastTimestamp (fst (launched s))) with TUndefined. cbv iota.
    unfold reportValue. cbn [List.find].
    destruct (decide (i = fst r0)) as [->|Hne'].
    + by rewrite Z.eqb_refl.
    + destruct (Z.eqb_spec (fst r0) i); [by subst|done].
  - change (r0 :: rs ++ [r])%list with ((r0 :: rs) ++ [r])%list in *.
    rewrite map_app in *. change (map fst [r]) with [fst r] in *.
    rewrite ascending_snoc in Hasc. apply andb_prop in Hasc as [Hasc Hlast].
    apply Z.ltb_lt in Hlast.
    apply Forall_app in Hdata as [Hdata Hr].
    apply Forall_cons in Hr as [[Hne Hclean] _].
    destruct (IH Hasc Hdata) as (Hwf & Hb & Hl & Hv).
    destruct (ascending_bounds _ _ Hasc) as [_ Hbound].
    set (T := List.last (map fst (r0 :: rs)) (-1)) in *.
    assert (HT : 0 ≤ T).
    { assert (Hin : fst r0 ∈ map fst (r0 :: rs)) by (cbn [map]; left).
      specialize (Hbound (fst r0) Hin). lia. }
    rewrite List.last_last, deliverAll_snoc.
    destruct (deliverAll (r0 :: rs) (launched s)) as [d h]. cbn [fst snd] in *.
    destruct (deliver_ring (fst r) (snd r) d h (reportValue (r0 :: rs)))
      as (Hwf' & Hb' & Hl' & Hv'); [done|done|done|done|lia| |].
    { right. exists T. split; [done|]. split; [lia|done]. }
    split; [exact Hwf'|]. split; [exact Hb'|]. split; [exact Hl'|].
    intros i Hi Hwin. rewrite (Hv' i Hi Hwin), Hl.
    unfold reportValue. rewrite find_app_cases.
    assert (Hnone : T < i → List.find (fun r => Z.eqb (fst r) i) (r0 :: rs) = None).
    { intros HTi. apply find_report_none.
      intros a Ha. specialize (Hbound a Ha). lia. }
    set (old := List.find _ (r0 :: rs)) in *. cbn [List.find].
    destruct (decide (i = fst r)) as [->|Hne'].
    + rewrite Hnone, Z.eqb_refl by lia. done.
    + destruct (Z.eqb_spec (fst r) i) as [E|_]; [by subst|].
      destruct (decide (i ≤ T)) as [Hold|Hnew].
      * by destruct old.
      * rewrite Hnone by lia. done.
Qed.

Lemma deliverAll_reachable s rs : reachable (deliverAll rs (launched s)).
Proof.
  induction rs as [|r rs IH] using rev_ind.
  - apply reach_start, wfHeap_empty.
  - rewrite deliverAll_snoc. by apply reach_data.
Qed.



(** What [flush] returns after a sequence of reports.  With reports as
    above, none of which has a metric line that names [__proto__], and a
    call that visits at most 60 seconds, none of them negative, the
    result has a metric other than [__proto__] exactly when a report of
    a second from [now - numSamples] to [T] has recorded it, and then
    its value has the entry [H[label]=c] exactly when [c] is the sum,
    over these seconds, of the counts that their reports hold for the
    metric and the label: every report in the span is counted once, and
    nothing else is. *)
Theorem flush_sums_the_reports_of_the_visited_seconds (s : string)
    (reports : list (Z * list string)) (now numSamples : Z) (key : string)
    (Hasc : ascending (-1) (map fst reports) = true)
    (Hdata : Forall (fun r => snd r ≠ [] ∧ Forall (fun l => clean l = true) (snd r)) reports)
    (Hplain : Forall (fun r => Forall (fun l => matchMetric l ≠ Some "__proto__") (snd r))
                reports)
    (Hkey : key ≠ "__proto__")
    (Hstart : 0 ≤ now - numSamples)
    (Hspan : List.last (map fst reports) (-1) - (now - numSamples) < 60) :
  let T := List.last (map fst reports) (-1) in
  let span := seqZ (now - numSamples) (T - (now - numSamples) + 1) in
  let total latency := foldl sumCount None (reportCount reports key latency <$> span) in
  let result := fst (flush now numSamples (deliverAll reports (launched s))) in
  (propOf result key = None ∧ ¬ ∃ i, i ∈ span ∧ reportHolds reports key i)
  ∨ ((∃ i, i ∈ span ∧ reportHolds reports key i)
     ∧ ∃ entries,
         propOf result key
         = Some (VObj [("_type", VStr "n"); ("_value", VArr (VStr <$> entries))])
         ∧ ∀ e, e ∈ entries ↔
                ∃ latency c, total latency = Some c ∧ e = bucketEntry latency c).
Proof.
  intros T span total result.
  pose proof (deliverAll_reachable s reports) as Hr.
  assert (Hfacts :
    flushSeconds (now - numSamples)
      (lastTimestamp (fst (deliverAll reports (launched s)))) = span
    ∧ ∀ i, i ∈ span →
        viewSlot (snd (deliverAll reports (launched s)))
          (windows (fst (deliverAll reports (launched s))) !! Z.rem i 60)
        = reportValue reports i).
  { destruct reports as [|r0 rs].
    - change (lastTimestamp (fst (deliverAll [] (launched s)))) with TUndefined.
      cbn [flushSeconds].
      assert (E : span = []) by (subst span T; cbn [map List.last]; apply seqZ_nil; lia).
      rewrite E. split; [done|]. by intros i Hi%elem_of_nil.
    - destruct (deliverAll_ring s r0 rs Hasc Hdata) as (_ & _ & Hl & Hv).
      rewrite Hl. split; [done|].
      intros i Hi%elem_of_seqZ. apply Hv; fold T; lia. }
  destruct Hfacts as [Hsec Hview].
  assert (Hh : ∀ i, i ∈ span →
    (slotHolds (deliverAll reports (launched s)) key i ↔ reportHolds reports key i)).
  { intros i Hi. unfold slotHolds, reportHolds. by rewrite (Hview i Hi). }
  assert (Ht : ∀ latency,
    summedCount (deliverAll reports (launched s)) span key latency = total latency).
  { intros latency. unfold total, summedCount. f_equal.
    apply list_fmap_ext. intros n i Hn. apply list_elem_of_lookup_2 in Hn.
    unfold reportCount, slotCount. rewrite (Hview i Hn).
    by destruct (reportValue reports i). }
  assert (Hex : (∃ i, i ∈ span ∧ slotHolds (deliverAll reports (launched s)) key i)
                ↔ ∃ i, i ∈ span ∧ reportHolds reports key i).
  { split; intros (i & Hi & Hk); exists i; (split; [done|]); by apply (Hh i Hi). }
  subst result. revert Hsec Ht Hex.
  destruct (deliverAll reports (launched s)) as [d h]. cbn [fst]. intros Hsec Ht Hex.
  destruct (flush_entries now numSamples d h key (reachable_wf _ Hr)
              (reachable_windowsUnique _ Hr)) as [[Hnone Hno]|(Hyes & entries & Hsome & Hent)];
    rewrite Hsec in *.
  - left. split; [done|]. by rewrite <- Hex.
  - right. split; [by apply Hex|]. exists entries. split; [done|]. intros e.
    rewrite Hent. by setoid_rewrite Ht.
Qed.

(** [flush(5)] in the second 102 after the reports of 100 and 101. *)
Lemma flush_sums_the_reports_of_the_visited_seconds_witness :
  let T := List.last (map fst twoReports) (-1) in
  let span := seqZ (102 - 5) (T - (102 - 5) + 1) in
  let total latency := foldl sumCount None (reportCount twoReports "m" latency <$> span) in
  let result := fst (flush 102 5 (deliverAll twoReports (launched "/io.d"))) in
  (propOf result "m" = None ∧ ¬ ∃ i, i ∈ span ∧ reportHolds twoReports "m" i)
  ∨ ((∃ i, i ∈ span ∧ reportHolds twoReports "m" i)
     ∧ ∃ entries,
         propOf result "m"
         = Some (VObj [("_type", VStr "n"); ("_value", VArr (VStr <$> entries))])
         ∧ ∀ e, e ∈ entries ↔
                ∃ latency c, total latency = Some c ∧ e = bucketEntry latency c).
Proof.
  apply (flush_sums_the_reports_of_the_visited_seconds "/io.d" twoReports 102 5 "m").
  - reflexivity.
  - repeat constructor; discriminate.
  - repeat constructor; discriminate.
  - discriminate.
  - lia.
  - cbn. lia.
Defined.

(** ** The size of the ring *)

Lemma ringShaped_insert (w : gmap Z slot) k v :
  0 ≤ k < 60 →
  (∀ j, 0 ≤ j < 60 → is_Some (w !! j)) ∧ (∀ j, ¬ (0 ≤ j < 60) → w !! j = None) →
  (∀ j, 0 ≤ j < 60 → is_Some (<[k := v]> w !! j))
  ∧ (∀ j, ¬ (0 ≤ j < 60) → <[k := v]> w !! j = None).
Proof.
  intros Hk [Hin Hout]. split; intros j Hj.
  - rewrite lookup_insert. case_decide; [by eexists|by apply Hin].
  - rewrite lookup_insert_ne by (intros ->; by destruct Hj). by apply Hout.
Qed.

Lemma ringShaped_foldl (f : Z → Z) (js : list Z) (w : gmap Z slot) :
  (∀ j, j ∈ js → 0 ≤ f j < 60) →
  (∀ j, 0 ≤ j < 60 → is_Some (w !! j)) ∧ (∀ j, ¬ (0 ≤ j < 60) → w !! j = None) →
  (∀ j, 0 ≤ j < 60 → is_Some (foldl (fun w j => <[f j := SNull]> w) w js !! j))
  ∧ (∀ j, ¬ (0 ≤ j < 60) → foldl (fun w j => <[f j := SNull]> w) w js !! j = None).
Proof.
  intros Hf [Hin Hout]. split; intros k Hk.
  - destruct (lookup_foldl_null_cases f js w k) as [->|[-> _]]; [by eexists|by apply Hin].
  - rewrite lookup_foldl_null_notin; [by apply Hout|].
    intros j Hj <-. apply Hk, Hf, Hj.
Qed.

Lemma endOfReport_ringShaped t d h :
  0 ≤ t → ringShaped d → ringShaped (fst (endOfReport t (d, h))).
Proof.
  intros Ht (Hin & Hout & Hlast). unfold ringShaped.
  rewrite endOfReport_windows, endOfReport_lastTimestamp. cbv zeta.
  assert (Hidx : 0 ≤ Z.rem t 60 < 60).
  { rewrite Z.rem_mod_nonneg by lia. apply Z.mod_pos_bound. lia. }
  assert (Hgap : (∀ j, 0 ≤ j < 60 →
                    is_Some (clearGap match lastTimestamp d with TNull => TNum t | x => x end
                               t (windows d) !! j))
                 ∧ (∀ j, ¬ (0 ≤ j < 60) →
                      clearGap match lastTimestamp d with TNull => TNum t | x => x end
                        t (windows d) !! j = None)).
  { destruct (lastTimestamp d) as [| |l]; [done|done|]. cbn [clearGap].
    destruct (60 <=? t - l).
    - apply (ringShaped_foldl (fun j => j)); [|done].
      intros j Hj%elem_of_seqZ. lia.
    - apply (ringShaped_foldl (fun j => Z.rem j 60)); [|done].
      intros j Hj%elem_of_seqZ. rewrite Z.rem_mod_nonneg by lia.
      apply Z.mod_pos_bound. lia. }
  pose proof (ringShaped_insert _ (Z.rem t 60) SNull Hidx Hgap) as Hnull.
  destruct (0 <? length (linesOf d))%nat.
  - destruct (ringShaped_insert _ (Z.rem t 60) (SRef (nextLoc h)) Hidx Hnull) as [H1 H2].
    split; [done|]. split; [done|lia].
  - destruct Hnull as [H1 H2]. split; [done|]. split; [done|].
    by destruct (lastTimestamp d).
Qed.

Lemma handleLines_ringShaped now ls st :
  0 ≤ now → ringShaped (fst st) → ringShaped (fst (foldl (handleLine now) st ls)).
Proof.
  intros Hnow. revert st. induction ls as [|x ls IH]; intros st Hs; cbn [foldl]; [done|].
  apply IH. unfold handleLine.
  destruct (negb _); [done|].
  destruct (String.eqb (substr0 6 _) _); [done|].
  destruct (String.eqb (substr0 4 _) _); [|done].
  destruct st as [d h]. by apply endOfReport_ringShaped.
Qed.

(** With seconds that are not negative the ring keeps its size: after a
    chunk [windows] still has exactly the 60 elements 0 to 59, and
    [lastTimestamp] is undefined or a second that is not negative. *)
Theorem ring_keeps_sixty_slots (now : Z) (d : Dtrace) (h : Heap) (chunk : string)
    (Hshape : ringShaped d) (Hnow : 0 ≤ now) :
  ringShaped (fst (onStdoutData now (d, h) chunk)).
Proof.
  unfold onStdoutData. destruct (frame _) as [buffLines rest].
  by apply handleLines_ringShaped.
Qed.

Lemma ringShaped_launched s : ringShaped (fst (launched s)).
Proof.
  split; [|split; [|exact I]]; intros k Hk;
    change (windows (fst (launched s))) with (windows (newDtrace s));
    rewrite newDtrace_windows.
  - rewrite decide_True by done. by eexists.
  - by rewrite decide_False.
Qed.

(** A report arrives on a new instance in the second 120. *)
Lemma ring_keeps_sixty_slots_witness :
  ringShaped (fst (onStdoutData 120 (fst (launched "/io.d"), emptyHeap)
                     (reportText ["=read"; "10|2"]))).
Proof.
  apply (ring_keeps_sixty_slots 120 (fst (launched "/io.d")) emptyHeap).
  - apply ringShaped_launched.
  - lia.
Defined.

(** ** The names a window holds *)

Lemma stripSpaceAt_is_normalised s : normalised (stripSpaceAt s) = true.
Proof.
  unfold normalised. induction s as [|c s IH]; cbn [stripSpaceAt]; [done|].
  destruct (isSpace c || Ascii.eqb c "@") eqn:E; [done|].
  cbn [allChars]. by rewrite E, IH.
Qed.

Lemma allChars_split p sep s :
  allChars p s = true → Forall (fun seg => allChars p seg = true) (split sep s).
Proof.
  induction s as [|c s IH]; cbn [split allChars]; [by repeat constructor|].
  intros [Hc Hs]%andb_prop. specialize (IH Hs).
  destruct (Ascii.eqb c sep).
  - by constructor.
  - destruct (split sep s) as [|seg segs].
    + by repeat constructor; cbn [allChars]; rewrite Hc.
    + apply Forall_cons in IH as [Hseg Hsegs].
      constructor; [|done]. cbn [allChars]. by rewrite Hc, Hseg.
Qed.

Lemma matchMetric_normalised line name :
  matchMetric line = Some name → normalised line = true → normalised name = true.
Proof.
  unfold matchMetric, normalised. destruct line as [|c rest]; [done|].
  destruct (Ascii.eqb_spec c "=") as [->|Hne].
  - destruct rest as [|c' rest']; [done|].
    destruct (allChars _ (String c' rest')); [|done].
    intros [= <-]. cbn [allChars]. by intros [_ H]%andb_prop.
  - intros H. exfalso. revert H.
    destruct c as [[] [] [] [] [] [] [] []]; done.
Qed.

Lemma decodeValue_normalised ls :
  Forall (fun l => normalised l = true) ls → Forall normalisedEntry (decodeValue ls).
Proof.
  intros Hls. rewrite Forall_forall in Hls.
  apply (decodeValue_invariant normalisedEntry
           (fun mk => ∀ k, mk = Some k → normalised k = true)).
  - done.
  - intros line name Hin Hm k [= <-]. by apply (matchMetric_normalised line), Hls.
  - intros line key samples Hin Hq _ Hs _. split; cbn [fst snd].
    + by apply Hq.
    + assert (Hold : Forall (fun q : string * jsnum => normalised (fst q) = true) samples)
        by (destruct Hs as [->|[_ Hs]]; [by constructor|done]).
      unfold setNumber. destruct (String.eqb _ "__proto__"); [done|].
      apply Forall_entry_setProp; [|done].
      cbn [fst]. pose proof (allChars_split _ "|" line (Hls line Hin)) as Hsp.
      destruct (split "|" line) as [|seg segs]; [done|].
      by apply Forall_cons in Hsp as [? _].
Qed.

Lemma endOfReport_lines t d h : lines (fst (endOfReport t (d, h))) = lines d.
Proof.
  unfold endOfReport. cbn [newMetrics].
  destruct (foldl _ _ (linesOf d)) as [mk h2].
  by destruct (0 <? length (linesOf d))%nat.
Qed.

Lemma endOfReport_decodedState t st :
  wfState st → decodedState st → decodedState (endOfReport t st).
Proof.
  destruct st as [d h]. intros Hwf [Hlines Hwin]. cbn [fst snd] in *. split.
  - unfold linesOf. by rewrite endOfReport_lines.
  - intros i l Hslot.
    destruct (endOfReport_slot_ref t d h i l Hwf Hslot) as [(-> & _)|(H1 & _ & H2)].
    + exists (linesOf d). split; [done|]. apply endOfReport_view, Hwf.
    + rewrite H2. by apply (Hwin i).
Qed.

Lemma handleLines_decodedState now ls st :
  wfState st → decodedState st → decodedState (foldl (handleLine now) st ls).
Proof.
  revert st. induction ls as [|x ls IH]; intros st Hwf Hd; cbn [foldl]; [done|].
  apply IH; [by apply handleLine_wf|]. unfold handleLine.
  destruct (negb _).
  - destruct Hd as [Hlines Hwin]. split; [|exact Hwin].
    cbn [fst setLines linesOf lines default from_option id].
    apply Forall_app. split; [done|].
    constructor; [apply stripSpaceAt_is_normalised|constructor].
  - destruct (String.eqb (substr0 6 _) _).
    + destruct Hd as [_ Hwin]. split; [by constructor|exact Hwin].
    + destruct (String.eqb (substr0 4 _) _); [|done].
      by apply endOfReport_decodedState.
Qed.

(** On a running instance the pending lines are stripped and every
    window is the decoding of stripped lines. *)
Lemma reachable_decodedState st : reachable st → decodedState st.
Proof.
  induction 1 as [s h Hwf|now chunk st Hr IH|now n st Hr IH|st _ IH].
  - split; [by constructor|]. intros i l. cbn [fst start setLines setBuffer windows].
    change (windows (newDtrace s) !! i = Some (SRef l) →
            ∃ ls, Forall (fun l => normalised l = true) ls
                  ∧ viewMetrics h l = decodeValue ls).
    rewrite newDtrace_windows. by case_decide.
  - destruct st as [d h]. unfold onStdoutData.
    destruct (frame _) as [buffLines rest].
    apply handleLines_decodedState; [apply (reachable_wf _ Hr)|apply IH].
  - destruct st as [d h]. pose proof (reachable_wf _ Hr) as Hwf.
    destruct (flush_spec now n d h Hwf) as (_ & Hd & Hwf' & Hk).
    destruct (flush now n (d, h)) as [v [d' h']]. cbn [fst snd] in *. subst d'.
    destruct IH as [Hlines Hwin]. split; [done|].
    intros i l Hl. cbn [fst snd] in *.
    rewrite (keeps_viewMetrics h h'); [by apply (Hwin i)|apply Hwf|done|].
    by apply (proj2 Hwf i).
  - destruct IH as [_ Hwin]. split; [by constructor|exact Hwin].
Qed.

(** On a running instance no metric name and no label of a window
    holds whitespace or [@]: the handler strips them from every line
    before the decoder reads it. *)
Theorem stored_names_are_stripped (st : Dtrace * Heap) (i : Z) (l : loc)
    (key latency : string) (samples : list (string * jsnum)) (c : jsnum)
    (Hr : reachable st)
    (Hslot : windows (fst st) !! i = Some (SRef l))
    (Hkey : getProp key (viewMetrics (snd st) l) = Some samples)
    (Hlat : getProp latency samples = Some c) :
  normalised key = true ∧ normalised latency = true.
Proof.
  destruct (reachable_decodedState st Hr) as [_ Hwin].
  destruct (Hwin i l Hslot) as (ls & Hls & Hv). rewrite Hv in Hkey.
  pose proof (getProp_Forall _ key samples _ (decodeValue_normalised ls Hls) Hkey)
    as [Hk Hs].
  split; [exact Hk|].
  apply (getProp_Forall (fun q : string * jsnum => normalised (fst q) = true)
           latency c samples Hs Hlat).
Qed.

(** The metric [read] of a report written with blanks and an [@]. *)
Lemma stored_names_are_stripped_witness :
  normalised "read" = true ∧ normalised "10" = true.
Proof.
  apply (stored_names_are_stripped
           (deliver 120 ["= re ad"; "@ 10 | 2"] (launched "/io.d")) 0 0%nat
           "read" "10" [("10", Num 2)] (Num 2)).
  - apply reach_data, reach_start, wfHeap_empty.
  - vm_compute. reflexivity.
  - vm_compute. reflexivity.
  - reflexivity.
Defined.
